(** * AutoGBD: a shallow embedding of the harmonisation pipeline

    The cleaning stage ([autogbd/cleaning/rules.py]), the quality stage
    ([autogbd/quality/checks.py]) and the mapping engine
    ([autogbd/mapping/engine.py], [autogbd/mapping/ai_assistant.py]) with the
    provenance ledger ([autogbd/core/provenance.py]) they write to, and
    around them the data handler ([autogbd/io/handlers.py]), the validation
    of the formats ([autogbd/core/config_loader.py]) and the pipeline that
    runs the stages ([autogbd/core/pipeline.py]).

    Conventions of the embedding:
    - a pandas table is a list of rows, each row a finite map from column
      name to cell, with the list of column names beside it; the index is the
      default positional one;
    - a cell is missing ([NA], pandas' NaN/None), an integer-valued number or
      a text; floats of the source (thresholds, scores, confidences) are
      rationals;
    - a Python exception is a value of [exn]; code that can raise returns an
      [outcome], and code that also writes the ledger, the engine's assistant
      or the review file runs in the state monad [M];
    - timestamps of ledger entries are left out (no clock is modelled);
    - the file system is the list of the operations attempted on it; what
      exists, what a reader returns and what an operation raises are
      functions of that list, given by the class [OS]. *)

From Stdlib Require Import QArith Qminmax.
From stdpp Require Import base option list strings gmap pretty.

Close Scope Q_scope.
Open Scope string_scope.

(** ** Cells, tables, parameter values *)

Inductive cell : Type :=
  | NA
  | Num (z : Z)
  | Str (s : string).

#[global] Instance cell_eq_dec : EqDecision cell.
Proof. solve_decision. Defined.

Definition cell_to_sum (c : cell) : unit + (Z + string) :=
  match c with
  | NA => inl tt
  | Num z => inr (inl z)
  | Str s => inr (inr s)
  end.

Definition cell_of_sum (s : unit + (Z + string)) : cell :=
  match s with
  | inl _ => NA
  | inr (inl z) => Num z
  | inr (inr s) => Str s
  end.

#[global] Instance cell_countable : Countable cell.
Proof.
  refine (inj_countable' cell_to_sum cell_of_sum _).
  intros []; reflexivity.
Defined.

(** [pd.isna] on one cell. *)
Definition isna (c : cell) : bool :=
  match c with
  | NA => true
  | _ => false
  end.

(** [str(code)] of a cell that is not missing. *)
Definition str (c : cell) : string :=
  match c with
  | NA => "nan"
  | Num z => pretty z
  | Str s => s
  end.

Record DataFrame : Type := mkDataFrame {
  columns : list string;
  rows : list (gmap string cell);
}.

(** [row[col]]: a column the row does not hold reads as missing. *)
Definition cell_at (col : string) (r : gmap string cell) : cell :=
  default NA (r !! col).

(** [len(data)]. *)
Definition len (data : DataFrame) : nat := length (rows data).

(** [col in data.columns]. *)
Definition has_column (data : DataFrame) (col : string) : bool :=
  bool_decide (col ∈ columns data).

(** [data[col]] as the list of its cells. *)
Definition column (data : DataFrame) (col : string) : list cell :=
  cell_at col <$> rows data.

(** [data[col] = f(row)] for every row; a new column is appended to
    [data.columns]. *)
Definition assign (col : string) (f : gmap string cell → cell)
    (data : DataFrame) : DataFrame :=
  {| columns := if has_column data col then columns data
                else columns data ++ [col];
     rows := (λ r, <[col := f r]> r) <$> rows data |}.

(** [data.loc[mask, col] = f(row)]: only the rows of the mask are written. *)
Definition assign_where (mask : gmap string cell → bool) (col : string)
    (f : gmap string cell → cell) (data : DataFrame) : DataFrame :=
  {| columns := columns data;
     rows := (λ r, if mask r then <[col := f r]> r else r) <$> rows data |}.

(** [data[mask]]: the rows of the mask, in order. *)
Definition select (mask : gmap string cell → bool) (data : DataFrame)
    : DataFrame :=
  {| columns := columns data; rows := filter (λ r, mask r = true) (rows data) |}.

(** The cells of [col] in the table a call returned, when it returned. *)
Definition column_of (o : option DataFrame) (col : string)
    : option (list cell) :=
  (λ data, column data col) <$> o.

(** [Series.unique()]: first occurrences, in order of appearance. *)
Fixpoint unique_from (seen : list cell) (l : list cell) : list cell :=
  match l with
  | [] => []
  | c :: l' =>
      if bool_decide (c ∈ seen) then unique_from seen l'
      else c :: unique_from (c :: seen) l'
  end.

Definition unique (l : list cell) : list cell := unique_from [] l.

(** [Series.dropna()]. *)
Definition dropna (l : list cell) : list cell :=
  filter (λ c, isna c = false) l.

(** An issue reported by a quality check: the keys the stage itself reads or
    writes ([check], [severity], [message]); a check's extra keys ([count],
    ...) are read by nobody in the stages modelled here. *)
Record Issue : Type := mkIssue {
  issue_check : string;
  issue_severity : option string;
  issue_message : string;
}.

(** Values of configuration parameters and of ledger details
    ([Dict[str, Any]]). *)
Inductive value : Type :=
  | VNone
  | VBool (b : bool)
  | VInt (z : Z)
  | VRat (q : Q)
  | VStr (s : string)
  | VList (l : list string)
  | VIssues (l : list Issue).

(** Python truthiness of a parameter value. *)
Definition truthy (v : value) : bool :=
  match v with
  | VNone => false
  | VBool b => b
  | VInt z => negb (z =? 0)%Z
  | VRat q => negb (Qeq_bool q 0)
  | VStr s => negb (String.eqb s "")
  | VList l => negb (bool_decide (l = []))
  | VIssues l => match l with [] => false | _ => true end
  end.

(** A parameter read as a number a numeric column can be compared with;
    [bool] is a subclass of [int]. *)
Definition as_number (v : value) : option Q :=
  match v with
  | VInt z => Some (inject_Z z)
  | VRat q => Some q
  | VBool b => Some (if b then 1%Q else 0%Q)
  | _ => None
  end.

(** ** Exceptions and the state monad *)

Record exn : Type := mkExn { exn_class : string; exn_message : string }.

Inductive outcome (A : Type) : Type :=
  | Return (a : A)
  | Raise (e : exn).
Arguments Return {A} a.
Arguments Raise {A} e.

(** A computation over the mutable state [S]; the state written before an
    exception is raised stays written. *)
Definition M (S A : Type) : Type := S → S * outcome A.

Definition ret {S A} (a : A) : M S A := λ s, (s, Return a).
Definition raise {S A} (e : exn) : M S A := λ s, (s, Raise e).
Definition bind {S A B} (m : M S A) (k : A → M S B) : M S B :=
  λ s, match m s with
       | (s', Return a) => k a s'
       | (s', Raise e) => (s', Raise e)
       end.
Definition modify {S} (f : S → S) : M S unit := λ s, (f s, Return tt).
Definition gets {S A} (f : S → A) : M S A := λ s, (s, Return (f s)).

(** The table a call returned; the empty table when it raised. *)
Definition table_of (o : outcome DataFrame) : DataFrame :=
  match o with
  | Return data => data
  | Raise _ => {| columns := []; rows := [] |}
  end.

(** The value a call returned, [None] when it raised. *)
Definition returned {A} (o : outcome A) : option A :=
  match o with
  | Return a => Some a
  | Raise _ => None
  end.

Notation "x <- m ;; k" := (bind m (λ x, k))
  (at level 100, m at next level, right associativity, only parsing).
Notation "m ;;; k" := (bind m (λ _, k))
  (at level 100, right associativity, only parsing).

(** ** Provenance ledger ([core/provenance.py]) *)

Module Provenance.

Record ProvenanceEntry : Type := mkEntry {
  step : string;
  action : string;
  details : gmap string value;
  rows_affected : option Z;
  rule_name : option string;
  file_used : option string;
}.

(** [ProvenanceTracker.log]: one entry appended. *)
Definition log (entries : list ProvenanceEntry) (e : ProvenanceEntry)
    : list ProvenanceEntry :=
  entries ++ [e].

(** [if self.provenance: self.provenance.log(...)]: a stage holds an
    optional tracker. *)
Definition log_if (provenance : option (list ProvenanceEntry))
    (e : ProvenanceEntry) : option (list ProvenanceEntry) :=
  (λ entries, log entries e) <$> provenance.

(** What [get_summary] keeps for one step. *)
Record StepSummary : Type := mkStepSummary {
  actions : list string;
  total_rows_affected : Z;
  entry_count : nat;
}.

(** What [get_summary] returns. *)
Record Summary : Type := mkSummary {
  run_id : string;
  total_entries : nat;
  steps : gmap string StepSummary;
}.

(** One turn of the loop of [get_summary]: the step's record is created on
    its first entry; [rows_affected] is added when it is truthy (neither
    [None] nor 0). *)
Definition summarize (steps : gmap string StepSummary)
    (entry : ProvenanceEntry) : gmap string StepSummary :=
  let steps :=
    if bool_decide (step entry ∈ dom steps) then steps
    else <[step entry := {| actions := []; total_rows_affected := 0;
                            entry_count := 0 |}]> steps in
  match steps !! step entry with
  | Some current =>
      <[step entry :=
          {| actions := actions current ++ [action entry];
             total_rows_affected :=
               match rows_affected entry with
               | Some n => if (n =? 0)%Z then total_rows_affected current
                           else (total_rows_affected current + n)%Z
               | None => total_rows_affected current
               end;
             entry_count := entry_count current + 1 |}]> steps
  | None => steps
  end.

(** [ProvenanceTracker.get_summary]. *)
Definition get_summary (run_id : string) (entries : list ProvenanceEntry)
    : Summary :=
  {| run_id := run_id;
     total_entries := length entries;
     steps := foldl summarize ∅ entries |}.

End Provenance.
Import Provenance.

(** ** Cleaning stage ([cleaning/rules.py]) *)

Module Cleaning.

Record CleaningRule : Type := mkRule {
  name : string;
  enabled : bool;
  parameters : gmap string value;
}.

(** What the stage takes from pandas without looking inside: the numeric
    reading of a text cell by [pd.to_numeric(errors="coerce")], and the
    bodies of the seven rules that are plain pandas calls. *)
Class Pandas : Type := {
  to_numeric_text : string → option Z;
  pandas_rule : string → DataFrame → gmap string value → outcome DataFrame;
}.

Section rules.
Context `{Pandas}.

(** [params.get(key, default)]. *)
Definition get (params : gmap string value) (key : string) (dflt : value)
    : value :=
  default dflt (params !! key).

(** [pd.to_numeric(cell, errors="coerce")]. *)
Definition to_numeric (c : cell) : cell :=
  match c with
  | NA => NA
  | Num z => Num z
  | Str s => match to_numeric_text s with Some z => Num z | None => NA end
  end.

(** [cell < bound] and [cell > bound] on a numeric column: a comparison with
    a missing cell is false. *)
Definition cell_lt (c : cell) (bound : Q) : bool :=
  match c with
  | Num z => negb (Qle_bool bound (inject_Z z))
  | _ => false
  end.

Definition cell_gt (c : cell) (bound : Q) : bool :=
  match c with
  | Num z => negb (Qle_bool (inject_Z z) bound)
  | _ => false
  end.

(** A bound of the range check as the comparison takes it: against [None]
    every cell compares false, a number compares as itself, and anything
    else makes the comparison raise. *)
Definition as_bound (v : value) : option (option Q) :=
  match v with
  | VNone => Some None
  | _ => match as_number v with
         | Some q => Some (Some q)
         | None => None
         end
  end.

Definition below (c : cell) (bound : option Q) : bool :=
  match bound with
  | Some q => cell_lt c q
  | None => false
  end.

Definition above (c : cell) (bound : option Q) : bool :=
  match bound with
  | Some q => cell_gt c q
  | None => false
  end.

(** pandas' error for comparing a numeric column with a bound that is not
    a number. *)
Definition bound_type_error : exn :=
  mkExn "TypeError" "Invalid comparison between a numeric column and a bound that is not a number".

(** The float64 nearest to a whole number: 53 significant bits are kept, and
    what is cut off rounds to the nearest, a tie to the even one. *)
Definition float64 (z : Z) : Z :=
  let a := Z.abs z in
  let e := (Z.log2 a - 52)%Z in
  if (e <=? 0)%Z then z
  else
    let q := Z.shiftr a e in
    let r := (a - Z.shiftl q e)%Z in
    let half := Z.shiftl 1 (e - 1) in
    let q' := if (half <? r)%Z || ((r =? half)%Z && Z.odd q)
              then (q + 1)%Z else q in
    (Z.sgn z * Z.shiftl q' e)%Z.

Definition float64_cell (c : cell) : cell :=
  match c with
  | Num z => Num (float64 z)
  | _ => c
  end.

(** [CleaningEngine._standardize_ages]. Comparing the numeric column with a
    bound that is neither a number nor [None] raises pandas' [TypeError].
    Writing [None] into the column of whole numbers,
    [data.loc[invalid_mask, column] = None], makes it a float64 column: the
    cells of the mask become NaN and every other cell the float64 nearest
    to it. *)
Definition _standardize_ages (data : DataFrame) (params : gmap string value)
    : outcome DataFrame :=
  match get params "column" (VStr "age") with
  | VStr column =>
      if negb (has_column data column) then Return data
      else
        let data := assign column (λ r, to_numeric (cell_at column r)) data in
        let min_age := get params "min_age" (VInt 0) in
        let max_age := get params "max_age" (VInt 150) in
        match as_bound min_age, as_bound max_age with
        | Some lo, Some hi =>
            let invalid_mask r :=
              below (cell_at column r) lo || above (cell_at column r) hi in
            if existsb invalid_mask (rows data) then
              if truthy (get params "remove_invalid" (VBool false))
              then Return (select (λ r, negb (invalid_mask r)) data)
              else
                Return
                  (assign column (λ r, float64_cell (cell_at column r))
                     (assign_where invalid_mask column (λ _, NA) data))
            else Return data
        | _, _ =>
            Raise bound_type_error
        end
  | _ => Return data
  end.

(** The keys of [CleaningEngine._rules]. *)
Definition rule_names : list string :=
  [ "normalize_column_names"; "remove_duplicates"; "normalize_sex";
    "standardize_ages"; "handle_missing_values"; "normalize_text";
    "remove_outliers"; "standardize_dates" ].

(** [self._rules.get(name)]: [None] when [name not in self._rules]. *)
Definition _rules (name : string)
    : option (DataFrame → gmap string value → outcome DataFrame) :=
  if bool_decide (name = "standardize_ages") then Some _standardize_ages
  else if bool_decide (name ∈ rule_names) then Some (pandas_rule name)
  else None.

Definition rule_skipped (rule : CleaningRule) : ProvenanceEntry :=
  {| step := "cleaning"; action := "rule_skipped";
     details := {[ "reason" := VStr ("Unknown rule: " +:+ name rule) ]};
     rows_affected := None; rule_name := Some (name rule);
     file_used := None |}.

Definition rule_applied (rule : CleaningRule) (rows_before rows_after : nat)
    : ProvenanceEntry :=
  {| step := "cleaning"; action := name rule;
     details := parameters rule;
     rows_affected := Some (Z.abs (Z.of_nat rows_after - Z.of_nat rows_before));
     rule_name := Some (name rule); file_used := None |}.

Definition rule_error (rule : CleaningRule) (e : exn) : ProvenanceEntry :=
  {| step := "cleaning"; action := "rule_error";
     details := {[ "error" := VStr (exn_message e);
                   "rule" := VStr (name rule) ]};
     rows_affected := None; rule_name := Some (name rule);
     file_used := None |}.

Definition cleaning_complete (initial_rows final_rows : nat)
    : ProvenanceEntry :=
  {| step := "cleaning"; action := "cleaning_complete";
     details := {[ "initial_rows" := VInt (Z.of_nat initial_rows);
                   "final_rows" := VInt (Z.of_nat final_rows);
                   "rows_removed" :=
                     VInt (Z.of_nat initial_rows - Z.of_nat final_rows) ]};
     rows_affected := None; rule_name := None; file_used := None |}.

(** The [for rule in rules] loop of [apply_rules], over the engine's
    optional tracker. *)
Fixpoint rules_loop (rules : list CleaningRule) (result : DataFrame)
    : M (option (list ProvenanceEntry)) DataFrame :=
  match rules with
  | [] => ret result
  | rule :: rest =>
      if negb (enabled rule) then rules_loop rest result
      else
        match _rules (name rule) with
        | None =>
            modify (λ p, log_if p (rule_skipped rule)) ;;;
            rules_loop rest result
        | Some body =>
            match body result (parameters rule) with
            | Return result' =>
                modify (λ p, log_if p
                  (rule_applied rule (len result) (len result'))) ;;;
                rules_loop rest result'
            | Raise e =>
                modify (λ p, log_if p (rule_error rule e)) ;;;
                raise e
            end
        end
  end.

(** [CleaningEngine.apply_rules]. *)
Definition apply_rules (data : DataFrame) (rules : list CleaningRule)
    : M (option (list ProvenanceEntry)) DataFrame :=
  let initial_rows := len data in
  result <- rules_loop rules data ;;
  modify (λ p, log_if p (cleaning_complete initial_rows (len result))) ;;;
  ret result.

End rules.

(** A rule backend for running the stage on examples: text cells have no
    numeric reading and the plain pandas rules return their table. *)
Definition plain_pandas : Pandas :=
  {| to_numeric_text := λ _, None;
     pandas_rule := λ _ data _, Return data |}.

(** Rules for running the stage on examples: a name outside the library,
    [standardize_ages] as is and with a text as lower bound, and one more
    rule. *)
Definition foo_rule : CleaningRule := mkRule "foo" true ∅.
Definition ages_rule : CleaningRule := mkRule "standardize_ages" true ∅.
Definition bad_ages_rule : CleaningRule :=
  mkRule "standardize_ages" true {[ "min_age" := VStr "x" ]}.
Definition duplicates_rule : CleaningRule :=
  mkRule "remove_duplicates" true ∅.

Definition disabled_ages_rule : CleaningRule :=
  mkRule "standardize_ages" false ∅.

(** The table of [tests/test_cleaning.py::test_standardize_ages]. *)
Definition ages_table : DataFrame :=
  {| columns := ["age"];
     rows := (λ z, {[ "age" := Num z ]}) <$> [25; 150; -5; 200; 45]%Z |}.

(** The ages table after [standardize_ages] with the default parameters. *)
Definition standardized_ages : DataFrame :=
  table_of (@_standardize_ages plain_pandas ages_table ∅).

(** Two ages, one of them above 2^53 and one negative, and the parameters
    that take the large one as upper bound and no lower bound. *)
Definition large_ages_table : DataFrame :=
  {| columns := ["age"];
     rows := (λ z, {[ "age" := Num z ]}) <$> [2 ^ 53 + 3; -1]%Z |}.

Definition large_bound_params : gmap string value :=
  {[ "max_age" := VInt (2 ^ 53 + 3) ]}.

Definition open_range_params : gmap string value :=
  {[ "min_age" := VNone; "max_age" := VInt 150 ]}.

End Cleaning.

(** ** Quality stage ([quality/checks.py]) *)

Module Quality.

Record QualityCheck : Type := mkCheck {
  name : string;
  enabled : bool;
  parameters : gmap string value;
}.

(** What a check returns: [{"issues": [...], "summary": "..."}]. *)
Record CheckResult : Type := mkCheckResult {
  issues : list Issue;
  summary : string;
}.

(** What [run_checks] returns. [quality_score] is [None] where the source
    divides by zero cells (rows but no column): the float it then computes
    is not a number. *)
Record Results : Type := mkResults {
  total_rows : nat;
  checks_run : list string;
  issues_found : list Issue;
  quality_score : option Q;
}.

(** The bodies of the eight checks that are plain pandas calls. *)
Class PandasChecks : Type := {
  pandas_check : string → DataFrame → gmap string value → outcome CheckResult;
}.

Section checks.
Context `{PandasChecks}.

(** Python's [repr] of a list of strings, as the f-string prints it. *)
Definition repr_list (l : list string) : string :=
  "[" +:+ String.concat ", " ((λ s, "'" +:+ s +:+ "'") <$> l) +:+ "]".

(** [QualityChecker._check_completeness]. [required_columns] is iterated:
    a list gives its items, a text its characters, anything else is not
    iterable. *)
Definition _check_completeness (data : DataFrame) (params : gmap string value)
    : outcome CheckResult :=
  let required_columns := default (VList []) (params !! "required_columns") in
  let iterate :=
    match required_columns with
    | VList l => Some l
    | VStr s => Some ((λ a, String a EmptyString) <$> String.list_ascii_of_string s)
    | _ => None
    end in
  match iterate with
  | None => Raise (mkExn "TypeError" "object is not iterable")
  | Some required =>
      let missing_columns :=
        filter (λ col, has_column data col = false) required in
      let issues :=
        match missing_columns with
        | [] => []
        | _ => [ {| issue_check := "check_completeness";
                    issue_severity := Some "error";
                    issue_message := "Missing required columns: "
                                     +:+ repr_list missing_columns |} ]
        end in
      Return {| issues := issues;
                summary := "Completeness check: " +:+ pretty (length issues)
                           +:+ " issues found" |}
  end.

(** The keys of [QualityChecker._checks]. *)
Definition check_names : list string :=
  [ "check_age_range"; "check_sex_values"; "check_missing_values";
    "check_unmapped_codes"; "check_death_count_validity";
    "check_value_ranges"; "check_duplicates"; "check_date_validity";
    "check_completeness" ].

(** [self._checks.get(name)]: [None] when [name not in self._checks]. *)
Definition _checks (name : string)
    : option (DataFrame → gmap string value → outcome CheckResult) :=
  if bool_decide (name = "check_completeness") then Some _check_completeness
  else if bool_decide (name ∈ check_names) then Some (pandas_check name)
  else None.

(** [data.isna().sum().sum()]: the missing cells over all columns. *)
Definition missing_cells (data : DataFrame) : nat :=
  sum_list ((λ r, length (filter (λ col, isna (cell_at col r) = true)
                                 (columns data))) <$> rows data).

(** The issues of one severity. *)
Definition count_severity (severity : string) (issues : list Issue) : nat :=
  length (filter (λ i, issue_severity i = Some severity) issues).

(** One step of the penalty loop over [results["issues_found"]]. *)
Definition penalize (score : Q) (issue : Issue) : Q :=
  if bool_decide (issue_severity issue = Some "error") then (score - 10)%Q
  else if bool_decide (issue_severity issue = Some "warning") then (score - 2)%Q
  else score.

(** [QualityChecker._calculate_quality_score]. *)
Definition _calculate_quality_score (data : DataFrame)
    (issues_found : list Issue) : option Q :=
  if bool_decide (len data = 0) then Some 0%Q
  else
    let score := foldl penalize 100%Q issues_found in
    let cells := len data * length (columns data) in
    if bool_decide (cells = 0) then None
    else
      let completeness :=
        (1 - inject_Z (Z.of_nat (missing_cells data))
             / inject_Z (Z.of_nat cells))%Q in
      let score := (score * (7 # 10) + (completeness * 100) * (3 # 10))%Q in
      Some (Qmax 0 (Qmin 100 score)).

Definition check_skipped (check : QualityCheck) : ProvenanceEntry :=
  {| step := "quality"; action := "check_skipped";
     details := {[ "reason" := VStr ("Unknown check: " +:+ name check) ]};
     rows_affected := None; rule_name := None; file_used := None |}.

Definition check_logged (check : QualityCheck) (r : CheckResult)
    : ProvenanceEntry :=
  {| step := "quality"; action := name check;
     details := {[ "issues" := VIssues (issues r);
                   "summary" := VStr (summary r) ]};
     rows_affected := None; rule_name := None; file_used := None |}.

Definition check_error (check : QualityCheck) (e : exn) : ProvenanceEntry :=
  {| step := "quality"; action := "check_error";
     details := {[ "error" := VStr (exn_message e);
                   "check" := VStr (name check) ]};
     rows_affected := None; rule_name := None; file_used := None |}.

Definition quality_check_complete (r : Results) : ProvenanceEntry :=
  {| step := "quality"; action := "quality_check_complete";
     details := {[ "checks_run" := VInt (Z.of_nat (length (checks_run r)));
                   "issues_found" := VInt (Z.of_nat (length (issues_found r)));
                   "quality_score" :=
                     match quality_score r with
                     | Some q => VRat q
                     | None => VNone
                     end ]};
     rows_affected := None; rule_name := None; file_used := None |}.

(** The synthetic issue of a check that raised. *)
Definition failed_check_issue (check : QualityCheck) (e : exn) : Issue :=
  {| issue_check := name check;
     issue_severity := Some "error";
     issue_message := "Check failed with error: " +:+ exn_message e |}.

(** The [for check in checks] loop of [run_checks]: it threads
    [results["checks_run"]] and [results["issues_found"]]; a check that
    raises is recovered into an issue. *)
Fixpoint checks_loop (data : DataFrame) (checks : list QualityCheck)
    (run : list string) (found : list Issue)
    : M (option (list ProvenanceEntry)) (list string * list Issue) :=
  match checks with
  | [] => ret (run, found)
  | check :: rest =>
      if negb (enabled check) then checks_loop data rest run found
      else
        match _checks (name check) with
        | None =>
            modify (λ p, log_if p (check_skipped check)) ;;;
            checks_loop data rest run found
        | Some body =>
            match body data (parameters check) with
            | Return check_result =>
                modify (λ p, log_if p (check_logged check check_result)) ;;;
                checks_loop data rest (run ++ [name check])
                  (found ++ issues check_result)
            | Raise e =>
                modify (λ p, log_if p (check_error check e)) ;;;
                checks_loop data rest run
                  (found ++ [failed_check_issue check e])
            end
        end
  end.

(** [QualityChecker.run_checks]. *)
Definition run_checks (data : DataFrame) (checks : list QualityCheck)
    : M (option (list ProvenanceEntry)) Results :=
  looped <- checks_loop data checks [] [] ;;
  let results :=
    {| total_rows := len data;
       checks_run := fst looped;
       issues_found := snd looped;
       quality_score := _calculate_quality_score data (snd looped) |} in
  modify (λ p, log_if p (quality_check_complete results)) ;;;
  ret results.

End checks.

(** A check backend for running the stage on examples: each plain pandas
    check reports one warning. *)
Definition warning_checks : PandasChecks :=
  {| pandas_check := λ name _ _,
       Return {| issues := [ {| issue_check := name;
                                issue_severity := Some "warning";
                                issue_message := "" |} ];
                 summary := "" |} |}.

(** Checks for running the stage on examples: [check_completeness] with a
    number where the list of columns belongs (it raises), with a list, and
    one more check. *)
Definition broken_completeness_check : QualityCheck :=
  mkCheck "check_completeness" true {[ "required_columns" := VInt 3 ]}.
Definition completeness_check : QualityCheck :=
  mkCheck "check_completeness" true
    {[ "required_columns" := VList ["a"; "z"] ]}.
Definition duplicates_check : QualityCheck :=
  mkCheck "check_duplicates" true ∅.
Definition not_iterable_error : exn :=
  mkExn "TypeError" "object is not iterable".
Definition one_warning : Issue :=
  {| issue_check := "check_duplicates"; issue_severity := Some "warning";
     issue_message := "" |}.

(** The table of [tests/test_quality.py::test_quality_score_calculation]. *)
Definition complete_table : DataFrame :=
  {| columns := ["a"; "b"];
     rows := [ {[ "a" := Num 1; "b" := Num 4 ]};
               {[ "a" := Num 2; "b" := Num 5 ]};
               {[ "a" := Num 3; "b" := Num 6 ]} ] |}.

(** A table with columns and no row. *)
Definition empty_table : DataFrame :=
  {| columns := ["a"; "b"]; rows := [] |}.

End Quality.

(** ** Mapping engine ([mapping/engine.py], [mapping/ai_assistant.py]) *)

Module Mapping.

Record MappingSource : Type := mkSource {
  type : string;
  file : option string;
  version : option string;
  threshold : Q;
  enabled : bool;
}.

(** [MappingConfig]; the engine reads only [sources] from it. *)
Record MappingConfig : Type := mkConfig {
  config_source_column : string;
  config_target_column : string;
  sources : list MappingSource;
}.

(** One suggestion of the assistant: [{"gbd_cause": .., "confidence": ..}]. *)
Record Suggestion : Type := mkSuggestion {
  gbd_cause : string;
  confidence : Q;
}.

(** One row of [human_review_required.csv]. *)
Record ReviewRow : Type := mkReviewRow {
  source_code : cell;
  suggestion_rank : nat;
  suggested_gbd_cause : string;
  confidence_score : Q;
  human_mapping : string;
}.

(** [AIAssistant]: whether a model is loaded, and the cause list. *)
Record AIAssistant : Type := mkAssistant {
  model : bool;
  gbd_causes : list string;
}.

(** The engine's mutable state together with the files it touches:
    [self.provenance] (the tracker it shares with its assistant),
    [self.ai_assistant], the files [pd.read_csv] can read (a path that is
    absent does not exist; a present one is its parsed table) and the review
    file as last written. *)
Record State : Type := mkState {
  provenance : option (list ProvenanceEntry);
  ai_assistant : option AIAssistant;
  files : gmap string DataFrame;
  review_file : option (list ReviewRow);
}.

(** The scorers the engine calls and does not contain: rapidfuzz's
    [fuzz.ratio] on a query and a choice, whether the optional AI packages
    import, loading the sentence model, and the cosine similarity of a code's
    embedding to a cause's (or the exception the model raises on that code). *)
Class Scorers : Type := {
  ratio : string → cell → Q;
  HAS_AI_DEPS : bool;
  load_model : string → outcome unit;
  cosine_similarity : string → outcome (string → Q);
}.

Section engine.
Context `{Scorers}.
Variables (source_column target_column : string).

Definition log_entry (e : ProvenanceEntry) : M State unit :=
  modify (λ s, {| provenance := log_if (provenance s) e;
                  ai_assistant := ai_assistant s;
                  files := files s;
                  review_file := review_file s |}).

Definition set_assistant (a : AIAssistant) : M State unit :=
  modify (λ s, {| provenance := provenance s;
                  ai_assistant := Some a;
                  files := files s;
                  review_file := review_file s |}).

Definition write_review (review_rows : list ReviewRow) : M State unit :=
  modify (λ s, {| provenance := provenance s;
                  ai_assistant := ai_assistant s;
                  files := files s;
                  review_file := Some review_rows |}).

Definition entry (action : string) (details : gmap string value)
    (rows_affected : option Z) (file_used : option string)
    : ProvenanceEntry :=
  {| step := "mapping"; action := action; details := details;
     rows_affected := rows_affected; rule_name := None;
     file_used := file_used |}.

(** *** [process.extractOne] of rapidfuzz

    The library's loop, for a scorer where higher is better: missing
    choices are skipped, a choice is taken when its score reaches the
    cutoff and beats the best so far, the cutoff rises to the best score,
    and the loop stops at the optimal score 100. *)
Fixpoint extractOne_from (query : string) (choices : list cell)
    (score_cutoff : Q) (result : option (cell * Q)) : option (cell * Q) :=
  match choices with
  | [] => result
  | choice :: rest =>
      if isna choice then extractOne_from query rest score_cutoff result
      else
        let score := ratio query choice in
        let better :=
          Qle_bool score_cutoff score
          && match result with
             | None => true
             | Some (_, best) => negb (Qle_bool score best)
             end in
        let score_cutoff := if better then score else score_cutoff in
        let result := if better then Some (choice, score) else result in
        if Qeq_bool score 100 then result
        else extractOne_from query rest score_cutoff result
  end.

Definition extractOne (query : string) (choices : list cell)
    (score_cutoff : Q) : option (cell * Q) :=
  extractOne_from query choices score_cutoff None.

(** *** [AIAssistant] *)

(** The default cause list of [AIAssistant._load_gbd_causes]. *)
Definition default_gbd_causes : list string :=
  [ "Cardiovascular diseases"; "Neoplasms"; "Infectious diseases";
    "Respiratory diseases"; "Digestive diseases"; "Neurological disorders";
    "Injuries"; "Maternal and neonatal conditions" ].

Definition default_model_name : string :=
  "sentence-transformers/all-MiniLM-L6-v2".

(** [AIAssistant(provenance=self.provenance)]: the constructor as the engine
    calls it, with the default model name and no cause list path. *)
Definition new_assistant : M State AIAssistant :=
  if negb HAS_AI_DEPS then
    log_entry (entry "ai_initialization_failed"
      {[ "error" := VStr "AI dependencies (sentence-transformers, torch) not installed" ]}
      None None) ;;;
    ret {| model := false; gbd_causes := [] |}
  else
    match load_model default_model_name with
    | Return _ =>
        log_entry (entry "ai_model_loaded"
          {[ "model_name" := VStr default_model_name ]} None None) ;;;
        ret {| model := true; gbd_causes := default_gbd_causes |}
    | Raise e =>
        log_entry (entry "ai_model_error"
          {[ "error" := VStr (exn_message e) ]} None None) ;;;
        ret {| model := false; gbd_causes := default_gbd_causes |}
    end.

(** What torch raises in the [try] block of [suggest_mappings] once the
    embeddings are there: [cosine_similarity(...)[0]] is one number (a tensor
    without dimension), not the row of the similarities;
    [similarities.topk(k)] refuses it for every [k] above 1, and for the
    other [k] the indexing [similarities[top_indices]] refuses it. *)
Definition scalar_tensor_error (k : nat) : exn :=
  if bool_decide (1 < k)%nat
  then mkExn "RuntimeError" "selected index k out of range"
  else mkExn "IndexError" "too many indices for tensor of dimension 0".

(** [AIAssistant.suggest_mappings]. With a model and causes the [try] block
    raises on every call, from the model or from torch as above, and the
    [except] clause logs the error and returns no suggestion. *)
Definition suggest_mappings (assistant : AIAssistant) (source_code : string)
    (top_k : nat) : M State (list Suggestion) :=
  if negb (model assistant) || bool_decide (gbd_causes assistant = [])
  then ret []
  else
    let raised :=
      match cosine_similarity source_code with
      | Return _ =>
          scalar_tensor_error (top_k `min` length (gbd_causes assistant))
      | Raise e => e
      end in
    log_entry (entry "ai_suggestion_error"
      {[ "error" := VStr (exn_message raised);
         "source_code" := VStr source_code ]} None None) ;;;
    ret [].

(** *** The mapping sources *)

(** [data[self.target_column].isna()] on one row. *)
Definition unmapped_mask (r : gmap string cell) : bool :=
  isna (cell_at target_column r).

(** [dict.get(key)] as [Series.map(dict)] applies it: a key the dictionary
    does not hold maps to missing. *)
Definition map_with (mapping_dict : gmap cell cell) (key : cell) : cell :=
  default NA (mapping_dict !! key).

(** [data.loc[unmapped_mask, target] =
     data.loc[unmapped_mask, source].map(mapping_dict)]. *)
Definition apply_dict (mapping_dict : gmap cell cell) (data : DataFrame)
    : DataFrame :=
  assign_where unmapped_mask target_column
    (λ r, map_with mapping_dict (cell_at source_column r)) data.

(** [data[col]] raises [KeyError] for a column the table does not have. *)
Definition require_column (data : DataFrame) (col : string) : M State unit :=
  if has_column data col then ret tt
  else raise (mkExn "KeyError" col).

(** [not source.file]: no path, or the empty one. *)
Definition no_file (source : MappingSource) : bool :=
  match file source with
  | None => true
  | Some path => String.eqb path ""
  end.

Definition path_of (source : MappingSource) : string :=
  default "" (file source).

Definition opt_str (o : option string) : value :=
  match o with
  | Some s => VStr s
  | None => VNone
  end.

(** [sum(mask)]: the rows of a table that are still unmapped. *)
Definition count_unmapped (data : DataFrame) : nat :=
  length (filter (λ r, unmapped_mask r = true) (rows data)).

(** [dict(zip(keys, values))]: a later pair overwrites an earlier one. *)
Definition dict_zip (keys values : list cell) : gmap cell cell :=
  foldl (λ d kv, <[kv.1 := kv.2]> d) ∅ (zip keys values).

(** [MappingEngine._apply_direct_mapping]. *)
Definition _apply_direct_mapping (data : DataFrame) (source : MappingSource)
    : M State DataFrame :=
  if no_file source then ret data
  else
    let mapping_file := path_of source in
    fs <- gets files ;;
    match fs !! mapping_file with
    | None =>
        log_entry (entry "error"
          {[ "error" := VStr ("Mapping file not found: " +:+ mapping_file) ]}
          None (Some mapping_file)) ;;;
        ret data
    | Some mapping_df =>
        if negb (has_column mapping_df "source_code")
           || negb (has_column mapping_df "target_code")
        then raise (mkExn "ValueError"
               "Mapping file must contain 'source_code' and 'target_code' columns")
        else
          let mapping_dict :=
            dict_zip (column mapping_df "source_code")
                     (column mapping_df "target_code") in
          require_column data target_column ;;;
          require_column data source_column ;;;
          let data' := apply_dict mapping_dict data in
          let mapped_count :=
            (Z.of_nat (count_unmapped data)
             - Z.of_nat (count_unmapped data'))%Z in
          log_entry (entry "direct_mapping"
            {[ "mapping_file" := VStr mapping_file;
               "version" := opt_str (version source);
               "mapped_count" := VInt mapped_count ]}
            (Some mapped_count) (Some mapping_file)) ;;;
          ret data'
    end.

(** The loop of [_apply_fuzzy_mapping] that fills [mapping_dict]. *)
Definition fuzzy_dict (target_codes : list cell) (score_cutoff : Q)
    (unmapped_codes : list cell) : gmap cell cell :=
  foldl (λ mapping_dict code,
           if isna code then mapping_dict
           else match extractOne (str code) target_codes score_cutoff with
                | Some result => <[code := result.1]> mapping_dict
                | None => mapping_dict
                end)
        ∅ unmapped_codes.

(** [MappingEngine._apply_fuzzy_mapping]. *)
Definition _apply_fuzzy_mapping (data : DataFrame) (source : MappingSource)
    : M State DataFrame :=
  if no_file source then ret data
  else
    let mapping_file := path_of source in
    fs <- gets files ;;
    match fs !! mapping_file with
    | None => ret data
    | Some mapping_df =>
        if negb (has_column mapping_df "target_code")
        then raise (mkExn "ValueError"
               "Mapping file must contain 'target_code' column")
        else
          let target_codes := column mapping_df "target_code" in
          let score_cutoff := (threshold source * 100)%Q in
          require_column data target_column ;;;
          require_column data source_column ;;;
          let unmapped_codes :=
            unique (column (select unmapped_mask data) source_column) in
          let mapping_dict :=
            fuzzy_dict target_codes score_cutoff unmapped_codes in
          let data' := apply_dict mapping_dict data in
          let mapped_count := Z.of_nat (size mapping_dict) in
          log_entry (entry "fuzzy_mapping"
            {[ "mapping_file" := VStr mapping_file;
               "threshold" := VRat (threshold source);
               "mapped_count" := VInt mapped_count ]}
            (Some mapped_count) (Some mapping_file)) ;;;
          ret data'
    end.

(** The loop of [_apply_ai_mapping] over the unmapped codes: it fills
    [suggestions] and [high_confidence_mappings]. *)
Fixpoint ai_loop (assistant : AIAssistant) (threshold : Q)
    (unmapped_codes : list cell)
    (suggestions : gmap cell (list Suggestion))
    (high_confidence_mappings : gmap cell cell)
    : M State (gmap cell (list Suggestion) * gmap cell cell) :=
  match unmapped_codes with
  | [] => ret (suggestions, high_confidence_mappings)
  | code :: rest =>
      top_matches <- suggest_mappings assistant (str code) 3 ;;
      match top_matches with
      | top :: _ =>
          if Qle_bool threshold (confidence top)
          then ai_loop assistant threshold rest suggestions
                 (<[code := Str (gbd_cause top)]> high_confidence_mappings)
          else ai_loop assistant threshold rest
                 (<[code := top_matches]> suggestions)
                 high_confidence_mappings
      | [] =>
          ai_loop assistant threshold rest
            (<[code := top_matches]> suggestions) high_confidence_mappings
      end
  end.

(** [MappingEngine._apply_ai_mapping]. *)
Definition _apply_ai_mapping (data : DataFrame) (source : MappingSource)
    : M State DataFrame :=
  current <- gets ai_assistant ;;
  assistant <- match current with
               | Some assistant => ret assistant
               | None => assistant <- new_assistant ;;
                         set_assistant assistant ;;;
                         ret assistant
               end ;;
  require_column data target_column ;;;
  let unmapped_rows := select unmapped_mask data in
  if bool_decide (len unmapped_rows = 0) then ret data
  else
    require_column data source_column ;;;
    let unmapped_codes :=
      unique (dropna (column unmapped_rows source_column)) in
    looped <- ai_loop assistant (threshold source) unmapped_codes ∅ ∅ ;;
    let high_confidence_mappings := snd looped in
    if bool_decide (high_confidence_mappings = ∅) then ret data
    else
      let data' := apply_dict high_confidence_mappings data in
      let auto_mapped_count := Z.of_nat (size high_confidence_mappings) in
      log_entry (entry "ai_mapping_auto"
        {[ "threshold" := VRat (threshold source);
           "auto_mapped_count" := VInt auto_mapped_count ]}
        (Some auto_mapped_count) None) ;;;
      ret data'.

(** *** The review file *)

Definition review_path : string := "human_review_required.csv".

(** The review rows of one code, from its suggestions. *)
Definition review_rows_of (code : cell) (suggestions : list Suggestion)
    : list ReviewRow :=
  match suggestions with
  | [] => [ {| source_code := code; suggestion_rank := 0;
               suggested_gbd_cause := ""; confidence_score := 0%Q;
               human_mapping := "" |} ]
  | _ => imap (λ i suggestion,
                {| source_code := code; suggestion_rank := S i;
                   suggested_gbd_cause := gbd_cause suggestion;
                   confidence_score := confidence suggestion;
                   human_mapping := "" |}) suggestions
  end.

(** The [for code in unique_codes] loop of [_generate_review_file]. *)
Fixpoint review_loop (assistant : AIAssistant) (unique_codes : list cell)
    (review_rows : list ReviewRow) : M State (list ReviewRow) :=
  match unique_codes with
  | [] => ret review_rows
  | code :: rest =>
      suggestions <- suggest_mappings assistant (str code) 3 ;;
      review_loop assistant rest
        (review_rows ++ review_rows_of code suggestions)
  end.

(** [MappingEngine._generate_review_file]. *)
Definition _generate_review_file (unmapped_data : DataFrame) : M State unit :=
  require_column unmapped_data source_column ;;;
  let unique_codes := unique (dropna (column unmapped_data source_column)) in
  current <- gets ai_assistant ;;
  review_rows <- match current with
                 | Some assistant => review_loop assistant unique_codes []
                 | None => ret []
                 end ;;
  match review_rows with
  | [] => ret tt
  | _ =>
      write_review review_rows ;;;
      log_entry (entry "review_file_generated"
        {[ "review_file" := VStr review_path;
           "unmapped_codes_count" := VInt (Z.of_nat (length unique_codes)) ]}
        None (Some review_path))
  end.

(** *** [apply_mappings] *)

(** The dispatch on [source.type] inside the loop of [apply_mappings]. *)
Definition apply_source (result : DataFrame) (source : MappingSource)
    : M State DataFrame :=
  if String.eqb (type source) "direct" then _apply_direct_mapping result source
  else if String.eqb (type source) "fuzzy"
  then _apply_fuzzy_mapping result source
  else if String.eqb (type source) "ai" then _apply_ai_mapping result source
  else ret result.

(** The [for source in mapping_config.sources] loop. *)
Fixpoint sources_loop (sources : list MappingSource) (result : DataFrame)
    : M State DataFrame :=
  match sources with
  | [] => ret result
  | source :: rest =>
      if negb (enabled source) then sources_loop rest result
      else result' <- apply_source result source ;;
           sources_loop rest result'
  end.

(** [MappingEngine.apply_mappings]. The rate is logged as the number the
    source formats with two decimals. *)
Definition apply_mappings (data : DataFrame) (mapping_config : MappingConfig)
    : M State DataFrame :=
  if negb (has_column data source_column) then
    log_entry (entry "error"
      {[ "error" := VStr ("Source column '" +:+ source_column
                          +:+ "' not found") ]} None None) ;;;
    ret data
  else
    let result := assign target_column (λ _, NA) data in
    let initial_unmapped := len result in
    result <- sources_loop (sources mapping_config) result ;;
    let unmapped := select unmapped_mask result in
    (if bool_decide (0 < len unmapped) then _generate_review_file unmapped
     else ret tt) ;;;
    let final_unmapped := len unmapped in
    let mapped_count :=
      (Z.of_nat initial_unmapped - Z.of_nat final_unmapped)%Z in
    let mapping_rate :=
      if bool_decide (0 < initial_unmapped)
      then (inject_Z mapped_count / inject_Z (Z.of_nat initial_unmapped)
            * 100)%Q
      else 0%Q in
    log_entry (entry "mapping_complete"
      {[ "initial_rows" := VInt (Z.of_nat initial_unmapped);
         "mapped_count" := VInt mapped_count;
         "unmapped_count" := VInt (Z.of_nat final_unmapped);
         "mapping_rate" := VRat mapping_rate ]}
      (Some mapped_count) None) ;;;
    ret result.

(** *** Relations the properties of the engine are stated with *)

(** What one mapping source may do to a table: every row stays in place, a
    row that holds a target value is left as it is, and no column but the
    target column is written. *)
Definition resolves_only_unmapped (data data' : DataFrame) : Prop :=
  columns data' = columns data
  ∧ length (rows data') = length (rows data)
  ∧ ∀ i r, rows data !! i = Some r →
      ∃ r', rows data' !! i = Some r'
            ∧ (unmapped_mask r = false → r' = r)
            ∧ (∀ col, col ≠ target_column → r' !! col = r !! col).

(** The rows a source resolved: unresolved in [data], resolved at the same
    position in [data']. *)
Definition newly_resolved (data data' : DataFrame) : nat :=
  length (filter (λ p, unmapped_mask p.1 = true ∧ unmapped_mask p.2 = false)
                 (zip (rows data) (rows data'))).

(** The state a source leaves: the files and the review file are as
    before. *)
Definition same_files (s s' : State) : Prop :=
  files s' = files s ∧ review_file s' = review_file s.

(** What a call of the engine may do to its state besides the review file:
    append entries of the step "mapping" to the ledger (an engine without a
    tracker stays without), leave the files as they are, and keep the
    assistant the engine holds. *)
Definition only_appends (s s' : State) : Prop :=
  (∃ added, provenance s'
            = (λ entries, entries ++ added)%list <$> provenance s
            ∧ Forall (λ e, step e = "mapping") added)
  ∧ files s' = files s
  ∧ ∀ a, ai_assistant s = Some a → ai_assistant s' = Some a.

End engine.

(** *** Scorers and tables for running the engine on examples *)

(** A scorer that knows exact matches only (100 for the same text, else 0),
    without the optional AI packages, as where the tests run. *)
Definition exact_scorers : Scorers :=
  {| ratio := λ query choice,
       if bool_decide (Str query = choice) then 100%Q else 0%Q;
     HAS_AI_DEPS := false;
     load_model := λ _, Return tt;
     cosine_similarity := λ _, Return (λ _, 0%Q) |}.

(** The same with the AI packages: the similarity to a cause is 1 for the
    cause's own name and 0 for any other text. *)
Definition exact_ai_scorers : Scorers :=
  {| ratio := λ query choice,
       if bool_decide (Str query = choice) then 100%Q else 0%Q;
     HAS_AI_DEPS := true;
     load_model := λ _, Return tt;
     cosine_similarity := λ code,
       Return (λ cause, if String.eqb code cause then 1%Q else 0%Q) |}.

(** [tests/conftest.py::sample_data]. *)
Definition sample_row (id : Z) (code : string) (age : Z) (sex : string)
    (deaths year : Z) : gmap string cell :=
  {[ "id" := Num id; "icd10_code" := Str code; "age" := Num age;
     "sex" := Str sex; "deaths" := Num deaths; "year" := Num year ]}.

Definition sample_data : DataFrame :=
  {| columns := ["id"; "icd10_code"; "age"; "sex"; "deaths"; "year"];
     rows := [ sample_row 1 "A00" 45 "M" 1 2020;
               sample_row 2 "B20" 67 "F" 2 2020;
               sample_row 3 "I21" 23 "M" 1 2021;
               sample_row 4 "J44" 89 "F" 3 2021;
               sample_row 5 "K92" 34 "male" 1 2022 ] |}.

(** [tests/conftest.py::sample_mapping_file]. *)
Definition sample_mapping_file : DataFrame :=
  {| columns := ["source_code"; "target_code"];
     rows := [ {[ "source_code" := Str "A00"; "target_code" := Str "Cholera" ]};
               {[ "source_code" := Str "B20"; "target_code" := Str "HIV/AIDS" ]};
               {[ "source_code" := Str "I21";
                  "target_code" := Str "Ischemic heart disease" ]} ] |}.

(** A candidate list for the fuzzy source that holds the raw codes. *)
Definition code_list_file : DataFrame :=
  {| columns := ["target_code"];
     rows := [ {[ "target_code" := Str "A00" ]};
               {[ "target_code" := Str "J44" ]} ] |}.

(** A file without the required columns. *)
Definition malformed_file : DataFrame :=
  {| columns := ["code"]; rows := [ {[ "code" := Str "A00" ]} ] |}.

Definition direct_source : MappingSource :=
  {| type := "direct"; file := Some "mapping.csv"; version := None;
     threshold := 85 # 100; enabled := true |}.

Definition fuzzy_source : MappingSource :=
  {| type := "fuzzy"; file := Some "causes.csv"; version := None;
     threshold := 85 # 100; enabled := true |}.

Definition ai_source : MappingSource :=
  {| type := "ai"; file := None; version := None;
     threshold := 85 # 100; enabled := true |}.

Definition config_of (sources : list MappingSource) : MappingConfig :=
  {| config_source_column := "icd10_code";
     config_target_column := "gbd_cause";
     sources := sources |}.

(** A fresh engine with a tracker, beside the files above. *)
Definition fresh_state : State :=
  {| provenance := Some [];
     ai_assistant := None;
     files := {[ "mapping.csv" := sample_mapping_file;
                 "causes.csv" := code_list_file;
                 "bad.csv" := malformed_file ]};
     review_file := None |}.

(** Two rows that share one code, and a table with a missing code. *)
Definition twin_rows : DataFrame :=
  {| columns := ["icd10_code"; "gbd_cause"];
     rows := [ {[ "icd10_code" := Str "J44"; "gbd_cause" := NA ]};
               {[ "icd10_code" := Str "J44"; "gbd_cause" := NA ]} ] |}.


(** Sources whose file does not exist. *)
Definition missing_fuzzy_source : MappingSource :=
  {| type := "fuzzy"; file := Some "missing.csv"; version := None;
     threshold := 85 # 100; enabled := true |}.

Definition missing_direct_source : MappingSource :=
  {| type := "direct"; file := Some "missing.csv"; version := None;
     threshold := 85 # 100; enabled := true |}.

Definition missing_code_rows : DataFrame :=
  {| columns := ["icd10_code"; "gbd_cause"];
     rows := [ {[ "icd10_code" := NA; "gbd_cause" := NA ]};
               {[ "icd10_code" := Str "Injuries"; "gbd_cause" := NA ]} ] |}.

(** The sample after [apply_mappings] has added the target column. *)
Definition unresolved_sample : DataFrame :=
  assign "gbd_cause" (λ _, NA) sample_data.

Definition unresolved_row (id : Z) (code : string) (age : Z) (sex : string)
    (deaths year : Z) : gmap string cell :=
  <["gbd_cause" := NA]> (sample_row id code age sex deaths year).

(** Runs of the engine on the tables above. *)
Definition cascade_run : State * outcome DataFrame :=
  @sources_loop exact_scorers "icd10_code" "gbd_cause"
    [direct_source; fuzzy_source] unresolved_sample fresh_state.

Definition fuzzy_only_run : State * outcome DataFrame :=
  @_apply_fuzzy_mapping exact_scorers "icd10_code" "gbd_cause"
    unresolved_sample fuzzy_source fresh_state.

Definition fuzzy_missing_code_run : State * outcome DataFrame :=
  @_apply_fuzzy_mapping exact_scorers "icd10_code" "gbd_cause"
    missing_code_rows fuzzy_source fresh_state.

Definition ai_missing_code_run : State * outcome DataFrame :=
  @_apply_ai_mapping exact_ai_scorers "icd10_code" "gbd_cause"
    missing_code_rows ai_source fresh_state.



(** A mapping file that lists the code A00 twice, and an engine beside it. *)
Definition duplicate_mapping_file : DataFrame :=
  {| columns := ["source_code"; "target_code"];
     rows := [ {[ "source_code" := Str "A00"; "target_code" := Str "Cholera" ]};
               {[ "source_code" := Str "B20"; "target_code" := Str "HIV/AIDS" ]};
               {[ "source_code" := Str "A00"; "target_code" := Str "Typhoid" ]} ] |}.

Definition duplicate_state : State :=
  {| provenance := Some [];
     ai_assistant := None;
     files := {[ "mapping.csv" := duplicate_mapping_file ]};
     review_file := None |}.

Definition direct_duplicates_run : State * outcome DataFrame :=
  _apply_direct_mapping "icd10_code" "gbd_cause"
    unresolved_sample direct_source duplicate_state.

(** The AI source where the AI packages are missing. *)
Definition ai_without_packages_run : State * outcome DataFrame :=
  @_apply_ai_mapping exact_scorers "icd10_code" "gbd_cause"
    unresolved_sample ai_source fresh_state.

(** The sample with a target column already filled in. *)
Definition mapped_sample : DataFrame :=
  assign "gbd_cause" (λ _, Str "old") sample_data.

Definition direct_only_run : State * outcome DataFrame :=
  @apply_mappings exact_scorers "icd10_code" "gbd_cause"
    sample_data (config_of [direct_source]) fresh_state.

(** The direct source followed by an AI source, where the AI packages are
    missing. *)
Definition direct_then_ai_run : State * outcome DataFrame :=
  @apply_mappings exact_scorers "icd10_code" "gbd_cause"
    sample_data (config_of [direct_source; ai_source]) fresh_state.

(** The review file of the table with a missing code, all of it unresolved,
    by the engine the AI source has left. *)
Definition missing_code_review_run : State * outcome unit :=
  @_generate_review_file exact_ai_scorers "icd10_code"
    missing_code_rows ai_missing_code_run.1.

(** Two rows that share one code, through the engine with a fuzzy source. *)
Definition twin_fuzzy_run : State * outcome DataFrame :=
  @apply_mappings exact_scorers "icd10_code" "gbd_cause"
    twin_rows (config_of [fuzzy_source]) fresh_state.

End Mapping.

(** ** Files ([pathlib], [pandas] readers and writers) *)

Module Files.

(** An operation on the file system that the handler, the report generator
    or the tracker attempts: creating a directory
    ([mkdir(parents=True, exist_ok=True)]), writing a table with one of
    pandas' writers, the report generator's call, and writing the ledger as
    JSON. (The review file the mapping engine writes is kept in the engine's
    state.) *)
Inductive Event : Type :=
  | Mkdir (path : string)
  | Saved (writer : string) (path : string) (data : DataFrame)
  | Reported (path : string) (data : DataFrame)
      (quality_results : option Quality.Results)
      (entries : list ProvenanceEntry)
  | Dumped (path : string) (entries : list ProvenanceEntry).

(** What the handler and the pipeline take from Python, the file system and
    pandas without looking inside, as functions of the operations attempted
    so far: [str.lower], [str(Path(p))], [Path.parent], [Path / name],
    [Path.exists], the readers [pd.read_csv], [pd.read_excel] and
    [pd.read_parquet] (by name, with the [sheet_name] keyword when it is
    passed), the exception an operation raises when it does, and the [repr]
    of a set of strings. *)
Class OS : Type := {
  lower : string → string;
  Path : string → string;
  parent : string → string;
  joinpath : string → string → string;
  path_exists : list Event → string → bool;
  read_table : list Event → string → string → option string
               → outcome DataFrame;
  refused : list Event → Event → option exn;
  repr_set : list string → string;
}.

(** One operation: it is attempted, and raises when the system refuses. *)
Definition attempt `{OS} (e : Event) : M (list Event) unit :=
  λ history,
    ((history ++ [e])%list,
     match refused history e with
     | Some x => Raise x
     | None => Return tt
     end).

End Files.

(** ** Data handler ([io/handlers.py]) *)

Module Handlers.
Import Files.

Section handler.
Context `{OS}.

(** A loader gets the path and, when [load] passes it, the [sheet_name]
    keyword; a saver gets the table and the path. *)
Definition Loader : Type := string → option string → M (list Event) DataFrame.
Definition Saver : Type := DataFrame → string → M (list Event) unit.

(** [DataHandler]: its two dictionaries, in insertion order. *)
Record DataHandler : Type := mkHandler {
  _loaders : list (string * Loader);
  _savers : list (string * Saver);
}.

(** [d.get(key)] and [d[key] = v] on a dictionary kept in insertion order:
    an assignment to a key the dictionary holds keeps the key's place. *)
Fixpoint dict_get {V} (key : string) (d : list (string * V)) : option V :=
  match d with
  | [] => None
  | (k, v) :: rest => if String.eqb k key then Some v else dict_get key rest
  end.

Fixpoint dict_set {V} (key : string) (v : V) (d : list (string * V))
    : list (string * V) :=
  match d with
  | [] => [(key, v)]
  | (k, v') :: rest =>
      if String.eqb k key then (k, v) :: rest
      else (k, v') :: dict_set key v rest
  end.

Definition _load_csv : Loader :=
  λ file_path sheet_name history,
    (history, read_table history "csv" file_path sheet_name).

Definition _load_excel : Loader :=
  λ file_path sheet_name history,
    (history, read_table history "excel" file_path sheet_name).

Definition _load_parquet : Loader :=
  λ file_path sheet_name history,
    (history, read_table history "parquet" file_path sheet_name).

Definition _save_csv : Saver :=
  λ data file_path, attempt (Saved "csv" file_path data).

Definition _save_excel : Saver :=
  λ data file_path, attempt (Saved "excel" file_path data).

Definition _save_parquet : Saver :=
  λ data file_path, attempt (Saved "parquet" file_path data).

(** [DataHandler.__init__]. *)
Definition new_handler : DataHandler :=
  {| _loaders := [ ("csv", _load_csv); ("excel", _load_excel);
                   ("xlsx", _load_excel); ("parquet", _load_parquet) ];
     _savers := [ ("csv", _save_csv); ("excel", _save_excel);
                  ("xlsx", _save_excel); ("parquet", _save_parquet) ] |}.

Definition unsupported_format (file_format : string) (keys : list string)
    : exn :=
  mkExn "ValueError"
    ("Unsupported file format: " +:+ file_format
     +:+ ". Supported formats: " +:+ Quality.repr_list keys).

(** [DataHandler.load], called with no further keyword. *)
Definition load (handler : DataHandler) (file_path file_format : string)
    (sheet_name : option string) : M (list Event) DataFrame :=
  let file_path := Path file_path in
  there <- gets (λ history, path_exists history file_path) ;;
  if negb there
  then raise (mkExn "FileNotFoundError"
                ("Input file not found: " +:+ file_path))
  else
    let file_format := lower file_format in
    match dict_get file_format (_loaders handler) with
    | None => raise (unsupported_format file_format (fst <$> _loaders handler))
    | Some loader =>
        if bool_decide (file_format ∈ ["excel"; "xlsx"])
           && match sheet_name with
              | Some sheet => negb (String.eqb sheet "")
              | None => false
              end
        then loader file_path sheet_name
        else loader file_path None
    end.

(** [DataHandler.save], called with no further keyword. *)
Definition save (handler : DataHandler) (data : DataFrame)
    (file_path file_format : string) : M (list Event) unit :=
  let file_path := Path file_path in
  attempt (Mkdir (parent file_path)) ;;;
  let file_format := lower file_format in
  match dict_get file_format (_savers handler) with
  | None => raise (unsupported_format file_format (fst <$> _savers handler))
  | Some saver => saver data file_path
  end.

(** [DataHandler.register_loader] and [register_saver]. *)
Definition register_loader (handler : DataHandler) (format_name : string)
    (loader_func : Loader) : DataHandler :=
  {| _loaders := dict_set (lower format_name) loader_func (_loaders handler);
     _savers := _savers handler |}.

Definition register_saver (handler : DataHandler) (format_name : string)
    (saver_func : Saver) : DataHandler :=
  {| _loaders := _loaders handler;
     _savers := dict_set (lower format_name) saver_func (_savers handler) |}.

End handler.

End Handlers.

(** ** Configuration ([core/config_loader.py]) *)

Module Config.
Import Files.

(** [IOModel]. *)
Record IOModel : Type := mkIO {
  input_file : string;
  output_file : string;
  input_format : string;
  output_format : string;
  sheet_name : option string;
}.

(** [AutoGBDConfig], with the fields the pipeline reads:
    [config.cleaning.enabled] and [.rules], [config.mapping.enabled] beside
    the mapping configuration, [config.quality.enabled] and [.checks],
    [config.reporting.enabled] and [.output_file]. *)
Record AutoGBDConfig : Type := mkAutoGBDConfig {
  io : IOModel;
  cleaning_enabled : bool;
  cleaning_rules : list Cleaning.CleaningRule;
  mapping_enabled : bool;
  mapping : Mapping.MappingConfig;
  quality_enabled : bool;
  quality_checks : list Quality.QualityCheck;
  reporting_enabled : bool;
  reporting_output_file : string;
}.

Definition valid_formats : list string := ["csv"; "excel"; "xlsx"; "parquet"].

(** [AutoGBDConfig.validate_io_format], the validator of the field [io]. *)
Definition validate_io_format `{OS} (v : IOModel) : outcome IOModel :=
  if negb (bool_decide (lower (input_format v) ∈ valid_formats))
  then Raise (mkExn "ValueError"
                ("Invalid input_format: " +:+ input_format v
                 +:+ ". Must be one of " +:+ repr_set valid_formats))
  else if negb (bool_decide (lower (output_format v) ∈ valid_formats))
  then Raise (mkExn "ValueError"
                ("Invalid output_format: " +:+ output_format v
                 +:+ ". Must be one of " +:+ repr_set valid_formats))
  else Return v.

End Config.

(** ** Pipeline ([core/pipeline.py]) *)

Module Pipeline.
Import Files Config.

(** What a run works on: the operations on files attempted so far, and the
    state of the mapping engine, whose tracker is the one tracker the
    pipeline and its stages share. *)
Record World : Type := mkWorld {
  history : list Event;
  engine : Mapping.State;
}.

(** What the steps of a run before the ledger is saved may do to the world:
    append entries of other steps than "pipeline" to the tracker, attempt
    further operations on files, none of them writing the ledger, and leave
    the mapping files alone. *)
Definition grows (w w' : World) : Prop :=
  (∃ logged,
     Mapping.provenance (engine w')
     = (λ entries, entries ++ logged)%list <$> Mapping.provenance (engine w)
     ∧ Forall (λ e, step e ≠ "pipeline") logged)
  ∧ (∃ ops,
       history w' = (history w ++ ops)%list
       ∧ Forall (λ op, ∀ path entries, op ≠ Dumped path entries) ops)
  ∧ Mapping.files (engine w') = Mapping.files (engine w).

Section pipeline.
Context `{OS} `{Cleaning.Pandas} `{Quality.PandasChecks} `{Mapping.Scorers}.
Variable config : AutoGBDConfig.

Definition on_files {A} (m : M (list Event) A) : M World A :=
  λ w, let r := m (history w) in
       ({| history := r.1; engine := engine w |}, r.2).

Definition on_engine {A} (m : M Mapping.State A) : M World A :=
  λ w, let r := m (engine w) in
       ({| history := history w; engine := r.1 |}, r.2).

Definition on_tracker {A} (m : M (option (list ProvenanceEntry)) A)
    : M World A :=
  on_engine (λ s, let r := m (Mapping.provenance s) in
                  ({| Mapping.provenance := r.1;
                      Mapping.ai_assistant := Mapping.ai_assistant s;
                      Mapping.files := Mapping.files s;
                      Mapping.review_file := Mapping.review_file s |}, r.2)).

(** [self.provenance.log(...)]. *)
Definition log_step (step action : string) (details : gmap string value)
    (rows_affected : option Z) (file_used : option string) : M World unit :=
  on_tracker (modify (λ p, log_if p
    {| step := step; action := action; details := details;
       rows_affected := rows_affected; rule_name := None;
       file_used := file_used |})).

(** [AutoGBDPipeline.__init__]: the tracker given, or a new one; a fresh
    engine beside the mapping files. *)
Definition new_pipeline (provenance : option (list ProvenanceEntry))
    (files : gmap string DataFrame) (history : list Event) : World :=
  {| history := history;
     engine := {| Mapping.provenance := Some (default [] provenance);
                  Mapping.ai_assistant := None;
                  Mapping.files := files;
                  Mapping.review_file := None |} |}.

(** [self.data_handler], the handler [__init__] creates. *)
Definition data_handler : Handlers.DataHandler := Handlers.new_handler.

(** [AutoGBDPipeline._load_data]. *)
Definition _load_data : M World DataFrame :=
  log_step "io" "load_data" {[ "input_file" := VStr (input_file (io config)) ]}
    None (Some (input_file (io config))) ;;;
  data <- on_files (Handlers.load data_handler (input_file (io config))
                      (input_format (io config)) (sheet_name (io config))) ;;
  log_step "io" "data_loaded"
    {[ "rows" := VInt (Z.of_nat (len data));
       "columns" := VList (columns data) ]}
    (Some (Z.of_nat (len data))) None ;;;
  ret data.

(** [AutoGBDPipeline._clean_data], on the table [self.data] holds. *)
Definition _clean_data (data : DataFrame) : M World DataFrame :=
  log_step "cleaning" "start_cleaning"
    {[ "rules_enabled" :=
         VInt (Z.of_nat (length (filter (λ r, Cleaning.enabled r = true)
                                        (cleaning_rules config)))) ]}
    None None ;;;
  on_tracker (Cleaning.apply_rules data (cleaning_rules config)).

(** [AutoGBDPipeline._map_data]. *)
Definition _map_data (data : DataFrame) : M World DataFrame :=
  log_step "mapping" "start_mapping"
    {[ "source_column" := VStr (Mapping.config_source_column (mapping config));
       "target_column" := VStr (Mapping.config_target_column (mapping config)) ]}
    None None ;;;
  on_engine (Mapping.apply_mappings
               (Mapping.config_source_column (mapping config))
               (Mapping.config_target_column (mapping config))
               data (mapping config)).

(** [AutoGBDPipeline._check_quality]. *)
Definition _check_quality (data : DataFrame) : M World Quality.Results :=
  log_step "quality" "start_quality_checks"
    {[ "checks_enabled" :=
         VInt (Z.of_nat (length (filter (λ c, Quality.enabled c = true)
                                        (quality_checks config)))) ]}
    None None ;;;
  on_tracker (Quality.run_checks data (quality_checks config)).

(** [AutoGBDPipeline._save_output]. *)
Definition _save_output (data : DataFrame) : M World unit :=
  log_step "io" "save_data"
    {[ "output_file" := VStr (output_file (io config)) ]} None None ;;;
  on_files (Handlers.save data_handler data (output_file (io config))
              (output_format (io config))) ;;;
  log_step "io" "data_saved" {[ "rows" := VInt (Z.of_nat (len data)) ]}
    (Some (Z.of_nat (len data))) None.

(** The entries of the tracker. *)
Definition entries_of (w : World) : list ProvenanceEntry :=
  default [] (Mapping.provenance (engine w)).

(** [AutoGBDPipeline._generate_report]; the generator (its module is not
    among the sources) is called with the table, the quality results, the
    tracker and the path. *)
Definition _generate_report (data : DataFrame)
    (quality_results : option Quality.Results) : M World unit :=
  log_step "reporting" "generate_report"
    {[ "output_file" := VStr (reporting_output_file config) ]} None None ;;;
  let report_path :=
    joinpath (parent (Path (output_file (io config))))
             (reporting_output_file config) in
  entries <- gets entries_of ;;
  on_files (attempt (Reported report_path data quality_results entries)) ;;;
  log_step "reporting" "report_generated"
    {[ "report_path" := VStr report_path ]} None None.

(** [ProvenanceTracker.save]. *)
Definition save_provenance (output_path : string) : M World unit :=
  let output_path := Path output_path in
  on_files (attempt (Mkdir (parent output_path))) ;;;
  entries <- gets entries_of ;;
  on_files (attempt (Dumped output_path entries)).

Definition pipeline_complete (data : DataFrame) : ProvenanceEntry :=
  {| step := "pipeline"; action := "complete";
     details := {[ "rows_final" := VInt (Z.of_nat (len data)) ]};
     rows_affected := None; rule_name := None; file_used := None |}.

Definition pipeline_start : ProvenanceEntry :=
  {| step := "pipeline"; action := "start";
     details := {[ "config_file" := VStr "config.yaml" ]};
     rows_affected := None; rule_name := None; file_used := None |}.

(** [AutoGBDPipeline.run]; [self.data] and [self.quality_results] are the
    values the steps hand on. *)
Definition run : M World DataFrame :=
  on_tracker (modify (λ p, log_if p pipeline_start)) ;;;
  data <- _load_data ;;
  data <- (if cleaning_enabled config then _clean_data data else ret data) ;;
  data <- (if mapping_enabled config then _map_data data else ret data) ;;
  quality_results <- (if quality_enabled config
                      then results <- _check_quality data ;; ret (Some results)
                      else ret None) ;;
  _save_output data ;;;
  (if reporting_enabled config then _generate_report data quality_results
   else ret tt) ;;;
  let provenance_path :=
    joinpath (parent (Path (output_file (io config)))) "provenance.json" in
  save_provenance provenance_path ;;;
  on_tracker (modify (λ p, log_if p (pipeline_complete data))) ;;;
  ret data.

End pipeline.

End Pipeline.

(** ** A system and a configuration for running the pipeline on examples *)

Module Examples.
Import Files Handlers Config Pipeline.

(** [str.lower] on ASCII text. *)
Definition ascii_lower (a : Ascii.ascii) : Ascii.ascii :=
  let n := Ascii.nat_of_ascii a in
  if (65 <=? n)%nat && (n <=? 90)%nat then Ascii.ascii_of_nat (n + 32) else a.

Fixpoint lower_ascii (s : string) : string :=
  match s with
  | EmptyString => EmptyString
  | String a rest => String (ascii_lower a) (lower_ascii rest)
  end.

(** Paths are kept as written and every file lives in the directory [out];
    the one file that exists is [in/input.csv], which every reader reads as
    the sample table; no operation is refused. *)
Definition plain_os : OS :=
  {| lower := lower_ascii;
     Path := λ path, path;
     parent := λ _, "out";
     joinpath := λ directory name, directory +:+ "/" +:+ name;
     path_exists := λ _ path, bool_decide (path = "in/input.csv");
     read_table := λ _ _ _ _, Return Mapping.sample_data;
     refused := λ _ _, None;
     repr_set := Quality.repr_list |}.

(** A loader a plugin registers. *)
Definition json_loader : @Loader :=
  λ _ _ history, (history, Return Mapping.sample_data).

Definition sample_io : IOModel :=
  {| input_file := "in/input.csv"; output_file := "out/output.csv";
     input_format := "CSV"; output_format := "csv"; sheet_name := None |}.

(** The configuration of [tests/test_pipeline.py::test_pipeline_full_run]:
    the rule [remove_duplicates], no mapping source, no quality check and no
    report. *)
Definition full_run_config : AutoGBDConfig :=
  {| io := {| input_file := "in/input.csv"; output_file := "out/output.csv";
              input_format := "csv"; output_format := "csv";
              sheet_name := None |};
     cleaning_enabled := true;
     cleaning_rules := [Cleaning.duplicates_rule];
     mapping_enabled := true;
     mapping := Mapping.config_of [];
     quality_enabled := true;
     quality_checks := [];
     reporting_enabled := false;
     reporting_output_file := "harmonization_report.md" |}.

(** A configuration whose input file does not exist. *)
Definition missing_input_config : AutoGBDConfig :=
  {| io := {| input_file := "in/none.csv"; output_file := "out/output.csv";
              input_format := "csv"; output_format := "csv";
              sheet_name := None |};
     cleaning_enabled := true;
     cleaning_rules := [Cleaning.ages_rule];
     mapping_enabled := true;
     mapping := Mapping.config_of [Mapping.direct_source];
     quality_enabled := true;
     quality_checks := [Quality.completeness_check];
     reporting_enabled := true;
     reporting_output_file := "harmonization_report.md" |}.

(** A pipeline with a new tracker beside the mapping files. *)
Definition sample_world : World :=
  new_pipeline None (Mapping.files Mapping.fresh_state) [].

Definition full_run : World * outcome DataFrame :=
  @run plain_os Cleaning.plain_pandas Quality.warning_checks
    Mapping.exact_scorers full_run_config sample_world.

Definition failed_run : World * outcome DataFrame :=
  @run plain_os Cleaning.plain_pandas Quality.warning_checks
    Mapping.exact_scorers missing_input_config sample_world.

Definition input_not_found : exn :=
  mkExn "FileNotFoundError" "Input file not found: in/none.csv".

End Examples.

(** * Properties *)

(** ** Cleaning stage *)

Section cleaning_properties.
Import Cleaning.
Context `{Pandas}.

Lemma rules_loop_app (pre post : list CleaningRule) (data : DataFrame)
    (prov : option (list ProvenanceEntry)) :
  rules_loop (pre ++ post) data prov
  = bind (rules_loop pre data) (rules_loop post) prov.
Proof.
  revert data prov.
  induction pre as [|rule pre IH]; intros data prov; [done|].
  cbn [app rules_loop].
  destruct (enabled rule); cbn [negb]; [|apply IH].
  destruct (_rules (name rule)) as [body|].
  - destruct (body data (parameters rule)) as [result'|e].
    + unfold bind at 1 3. cbn. apply IH.
    + done.
  - unfold bind at 1 3. cbn. apply IH.
Qed.

Lemma assign_length col f data : len (assign col f data) = len data.
Proof. unfold len, assign. cbn. by rewrite length_fmap. Qed.

Lemma assign_where_length mask col f data :
  len (assign_where mask col f data) = len data.
Proof. unfold len, assign_where. cbn. by rewrite length_fmap. Qed.

(** A row that [data[mask]] keeps is a row of [data]. *)
Lemma select_rows mask data r :
  r ∈ rows (select mask data) → r ∈ rows data.
Proof. unfold select. cbn. rewrite list_elem_of_filter. tauto. Qed.

(** C3 (as amended): with the default bounds the ages [25, 150, -5, 200, 45]
    become [25, 150, missing, missing, 45] (150 is inside [0, 150] and is
    kept), and with [remove_invalid] exactly the rows of -5 and 200 are
    removed; on any table the two behaviours exclude each other: without
    [remove_invalid] no row is removed, and with it every remaining row is a
    row of the input, at most made numeric in one column (no cell is set to
    missing by the range check). *)
Theorem C3_standardize_ages_keeps_bounds :
  column_of (returned (_standardize_ages ages_table ∅)) "age"
    = Some [Num 25; Num 150; NA; NA; Num 45]
  ∧ column_of (returned (_standardize_ages ages_table
                           {[ "remove_invalid" := VBool true ]})) "age"
    = Some [Num 25; Num 150; Num 45]
  ∧ ∀ data params data',
      _standardize_ages data params = Return data' →
      (truthy (get params "remove_invalid" (VBool false)) = false →
         len data' = len data)
      ∧ (truthy (get params "remove_invalid" (VBool false)) = true →
         ∀ r, r ∈ rows data' →
           r ∈ rows data
           ∨ ∃ col r0, r0 ∈ rows data
               ∧ r = <[col := to_numeric (cell_at col r0)]> r0).
Proof.
  split; [by vm_compute|]. split; [by vm_compute|].
  intros data params data' Hrun. unfold _standardize_ages in Hrun.
  destruct (get params "column" (VStr "age")) as [| | | |col| |];
    try (injection Hrun as <-; split; [done|by left]).
  destruct (has_column data col); cbn [negb] in Hrun;
    [|injection Hrun as <-; split; [done|by left]].
  destruct (as_bound (get params "min_age" (VInt 0))) as [lo|]; [|done].
  destruct (as_bound (get params "max_age" (VInt 150))) as [hi|]; [|done].
  assert (Hcoerced : ∀ r,
    r ∈ rows (assign col (λ r, to_numeric (cell_at col r)) data) →
    ∃ r0, r0 ∈ rows data ∧ r = <[col := to_numeric (cell_at col r0)]> r0).
  { intros r. unfold assign. cbn. rewrite list_elem_of_fmap.
    intros (r0 & -> & Hr0). eauto. }
  destruct (existsb _ _).
  - destruct (truthy (get params "remove_invalid" (VBool false)));
      injection Hrun as <-.
    + split; [done|]. intros _ r Hr%select_rows.
      right. exists col. by apply Hcoerced.
    + split; [|done]. intros _.
      by rewrite assign_length, assign_where_length, assign_length.
  - injection Hrun as <-. split.
    + intros _. apply assign_length.
    + intros _ r Hr. right. exists col. by apply Hcoerced.
Qed.

(** C6: in [apply_rules], an enabled rule whose name is not in the rule
    library is skipped with a [rule_skipped] entry and the later rules run on
    the same table; an enabled rule of the library whose application raises
    logs [rule_error] with the exception's message and the call raises that
    exception: the rules after it are not applied, whatever they are. *)
Theorem C6_unknown_rule_skipped_raising_rule_fatal :
  ∀ data pre rule post prov prov1 data1,
    rules_loop pre data prov = (prov1, Return data1) →
    enabled rule = true →
    (_rules (name rule) = None →
       apply_rules data (pre ++ rule :: post) prov
       = match rules_loop post data1 (log_if prov1 (rule_skipped rule)) with
         | (prov2, Return result) =>
             (log_if prov2 (cleaning_complete (len data) (len result)),
              Return result)
         | (prov2, Raise e) => (prov2, Raise e)
         end)
    ∧ (∀ body e,
         _rules (name rule) = Some body →
         body data1 (parameters rule) = Raise e →
         apply_rules data (pre ++ rule :: post) prov
         = (log_if prov1 (rule_error rule e), Raise e)
         ∧ details (rule_error rule e) !! "error"
           = Some (VStr (exn_message e))).
Proof.
  intros data pre rule post prov prov1 data1 Hpre Hon. split.
  - intros Hunknown. unfold apply_rules.
    unfold bind at 1. rewrite rules_loop_app. unfold bind at 1.
    rewrite Hpre. cbn [rules_loop]. rewrite Hon, Hunknown. cbn [negb].
    unfold bind at 1. cbn [modify].
    destruct (rules_loop post data1 _) as [prov2 [result|e]]; done.
  - intros body e Hbody Hraise. split; [|done]. unfold apply_rules.
    unfold bind at 1. rewrite rules_loop_app. unfold bind at 1.
    rewrite Hpre. cbn [rules_loop]. rewrite Hon, Hbody, Hraise. done.
Qed.

End cleaning_properties.

(** C3, as stated, fails: 150 is not above the upper bound and stays. *)
Lemma C3_age_150_is_not_missing :
  column_of (returned (@Cleaning._standardize_ages Cleaning.plain_pandas
                         Cleaning.ages_table ∅)) "age"
    = Some [Num 25; Num 150; NA; NA; Num 45]
  ∧ [Num 25; Num 150; NA; NA; Num 45] ≠ [Num 25; NA; NA; NA; Num 45].
Proof. split; [by vm_compute|done]. Qed.

Lemma C3_standardize_ages_witness :
  ∃ data',
    @Cleaning._standardize_ages Cleaning.plain_pandas Cleaning.ages_table ∅
      = Return data'
    ∧ len data' = len Cleaning.ages_table.
Proof.
  eexists. split; [vm_compute; reflexivity|].
  refine (proj1 (proj2 (proj2
    (@C3_standardize_ages_keeps_bounds Cleaning.plain_pandas))
    Cleaning.ages_table ∅ _ _) _);
    vm_compute; reflexivity.
Defined.

(** The stage on the ages table: the unknown rule ["foo"] before
    [standardize_ages]; and [standardize_ages] with a text as lower bound
    before one more rule. *)
Lemma C6_cleaning_stage_witness :
  (@Cleaning.apply_rules Cleaning.plain_pandas Cleaning.ages_table
     ([] ++ Cleaning.foo_rule :: [Cleaning.ages_rule]) (Some [])
   = match @Cleaning.rules_loop Cleaning.plain_pandas [Cleaning.ages_rule]
             Cleaning.ages_table
             (log_if (Some []) (Cleaning.rule_skipped Cleaning.foo_rule)) with
     | (prov2, Return result) =>
         (log_if prov2
            (Cleaning.cleaning_complete (len Cleaning.ages_table)
               (len result)),
          Return result)
     | (prov2, Raise e) => (prov2, Raise e)
     end)
  ∧ (@Cleaning.apply_rules Cleaning.plain_pandas Cleaning.ages_table
       ([] ++ Cleaning.bad_ages_rule :: [Cleaning.duplicates_rule]) (Some [])
     = (log_if (Some [])
          (Cleaning.rule_error Cleaning.bad_ages_rule
             Cleaning.bound_type_error),
        Raise Cleaning.bound_type_error)
     ∧ details (Cleaning.rule_error Cleaning.bad_ages_rule
                  Cleaning.bound_type_error) !! "error"
       = Some (VStr (exn_message Cleaning.bound_type_error))).
Proof.
  split.
  - refine (proj1 (@C6_unknown_rule_skipped_raising_rule_fatal
      Cleaning.plain_pandas Cleaning.ages_table [] Cleaning.foo_rule
      [Cleaning.ages_rule] (Some []) (Some []) Cleaning.ages_table _ _) _);
      vm_compute; reflexivity.
  - refine (proj2 (@C6_unknown_rule_skipped_raising_rule_fatal
      Cleaning.plain_pandas Cleaning.ages_table [] Cleaning.bad_ages_rule
      [Cleaning.duplicates_rule] (Some []) (Some []) Cleaning.ages_table _ _)
      (@Cleaning._standardize_ages Cleaning.plain_pandas)
      Cleaning.bound_type_error _ _);
      [reflexivity | reflexivity | reflexivity | vm_compute; reflexivity].
Defined.

(** ** Quality stage *)

Section quality_properties.
Import Quality.
Context `{PandasChecks}.

(** [run_checks] recovers every exception of a check: the loop returns. *)
Lemma checks_loop_returns data checks run found prov :
  ∃ prov' looped, checks_loop data checks run found prov
                  = (prov', Return looped).
Proof.
  revert run found prov.
  induction checks as [|check checks IH]; intros run found prov; cbn.
  - by eexists _, _.
  - destruct (enabled check); cbn; [|apply IH].
    destruct (_checks (name check)) as [body|].
    + destruct (body data (parameters check)); unfold bind; cbn; apply IH.
    + unfold bind. cbn. apply IH.
Qed.

Lemma run_checks_returns data checks prov :
  ∃ prov' looped,
    checks_loop data checks [] [] prov = (prov', Return looped)
    ∧ run_checks data checks prov
      = (log_if prov' (quality_check_complete
           {| total_rows := len data;
              checks_run := looped.1;
              issues_found := looped.2;
              quality_score := _calculate_quality_score data looped.2 |}),
         Return
           {| total_rows := len data;
              checks_run := looped.1;
              issues_found := looped.2;
              quality_score := _calculate_quality_score data looped.2 |}).
Proof.
  destruct (checks_loop_returns data checks [] [] prov)
    as (prov' & looped & Hloop).
  exists prov', looped. split; [done|].
  unfold run_checks, bind. by rewrite Hloop.
Qed.

Lemma inject_nat_succ (n : nat) :
  (inject_Z (Z.of_nat (S n)) == inject_Z (Z.of_nat n) + 1)%Q.
Proof. rewrite Nat2Z.inj_succ, <- Z.add_1_r, inject_Z_plus. reflexivity. Qed.

(** The penalty loop subtracts 10 per error and 2 per warning. *)
Lemma foldl_penalize issues score :
  (foldl penalize score issues
   == score - 10 * inject_Z (Z.of_nat (count_severity "error" issues))
            - 2 * inject_Z (Z.of_nat (count_severity "warning" issues)))%Q.
Proof.
  revert score. unfold count_severity.
  induction issues as [|issue issues IH]; intros score.
  - cbn. ring.
  - cbn [foldl]. rewrite IH. unfold penalize.
    rewrite !filter_cons.
    destruct (decide (issue_severity issue = Some "error")) as [He|He].
    + rewrite bool_decide_eq_true_2 by done.
      rewrite decide_False by (rewrite He; discriminate).
      cbn [length]. rewrite inject_nat_succ. ring.
    + rewrite bool_decide_eq_false_2 by done.
      destruct (decide (issue_severity issue = Some "warning")) as [Hw|Hw].
      * rewrite bool_decide_eq_true_2 by done.
        cbn [length]. rewrite inject_nat_succ. ring.
      * rewrite bool_decide_eq_false_2 by done. ring.
Qed.

Lemma clamp_bounds (score : Q) :
  (0 <= Qmax 0 (Qmin 100 score) ∧ Qmax 0 (Qmin 100 score) <= 100)%Q.
Proof.
  split; [apply Q.le_max_l|].
  apply Q.max_lub; [done|apply Q.le_min_l].
Qed.

(** C7 (as amended): on a table with at least one row and one column,
    [run_checks] returns, and its [quality_score] is the clamp to [0, 100] of
    [score*0.7 + (1 - missing/cells)*100*0.3], where [score] is 100 less 10
    per error issue and 2 per warning issue; it lies within [0, 100], and
    with an empty check list and no missing cell it equals 100. *)
Theorem C7_quality_score_formula :
  ∀ data checks prov,
    0 < len data → 0 < length (columns data) →
    ∃ prov' results score q,
      run_checks data checks prov = (prov', Return results)
      ∧ quality_score results = Some q
      ∧ (score == 100
           - 10 * inject_Z (Z.of_nat
                    (count_severity "error" (issues_found results)))
           - 2 * inject_Z (Z.of_nat
                   (count_severity "warning" (issues_found results))))%Q
      ∧ q = Qmax 0 (Qmin 100
              (score * (7 # 10)
               + ((1 - inject_Z (Z.of_nat (missing_cells data))
                      / inject_Z (Z.of_nat
                          (len data * length (columns data)))) * 100)
                 * (3 # 10)))%Q
      ∧ (0 <= q)%Q ∧ (q <= 100)%Q
      ∧ (checks = [] → missing_cells data = 0 → (q == 100)%Q).
Proof.
  intros data checks prov Hrows Hcols.
  destruct (run_checks_returns data checks prov)
    as (prov' & looped & Hloop & Hrun).
  eexists _, _, (foldl penalize 100%Q looped.2), _.
  split; [exact Hrun|]. cbn [quality_score issues_found].
  unfold _calculate_quality_score.
  rewrite bool_decide_eq_false_2 by lia.
  rewrite bool_decide_eq_false_2 by nia.
  split; [reflexivity|]. split; [apply foldl_penalize|].
  split; [reflexivity|]. split; [apply clamp_bounds|].
  split; [apply clamp_bounds|].
  intros -> Hmissing. cbn in Hloop. injection Hloop as <- <-.
  rewrite Hmissing. cbn [foldl snd].
  set (cells := inject_Z (Z.of_nat (len data * length (columns data)))).
  assert (Hscore : (100 * (7 # 10)
            + (1 - inject_Z (Z.of_nat 0) / cells) * 100 * (3 # 10)
            == 100)%Q).
  { change (inject_Z (Z.of_nat 0)) with 0%Q.
    unfold Qdiv. rewrite Qmult_0_l. reflexivity. }
  rewrite Hscore. reflexivity.
Qed.

(** C9: on a table without rows [run_checks] returns the score 0, whatever
    the columns, the configured checks and the issues they report. *)
Theorem C9_empty_table_scores_zero :
  ∀ cols checks prov,
    ∃ prov' results,
      run_checks {| columns := cols; rows := [] |} checks prov
        = (prov', Return results)
      ∧ total_rows results = 0
      ∧ quality_score results = Some 0%Q.
Proof.
  intros cols checks prov.
  destruct (run_checks_returns {| columns := cols; rows := [] |} checks prov)
    as (prov' & looped & _ & Hrun).
  eexists _, _. split; [exact Hrun|]. done.
Qed.

End quality_properties.

(** C7, as stated for every table, fails on the table without rows: no check,
    no missing cell, and the score is 0. *)
Lemma C7_empty_table_is_not_100 :
  (Quality.quality_score <$>
     returned (snd (@Quality.run_checks Quality.warning_checks
                      Quality.empty_table [] None)))
    = Some (Some 0%Q)
  ∧ Quality.missing_cells Quality.empty_table = 0
  ∧ ¬ (0 == 100)%Q.
Proof. split; [by vm_compute|]. split; [by vm_compute|]. by intros ?. Qed.

Lemma C7_quality_score_witness :
  ∃ prov' results score q,
    @Quality.run_checks Quality.warning_checks Quality.complete_table
      [ Quality.mkCheck "check_completeness" true
          {[ "required_columns" := VList ["a"; "z"] ]};
        Quality.mkCheck "check_duplicates" true ∅ ] None
      = (prov', Return results)
    ∧ Quality.quality_score results = Some q
    ∧ (score == 100 - 10 * inject_Z 1 - 2 * inject_Z 1)%Q
    ∧ (0 <= q)%Q ∧ (q <= 100)%Q.
Proof.
  destruct (@C7_quality_score_formula Quality.warning_checks
              Quality.complete_table
              [ Quality.mkCheck "check_completeness" true
                  {[ "required_columns" := VList ["a"; "z"] ]};
                Quality.mkCheck "check_duplicates" true ∅ ] None)
    as (prov' & results & score & q & Hrun & Hq & Hscore & _ & Hlo & Hhi & _).
  - vm_compute. lia.
  - vm_compute. lia.
  - exists prov', results, score, q.
    split; [exact Hrun|]. split; [exact Hq|].
    split; [|split; [exact Hlo|exact Hhi]].
    vm_compute in Hrun. injection Hrun as _ <-. exact Hscore.
Defined.

(** ** Mapping engine *)

Lemma unique_from_elem c seen l :
  c ∈ unique_from seen l ↔ c ∈ l ∧ c ∉ seen.
Proof.
  revert seen. induction l as [|x l IH]; intros seen; cbn.
  - rewrite elem_of_nil. tauto.
  - case_bool_decide as Hx.
    + rewrite IH, elem_of_cons.
      split; [tauto|]. intros [[->|?] ?]; [done|tauto].
    + rewrite !elem_of_cons, IH, not_elem_of_cons.
      destruct (decide (c = x)) as [->|?]; tauto.
Qed.

Lemma unique_elem c l : c ∈ unique l ↔ c ∈ l.
Proof.
  unfold unique. rewrite unique_from_elem, elem_of_nil. tauto.
Qed.

Lemma concat_elem {A} (x : A) (ls : list (list A)) :
  x ∈ concat ls → ∃ l, x ∈ l ∧ l ∈ ls.
Proof.
  induction ls as [|l ls IH]; cbn.
  - by intros ?%elem_of_nil.
  - intros [?|(l' & ? & ?)%IH]%elem_of_app.
    + exists l. split; [done|]. apply list_elem_of_here.
    + exists l'. split; [done|]. by apply list_elem_of_further.
Qed.

Lemma dropna_elem c l : c ∈ dropna l ↔ c ∈ l ∧ isna c = false.
Proof. unfold dropna. rewrite list_elem_of_filter. tauto. Qed.

Section mapping_properties.
Import Mapping.
Context `{Scorers} (source_column target_column : string).

Local Abbreviation unmapped := (unmapped_mask target_column).
Local Abbreviation apply_dict' := (apply_dict source_column target_column).
Local Abbreviation resolves_only_unmapped :=
  (Mapping.resolves_only_unmapped target_column).

Lemma resolves_refl data : resolves_only_unmapped data data.
Proof. split; [done|]. split; [done|]. intros i r Hr. by exists r. Qed.

Lemma resolves_trans data1 data2 data3 :
  resolves_only_unmapped data1 data2 →
  resolves_only_unmapped data2 data3 →
  resolves_only_unmapped data1 data3.
Proof.
  intros (Hc1 & Hl1 & H1) (Hc2 & Hl2 & H2).
  split; [congruence|]. split; [congruence|].
  intros i r Hr.
  destruct (H1 i r Hr) as (r' & Hr' & Hkeep1 & Hcols1).
  destruct (H2 i r' Hr') as (r'' & Hr'' & Hkeep2 & Hcols2).
  exists r''. split; [done|]. split.
  - intros Hres. pose proof (Hkeep1 Hres) as ->. by apply Hkeep2.
  - intros col Hcol. by rewrite Hcols2, Hcols1.
Qed.

Lemma apply_dict_lookup mapping_dict data i :
  rows (apply_dict' mapping_dict data) !! i
  = (λ r, if unmapped r
          then <[target_column :=
                   map_with mapping_dict (cell_at source_column r)]> r
          else r) <$> rows data !! i.
Proof. unfold apply_dict, assign_where. cbn. apply list_lookup_fmap. Qed.

Lemma apply_dict_resolves mapping_dict data :
  resolves_only_unmapped data (apply_dict' mapping_dict data).
Proof.
  split; [done|]. split.
  { unfold apply_dict, assign_where. cbn. apply length_fmap. }
  intros i r Hr. rewrite apply_dict_lookup, Hr. cbn.
  eexists. split; [done|]. split.
  - by intros ->.
  - intros col Hcol. destruct (unmapped r); [|done].
    by rewrite lookup_insert_ne.
Qed.

Lemma same_files_refl s : same_files s s.
Proof. done. Qed.

Lemma same_files_trans s1 s2 s3 :
  same_files s1 s2 → same_files s2 s3 → same_files s1 s3.
Proof. intros [??] [??]. split; congruence. Qed.

(** *** The direct source *)

Lemma direct_mapping_run data source s s' data' :
  _apply_direct_mapping source_column target_column data source s
    = (s', Return data') →
  same_files s s'
  ∧ ((no_file source = true ∨ files s !! path_of source = None)
     ∧ data' = data
     ∨ ∃ mapping_df,
         no_file source = false
         ∧ files s !! path_of source = Some mapping_df
         ∧ data' = apply_dict'
                     (dict_zip (column mapping_df "source_code")
                               (column mapping_df "target_code")) data).
Proof.
  unfold _apply_direct_mapping.
  destruct (no_file source) eqn:Hfile.
  { intros [= <- <-]. split; [done|]. left. auto. }
  unfold bind at 1. cbn [gets].
  destruct (files s !! path_of source) as [mapping_df|] eqn:Hdf.
  - destruct (negb (has_column mapping_df "source_code")
              || negb (has_column mapping_df "target_code")); [done|].
    unfold bind, require_column.
    destruct (has_column data target_column); [|done].
    destruct (has_column data source_column); [|done].
    cbn. intros [= <- <-]. split; [done|]. right. by exists mapping_df.
  - unfold bind. cbn. intros [= <- <-]. split; [done|]. left. auto.
Qed.

(** *** The fuzzy source *)

Lemma fuzzy_mapping_run data source s s' data' :
  _apply_fuzzy_mapping source_column target_column data source s
    = (s', Return data') →
  same_files s s'
  ∧ (data' = data
     ∨ ∃ mapping_df,
         no_file source = false
         ∧ files s !! path_of source = Some mapping_df
         ∧ data' = apply_dict'
                     (fuzzy_dict (column mapping_df "target_code")
                        (threshold source * 100)%Q
                        (unique (column (select unmapped data)
                                        source_column))) data).
Proof.
  unfold _apply_fuzzy_mapping.
  destruct (no_file source) eqn:Hfile.
  { intros [= <- <-]. split; [done|by left]. }
  unfold bind at 1. cbn [gets].
  destruct (files s !! path_of source) as [mapping_df|] eqn:Hdf.
  - destruct (negb (has_column mapping_df "target_code")); [done|].
    unfold bind, require_column.
    destruct (has_column data target_column); [|done].
    destruct (has_column data source_column); [|done].
    cbn. intros [= <- <-]. split; [done|]. right. by exists mapping_df.
  - intros [= <- <-]. split; [done|by left].
Qed.
(** *** The assistant and the AI source *)

(** [suggest_mappings] never raises, returns at most [top_k] suggestions
    and writes nothing but ledger entries. *)
Lemma suggest_mappings_run assistant code top_k s :
  ∃ s' suggestions,
    suggest_mappings assistant code top_k s = (s', Return suggestions)
    ∧ (length suggestions ≤ top_k)%nat
    ∧ same_files s s'
    ∧ ai_assistant s' = ai_assistant s.
Proof.
  unfold suggest_mappings.
  destruct (negb (model assistant) || _).
  { eexists _, _. split; [done|]. cbn. split; [lia|done]. }
  eexists _, _. split; [done|]. cbn. split; [lia|done].
Qed.

Lemma new_assistant_run s :
  ∃ s' assistant,
    new_assistant s = (s', Return assistant)
    ∧ same_files s s' ∧ ai_assistant s' = ai_assistant s.
Proof.
  unfold new_assistant. destruct HAS_AI_DEPS; cbn.
  - destruct (load_model default_model_name); by eexists _, _.
  - by eexists _, _.
Qed.

(** The loop of the AI source returns, and a key of its high-confidence
    dictionary is one of the codes it was given. *)
Lemma ai_loop_run assistant thr codes suggestions high s :
  ∃ s' suggestions' high',
    ai_loop assistant thr codes suggestions high s
      = (s', Return (suggestions', high'))
    ∧ same_files s s'
    ∧ ai_assistant s' = ai_assistant s
    ∧ ∀ key v, high' !! key = Some v →
        high !! key = Some v ∨ key ∈ codes.
Proof.
  revert suggestions high s.
  induction codes as [|code codes IH]; intros suggestions high s.
  { eexists _, _, _. split; [done|]. split; [done|]. split; [done|]. auto. }
  cbn [ai_loop]. unfold bind at 1.
  destruct (suggest_mappings_run assistant (str code) 3 s)
    as (s1 & top_matches & -> & _ & Hfiles1 & Hai1).
  assert (Hstep : ∀ suggestions1 high1,
    (∀ key v, high1 !! key = Some v →
       high !! key = Some v ∨ key = code) →
    ∃ s' suggestions' high',
      ai_loop assistant thr codes suggestions1 high1 s1
        = (s', Return (suggestions', high'))
      ∧ same_files s s'
      ∧ ai_assistant s' = ai_assistant s
      ∧ ∀ key v, high' !! key = Some v →
          high !! key = Some v ∨ key ∈ code :: codes).
  { intros suggestions1 high1 Hhigh1.
    destruct (IH suggestions1 high1 s1)
      as (s' & suggestions' & high' & Hrun & Hfiles & Hai & Hkeys).
    exists s', suggestions', high'. split; [done|].
    split; [by eapply same_files_trans|]. split; [congruence|].
    intros key v Hkey. destruct (Hkeys key v Hkey) as [Hin|Hin].
    - destruct (Hhigh1 key v Hin) as [?| ->]; [by left|].
      right. apply elem_of_cons. by left.
    - right. apply elem_of_cons. by right. }
  destruct top_matches as [|top rest]; [apply Hstep; auto|].
  destruct (Qle_bool thr (confidence top)); [|apply Hstep; auto].
  apply Hstep. intros key v.
  destruct (decide (code = key)) as [->|Hne]; [auto|].
  rewrite lookup_insert_ne by done. auto.
Qed.

Lemma ai_mapping_run data source s s' data' :
  _apply_ai_mapping source_column target_column data source s
    = (s', Return data') →
  same_files s s'
  ∧ (data' = data
     ∨ ∃ high,
         (∀ key v, high !! key = Some v →
            key ∈ unique (dropna (column (select unmapped data)
                                         source_column)))
         ∧ data' = apply_dict' high data).
Proof.
  unfold _apply_ai_mapping. unfold bind at 1. cbn [gets].
  unfold bind at 1.
  assert (∃ s0 assistant,
    match ai_assistant s with
    | Some assistant => ret assistant
    | None => assistant <- new_assistant ;;
              set_assistant assistant ;;; ret assistant
    end s = (s0, Return assistant) ∧ same_files s s0)
    as (s0 & assistant & -> & Hfiles0).
  { destruct (ai_assistant s) as [assistant|].
    - by eexists _, _.
    - destruct (new_assistant_run s) as (s0 & assistant & Hnew & Hf & _).
      unfold bind. rewrite Hnew. cbn. by eexists _, _. }
  unfold bind at 1, require_column.
  destruct (has_column data target_column); [|done]. cbn [ret].
  case_bool_decide.
  { intros [= <- <-]. split; [done|by left]. }
  unfold bind at 1.
  destruct (has_column data source_column); [|done]. cbn [ret].
  unfold bind at 1.
  destruct (ai_loop_run assistant (threshold source)
              (unique (dropna (column (select unmapped data) source_column)))
              ∅ ∅ s0)
    as (s1 & suggestions & high & -> & Hfiles1 & _ & Hkeys).
  cbn [snd]. case_bool_decide.
  { intros [= <- <-]. split; [by eapply same_files_trans|by left]. }
  unfold bind. cbn. intros [= <- <-].
  split.
  { eapply same_files_trans; [done|]. destruct Hfiles1. by split. }
  right. exists high. split; [|done].
  intros key v Hkey. destruct (Hkeys key v Hkey) as [Hin|Hin]; [|done].
  by rewrite lookup_empty in Hin.
Qed.

(** *** The loop over the sources *)

Lemma apply_source_run data source s s' data' :
  apply_source source_column target_column data source s
    = (s', Return data') →
  same_files s s' ∧ resolves_only_unmapped data data'.
Proof.
  unfold apply_source.
  destruct (String.eqb (type source) "direct").
  { intros (Hf & [[_ ->] | (df & _ & _ & ->)])%direct_mapping_run;
      (split; [done|]); [apply resolves_refl|apply apply_dict_resolves]. }
  destruct (String.eqb (type source) "fuzzy").
  { intros (Hf & [-> | (df & _ & _ & ->)])%fuzzy_mapping_run;
      (split; [done|]); [apply resolves_refl|apply apply_dict_resolves]. }
  destruct (String.eqb (type source) "ai").
  { intros (Hf & [-> | (high & _ & ->)])%ai_mapping_run;
      (split; [done|]); [apply resolves_refl|apply apply_dict_resolves]. }
  intros [= <- <-]. split; [done|apply resolves_refl].
Qed.

Lemma sources_loop_run sources data s s' data' :
  sources_loop source_column target_column sources data s
    = (s', Return data') →
  same_files s s' ∧ resolves_only_unmapped data data'.
Proof.
  revert data s.
  induction sources as [|source sources IH]; intros data s; cbn.
  { intros [= <- <-]. split; [done|apply resolves_refl]. }
  destruct (enabled source); cbn [negb]; [|apply IH].
  unfold bind.
  destruct (apply_source _ _ data source s) as [s1 [data1|e]] eqn:Hstep;
    [|done].
  intros (Hf & Hres)%IH.
  apply apply_source_run in Hstep as (Hf1 & Hres1).
  split; [by eapply same_files_trans|by eapply resolves_trans].
Qed.

(** *** What the fuzzy source accepts *)

Lemma cell_at_insert col (c : cell) (r : gmap string cell) :
  cell_at col (<[col := c]> r) = c.
Proof. unfold cell_at. by rewrite lookup_insert_eq. Qed.

Lemma isna_true c : isna c = true → c = NA.
Proof. by destruct c. Qed.

Lemma map_with_not_missing (mapping_dict : gmap cell cell) key :
  isna (map_with mapping_dict key) = false →
  mapping_dict !! key = Some (map_with mapping_dict key).
Proof. unfold map_with. by destruct (mapping_dict !! key). Qed.

(** A choice [extractOne] returns is a choice that is not missing and whose
    score reaches the cutoff. *)
Lemma extractOne_from_accepts query choices cutoff0 cutoff result choice score :
  (cutoff0 <= cutoff)%Q →
  extractOne_from query choices cutoff result = Some (choice, score) →
  result = Some (choice, score)
  ∨ (choice ∈ choices ∧ isna choice = false
     ∧ score = ratio query choice ∧ (cutoff0 <= score)%Q).
Proof.
  revert cutoff result.
  induction choices as [|c choices IH]; intros cutoff result Hcut; cbn.
  { by left. }
  destruct (isna c) eqn:Hc.
  { intros [?|(? & ? & ? & ?)]%IH; [by left| |done].
    right. by rewrite elem_of_cons; auto. }
  destruct (Qle_bool cutoff (ratio query c)
            && match result with
               | Some (_, best) => negb (Qle_bool (ratio query c) best)
               | None => true
               end) eqn:Hbetter.
  - apply andb_true_iff in Hbetter as [Hreach%Qle_bool_iff _].
    assert (cutoff0 <= ratio query c)%Q as Hreach0
      by (eapply Qle_trans; eauto).
    destruct (Qeq_bool (ratio query c) 100).
    + intros [= <- <-]. right. by rewrite elem_of_cons; auto.
    + intros [Hres|(? & ? & ? & ?)]%IH; [|right|done].
      * injection Hres as <- <-. right. by rewrite elem_of_cons; auto.
      * by rewrite elem_of_cons; auto.
  - destruct (Qeq_bool (ratio query c) 100); [by left|].
    intros [?|(? & ? & ? & ?)]%IH; [by left| |done].
    right. by rewrite elem_of_cons; auto.
Qed.

(** Where every choice scores below the cutoff, [extractOne] returns
    nothing. *)
Lemma extractOne_from_none query choices cutoff :
  (∀ c, c ∈ choices → isna c = false → (ratio query c < cutoff)%Q) →
  extractOne_from query choices cutoff None = None.
Proof.
  induction choices as [|c choices IH]; intros Hbelow; cbn; [done|].
  assert (extractOne_from query choices cutoff None = None) as Hrest.
  { apply IH. intros c' Hc'. apply Hbelow, elem_of_cons. by right. }
  destruct (isna c) eqn:Hc; [done|].
  assert (Qle_bool cutoff (ratio query c) = false) as ->.
  { apply not_true_is_false. intros Hle%Qle_bool_iff.
    apply (Qlt_not_le _ _ (Hbelow c (list_elem_of_here _ _) Hc)), Hle. }
  cbn. by destruct (Qeq_bool (ratio query c) 100).
Qed.

(** An entry of the fuzzy source's dictionary is a code that is not missing
    with the choice [extractOne] returned for it. *)
Lemma fuzzy_dict_lookup target_codes cutoff codes key v :
  fuzzy_dict target_codes cutoff codes !! key = Some v →
  isna key = false
  ∧ ∃ score, extractOne (str key) target_codes cutoff = Some (v, score).
Proof.
  unfold fuzzy_dict.
  assert (∀ acc : gmap cell cell,
    (∀ key v, acc !! key = Some v →
       isna key = false
       ∧ ∃ score, extractOne (str key) target_codes cutoff = Some (v, score)) →
    ∀ key v,
      foldl (λ mapping_dict code,
               if isna code then mapping_dict
               else match extractOne (str code) target_codes cutoff with
                    | Some result => <[code := result.1]> mapping_dict
                    | None => mapping_dict
                    end) acc codes !! key = Some v →
      isna key = false
      ∧ ∃ score, extractOne (str key) target_codes cutoff = Some (v, score))
    as Hfold.
  { induction codes as [|code codes IH]; intros acc Hacc; cbn; [done|].
    apply IH. destruct (isna code) eqn:Hcode; [done|].
    destruct (extractOne (str code) target_codes cutoff)
      as [[choice score]|] eqn:Hone; [|done].
    intros key' v'. destruct (decide (code = key')) as [<-|Hne].
    - rewrite lookup_insert_eq. intros [= <-]. eauto.
    - rewrite lookup_insert_ne by done. apply Hacc. }
  apply Hfold. intros key' v'. by rewrite lookup_empty.
Qed.

(** C4: the fuzzy source resolves a row only to a candidate of its list whose
    score for the row's code is at least [threshold*100]; a row for whose
    code every candidate scores below [threshold*100] stays unresolved. *)
Theorem C4_fuzzy_respects_threshold :
  ∀ data source s s' data' i r,
    _apply_fuzzy_mapping source_column target_column data source s
      = (s', Return data') →
    rows data !! i = Some r →
    unmapped r = true →
    (∀ v, cell_at target_column <$> rows data' !! i = Some v →
       isna v = false →
       ∃ mapping_df,
         files s !! path_of source = Some mapping_df
         ∧ isna (cell_at source_column r) = false
         ∧ v ∈ column mapping_df "target_code"
         ∧ (threshold source * 100
            <= ratio (str (cell_at source_column r)) v)%Q)
    ∧ (∀ mapping_df,
         files s !! path_of source = Some mapping_df →
         (∀ c, c ∈ column mapping_df "target_code" → isna c = false →
            (ratio (str (cell_at source_column r)) c
             < threshold source * 100)%Q) →
         cell_at target_column <$> rows data' !! i = Some NA).
Proof.
  intros data source s s' data' i r Hrun Hr Hun.
  apply fuzzy_mapping_run in Hrun as [_ [-> | (df & _ & Hdf & ->)]].
  { rewrite Hr. cbn. split.
    - intros v [= <-]. unfold unmapped_mask in Hun. congruence.
    - intros _ _ _. f_equal. by apply isna_true. }
  rewrite apply_dict_lookup, Hr. cbn. rewrite Hun, cell_at_insert.
  split.
  - intros v [= <-] Hv. apply map_with_not_missing in Hv.
    apply fuzzy_dict_lookup in Hv as (Hcode & score & Hone).
    apply (extractOne_from_accepts _ _ (threshold source * 100)%Q) in Hone
      as [?|(Hin & _ & -> & Hreach)]; [done| |apply Qle_refl].
    by exists df.
  - intros df' Hdf' Hbelow. assert (df' = df) as -> by congruence.
    f_equal. unfold map_with.
    match goal with
    | |- default NA (?d !! _) = NA =>
        destruct (d !! cell_at source_column r) as [v|] eqn:Hv; [|done]
    end.
    apply fuzzy_dict_lookup in Hv as (_ & score & Hone).
    unfold extractOne in Hone.
    by rewrite extractOne_from_none in Hone.
Qed.

(** C1: a mapping source writes the target column only, and only on rows
    that are unresolved when it runs, so over any list of sources a row that
    holds a target value keeps it; a row that an enabled direct source maps
    to a value keeps that value whatever sources (fuzzy, AI, direct) come
    after it. *)
Theorem C1_priority_cascade :
  (∀ sources data s s' data',
     sources_loop source_column target_column sources data s
       = (s', Return data') →
     ∀ i r, rows data !! i = Some r →
       ∃ r', rows data' !! i = Some r'
             ∧ (unmapped r = false → r' = r)
             ∧ (∀ col, col ≠ target_column → r' !! col = r !! col))
  ∧ (∀ source rest data s s' data' mapping_df i r v,
       enabled source = true →
       type source = "direct" →
       no_file source = false →
       files s !! path_of source = Some mapping_df →
       sources_loop source_column target_column (source :: rest) data s
         = (s', Return data') →
       rows data !! i = Some r →
       unmapped r = true →
       dict_zip (column mapping_df "source_code")
                (column mapping_df "target_code")
         !! cell_at source_column r = Some v →
       isna v = false →
       cell_at target_column <$> rows data' !! i = Some v).
Proof.
  split.
  { intros sources data s s' data' Hrun i r Hr.
    apply sources_loop_run in Hrun as (_ & _ & _ & Hrows). by apply Hrows. }
  intros source rest data s s' data' df i r v Hon Htype Hfile Hdf Hrun Hr Hun
    Hv Hvna.
  cbn [sources_loop] in Hrun. rewrite Hon in Hrun. cbn [negb] in Hrun.
  unfold bind in Hrun.
  destruct (apply_source _ _ data source s) as [s1 [data1|e]] eqn:Hstep;
    [|done].
  unfold apply_source in Hstep. rewrite Htype in Hstep. cbn in Hstep.
  apply direct_mapping_run in Hstep as [_ Hstep].
  assert (data1 = apply_dict'
            (dict_zip (column df "source_code") (column df "target_code"))
            data) as ->.
  { destruct Hstep as [[[?|?] _]|(df' & _ & Hdf' & ->)]; congruence. }
  apply sources_loop_run in Hrun as (_ & _ & _ & Hrows).
  destruct (Hrows i (<[target_column := v]> r)) as (r' & Hr' & Hkeep & _).
  { rewrite apply_dict_lookup, Hr. cbn. rewrite Hun. unfold map_with.
    by rewrite Hv. }
  rewrite Hr'. cbn. rewrite Hkeep.
  - by rewrite cell_at_insert.
  - unfold unmapped_mask. by rewrite cell_at_insert.
Qed.

(** *** Missing codes and the review file *)

Lemma apply_dict_missing_code (mapping_dict : gmap cell cell) data i r :
  mapping_dict !! NA = None →
  rows data !! i = Some r →
  unmapped r = true →
  isna (cell_at source_column r) = true →
  ∃ r', rows (apply_dict' mapping_dict data) !! i = Some r'
        ∧ unmapped r' = true.
Proof.
  intros Hdict Hr Hun Hcode. rewrite apply_dict_lookup, Hr. cbn.
  rewrite Hun. eexists. split; [done|].
  unfold unmapped_mask. rewrite cell_at_insert.
  rewrite (isna_true _ Hcode). unfold map_with. by rewrite Hdict.
Qed.

Lemma review_rows_of_code code suggestions row :
  row ∈ review_rows_of code suggestions →
  source_code row = code ∧ human_mapping row = "".
Proof.
  destruct suggestions as [|suggestion suggestions]; cbn [review_rows_of].
  - by intros ->%list_elem_of_singleton.
  - intros (i & Hi)%list_elem_of_lookup.
    rewrite list_lookup_imap in Hi.
    destruct ((suggestion :: suggestions) !! i); by simplify_eq/=.
Qed.

Lemma review_rows_of_length code suggestions :
  length (review_rows_of code suggestions) = 1 `max` length suggestions.
Proof.
  destruct suggestions; [done|].
  cbn [review_rows_of]. rewrite length_imap. cbn. lia.
Qed.

(** The loop of the review file returns the rows of each code in turn, from
    at most three suggestions of the assistant per code. *)
Lemma review_loop_run assistant codes review_rows s :
  ∃ s' (groups : list (cell * list Suggestion)),
    review_loop assistant codes review_rows s
      = (s', Return (review_rows
                     ++ concat ((λ g, review_rows_of g.1 g.2) <$> groups))%list)
    ∧ groups.*1 = codes
    ∧ Forall (λ g, (length g.2 ≤ 3)%nat
                   ∧ ∃ st st', suggest_mappings assistant (str g.1) 3 st
                               = (st', Return g.2)) groups
    ∧ same_files s s'
    ∧ ai_assistant s' = ai_assistant s.
Proof.
  revert review_rows s.
  induction codes as [|code codes IH]; intros review_rows s.
  { exists s, []. cbn. by rewrite app_nil_r. }
  cbn [review_loop]. unfold bind.
  destruct (suggest_mappings_run assistant (str code) 3 s)
    as (s1 & suggestions & Hsuggest & Hlen & Hfiles1 & Hai1).
  rewrite Hsuggest.
  destruct (IH (review_rows ++ review_rows_of code suggestions)%list s1)
    as (s' & groups & -> & Hcodes & Hgroups & Hfiles & Hai).
  exists s', ((code, suggestions) :: groups). cbn.
  rewrite <- app_assoc. split; [done|]. split; [by f_equal|].
  split; [|split; [by eapply same_files_trans|congruence]].
  constructor; [|done]. cbn. split; [done|]. eauto.
Qed.

(** [_generate_review_file] on a table that has the source column. *)
Lemma generate_review_file_run unmapped_data s :
  has_column unmapped_data source_column = true →
  ∃ s', _generate_review_file source_column unmapped_data s
          = (s', Return tt)
    ∧ files s' = files s
    ∧ ai_assistant s' = ai_assistant s
    ∧ match ai_assistant s with
      | None => review_file s' = review_file s
      | Some assistant =>
          ∃ groups : list (cell * list Suggestion),
            groups.*1 = unique (dropna (column unmapped_data source_column))
            ∧ Forall (λ g, (length g.2 ≤ 3)%nat
                           ∧ ∃ st st',
                               suggest_mappings assistant (str g.1) 3 st
                               = (st', Return g.2)) groups
            ∧ (groups = [] → review_file s' = review_file s)
            ∧ (groups ≠ [] →
                 review_file s'
                 = Some (concat ((λ g, review_rows_of g.1 g.2) <$> groups)))
      end.
Proof.
  intros Hcol. unfold _generate_review_file, require_column.
  rewrite Hcol. unfold bind at 1. cbn [ret]. unfold bind at 1. cbn [gets].
  destruct (ai_assistant s) as [assistant|] eqn:Hassistant.
  - unfold bind at 1.
    destruct (review_loop_run assistant
                (unique (dropna (column unmapped_data source_column))) [] s)
      as (s1 & groups & -> & Hcodes & Hgroups & [Hf1 Hr1] & Hai1).
    cbn [app].
    destruct groups as [|[code suggestions] groups].
    + cbn. exists s1. split; [done|]. split; [done|].
      split; [congruence|]. exists []. by rewrite Hcodes.
    + assert (∃ row review_rows,
        concat ((λ g, review_rows_of g.1 g.2)
                <$> (code, suggestions) :: groups) = row :: review_rows)
        as (row & review_rows & Hrows).
      { cbn. destruct suggestions; cbn; eauto. }
      rewrite Hrows. unfold bind. cbn.
      eexists. split; [done|]. cbn. split; [done|].
      split; [congruence|].
      exists ((code, suggestions) :: groups). split; [done|].
      split; [done|]. split; [done|]. intros _. by rewrite Hrows.
  - unfold bind. cbn. exists s. by rewrite Hassistant.
Qed.

(** C10: a row whose code is missing is resolved neither by the fuzzy nor
    by the AI source, and no row of a review file that
    [_generate_review_file] writes has a missing [source_code]. *)
Theorem C10_missing_codes_are_skipped :
  (∀ data source s s' data' i r,
     _apply_fuzzy_mapping source_column target_column data source s
       = (s', Return data') →
     rows data !! i = Some r →
     unmapped r = true →
     isna (cell_at source_column r) = true →
     ∃ r', rows data' !! i = Some r' ∧ unmapped r' = true)
  ∧ (∀ data source s s' data' i r,
       _apply_ai_mapping source_column target_column data source s
         = (s', Return data') →
       rows data !! i = Some r →
       unmapped r = true →
       isna (cell_at source_column r) = true →
       ∃ r', rows data' !! i = Some r' ∧ unmapped r' = true)
  ∧ (∀ unmapped_data s s' o,
       _generate_review_file source_column unmapped_data s = (s', o) →
       review_file s' = review_file s
       ∨ ∃ review_rows,
           review_file s' = Some review_rows
           ∧ ∀ row, row ∈ review_rows → isna (source_code row) = false).
Proof.
  split; [|split].
  - intros data source s s' data' i r Hrun Hr Hun Hcode.
    apply fuzzy_mapping_run in Hrun as [_ [-> | (df & _ & _ & ->)]];
      [by exists r|].
    apply (apply_dict_missing_code _ data i r); [|done..].
    match goal with
    | |- ?d !! NA = None => destruct (d !! NA) as [v|] eqn:Hv; [|done]
    end.
    by apply fuzzy_dict_lookup in Hv as [? _].
  - intros data source s s' data' i r Hrun Hr Hun Hcode.
    apply ai_mapping_run in Hrun as [_ [-> | (high & Hkeys & ->)]];
      [by exists r|].
    apply (apply_dict_missing_code _ data i r); [|done..].
    destruct (high !! NA) as [v|] eqn:Hv; [|done].
    apply Hkeys in Hv. apply unique_elem, dropna_elem in Hv as [_ ?]. done.
  - intros unmapped_data s s' o Hrun.
    destruct (has_column unmapped_data source_column) eqn:Hcol.
    + destruct (generate_review_file_run unmapped_data s Hcol)
        as (s1 & Hrun1 & _ & _ & Hreview).
      rewrite Hrun in Hrun1. injection Hrun1 as -> ->.
      destruct (ai_assistant s) as [assistant|]; [|by left].
      destruct Hreview as (groups & Hcodes & _ & Hnone & Hsome).
      destruct (decide (groups = [])) as [Hnil|Hcons]; [left; auto|].
      right. eexists. split; [by apply Hsome|].
      intros row (rows_g & Hin & Hrows)%concat_elem.
      apply list_elem_of_fmap in Hrows as ([code suggestions] & -> & Hg).
      apply review_rows_of_code in Hin as [-> _]. cbn.
      assert (code ∈ groups.*1) as Hcode.
      { apply list_elem_of_fmap. by exists (code, suggestions). }
      rewrite Hcodes in Hcode.
      by apply unique_elem, dropna_elem in Hcode as [_ ?].
    + unfold _generate_review_file, require_column in Hrun.
      rewrite Hcol in Hrun. unfold bind in Hrun. cbn in Hrun.
      injection Hrun as <- _. by left.
Qed.

Lemma has_column_assign col f data c :
  has_column data c = true → has_column (assign col f data) c = true.
Proof.
  unfold has_column, assign. cbn. rewrite !bool_decide_eq_true.
  intros Hc. destruct (has_column data col); [done|].
  apply elem_of_app. by left.
Qed.

(** What [apply_mappings] does to the review file, once the sources have
    run: with an assistant, the rows of each distinct unresolved code that
    is not missing, in order; without one, nothing. *)
Lemma apply_mappings_review_file data config s s' result :
  apply_mappings source_column target_column data config s
    = (s', Return result) →
  has_column data source_column = true →
  ∃ s1,
    sources_loop source_column target_column (sources config)
      (assign target_column (λ _, NA) data) s = (s1, Return result)
    ∧ match ai_assistant s1 with
      | None => review_file s' = review_file s
      | Some assistant =>
          ∃ groups : list (cell * list Suggestion),
            groups.*1
            = unique (dropna (column (select unmapped result)
                                     source_column))
            ∧ Forall (λ g,
                (1 ≤ length (review_rows_of g.1 g.2) ≤ 3)%nat
                ∧ ∃ st st', suggest_mappings assistant (str g.1) 3 st
                            = (st', Return g.2)) groups
            ∧ (groups = [] → review_file s' = review_file s)
            ∧ (groups ≠ [] →
                 review_file s'
                 = Some (concat ((λ g, review_rows_of g.1 g.2)
                                 <$> groups)))
      end.
Proof.
  intros Hrun Hcol.
  unfold apply_mappings in Hrun. rewrite Hcol in Hrun. cbn [negb] in Hrun.
  unfold bind at 1 in Hrun.
  destruct (sources_loop _ _ (sources config) _ s)
    as [s1 [result0|e]] eqn:Hloop; [|done].
  destruct (sources_loop_run _ _ _ _ _ Hloop)
    as ([_ Hreview1] & Hcols & _ & _).
  assert (has_column (select unmapped result0) source_column = true)
    as Hcol0.
  { unfold has_column, select. cbn. rewrite Hcols.
    by apply has_column_assign. }
  destruct (generate_review_file_run (select unmapped result0) s1 Hcol0)
    as (s2 & Hgen & _ & _ & Hreview).
  assert (∀ assistant (groups : list (cell * list Suggestion)),
    Forall (λ g, (length g.2 ≤ 3)%nat
                 ∧ ∃ st st', suggest_mappings assistant (str g.1) 3 st
                             = (st', Return g.2)) groups →
    Forall (λ g, (1 ≤ length (review_rows_of g.1 g.2) ≤ 3)%nat
                 ∧ ∃ st st', suggest_mappings assistant (str g.1) 3 st
                             = (st', Return g.2)) groups) as Hbound.
  { intros assistant groups Hgroups.
    eapply Forall_impl; [exact Hgroups|]. intros g [Hlen Hsuggest].
    split; [|done]. rewrite review_rows_of_length. lia. }
  case_bool_decide as Hany.
  - unfold bind in Hrun. rewrite Hgen in Hrun. cbn in Hrun.
    injection Hrun as <- <-. exists s1. split; [done|]. cbn.
    destruct (ai_assistant s1) as [assistant|]; [|congruence].
    destruct Hreview as (groups & Hcodes & Hgroups & Hnone & Hsome).
    exists groups. split; [done|]. split; [by apply Hbound|].
    split; [|done]. intros Hnil. rewrite Hnone by done. done.
  - unfold bind in Hrun. cbn in Hrun. injection Hrun as <- <-.
    assert (rows (select unmapped result0) = []) as Hrows.
    { apply length_zero_iff_nil. unfold len in Hany. lia. }
    exists s1. split; [done|].
    destruct (ai_assistant s1) as [assistant|]; [|done].
    exists []. unfold column. rewrite Hrows. by cbn.
Qed.

(** *** What the direct source logs *)

Lemma apply_dict_count mapping_dict data :
  count_unmapped target_column data
  = count_unmapped target_column (apply_dict' mapping_dict data)
    + newly_resolved target_column data (apply_dict' mapping_dict data).
Proof.
  unfold count_unmapped, newly_resolved, apply_dict, assign_where. cbn.
  induction (rows data) as [|r l IH]; [done|].
  cbn [fmap list_fmap zip zip_with]. rewrite !filter_cons. cbn [fst snd].
  destruct (unmapped r) eqn:Hr.
  - destruct (unmapped (<[target_column :=
        map_with mapping_dict (cell_at source_column r)]> r)) eqn:Hr';
      repeat case_decide; cbn [length];
      first [lia | exfalso; intuition congruence].
  - repeat case_decide; cbn [length];
      first [lia | exfalso; intuition congruence].
Qed.

(** The direct source logs the number of rows it resolved. *)
Lemma direct_logs_newly_resolved data source s s' data' mapping_df :
  no_file source = false →
  files s !! path_of source = Some mapping_df →
  _apply_direct_mapping source_column target_column data source s
    = (s', Return data') →
  provenance s'
  = log_if (provenance s)
      (entry "direct_mapping"
         {[ "mapping_file" := VStr (path_of source);
            "version" := opt_str (version source);
            "mapped_count" :=
              VInt (Z.of_nat (newly_resolved target_column data data')) ]}
         (Some (Z.of_nat (newly_resolved target_column data data')))
         (Some (path_of source))).
Proof.
  intros Hfile Hdf. unfold _apply_direct_mapping.
  rewrite Hfile. unfold bind at 1. cbn [gets]. rewrite Hdf.
  destruct (negb (has_column mapping_df "source_code")
            || negb (has_column mapping_df "target_code")); [done|].
  unfold bind, require_column.
  destruct (has_column data target_column); [|done].
  destruct (has_column data source_column); [|done].
  cbv [ret log_entry modify]. intros [= <- <-]. cbn [provenance].
  set (mapping_dict := dict_zip (column mapping_df "source_code")
                                (column mapping_df "target_code")).
  assert (Z.of_nat (newly_resolved target_column data
                      (apply_dict' mapping_dict data))
          = (Z.of_nat (count_unmapped target_column data)
             - Z.of_nat (count_unmapped target_column
                           (apply_dict' mapping_dict data)))%Z) as ->; [|done].
  rewrite (apply_dict_count mapping_dict data) at 1. lia.
Qed.

(** *** Missing and malformed mapping files *)

(** The direct source without its file: the table is returned as it is and
    the missing file is logged. *)
Lemma direct_missing_file_logged data source s :
  no_file source = false →
  files s !! path_of source = None →
  _apply_direct_mapping source_column target_column data source s
  = ({| provenance :=
          log_if (provenance s)
            (entry "error"
               {[ "error" := VStr ("Mapping file not found: "
                                   +:+ path_of source) ]}
               None (Some (path_of source)));
        ai_assistant := ai_assistant s;
        files := files s;
        review_file := review_file s |}, Return data).
Proof.
  intros Hfile Hnone. unfold _apply_direct_mapping.
  rewrite Hfile. unfold bind at 1. cbn [gets]. by rewrite Hnone.
Qed.

(** The fuzzy source without its file: the table is returned as it is and
    nothing is logged. *)
Lemma fuzzy_missing_file_silent data source s :
  no_file source = false →
  files s !! path_of source = None →
  _apply_fuzzy_mapping source_column target_column data source s
  = (s, Return data).
Proof.
  intros Hfile Hnone. unfold _apply_fuzzy_mapping.
  rewrite Hfile. unfold bind at 1. cbn [gets]. by rewrite Hnone.
Qed.

(** A file that lacks a required column makes the source raise. *)
Lemma direct_malformed_file_raises data source s mapping_df :
  no_file source = false →
  files s !! path_of source = Some mapping_df →
  has_column mapping_df "source_code" = false
  ∨ has_column mapping_df "target_code" = false →
  _apply_direct_mapping source_column target_column data source s
  = (s, Raise (mkExn "ValueError"
       "Mapping file must contain 'source_code' and 'target_code' columns")).
Proof.
  intros Hfile Hdf Hcols. unfold _apply_direct_mapping.
  rewrite Hfile. unfold bind at 1. cbn [gets]. rewrite Hdf.
  by destruct Hcols as [-> | ->]; [|rewrite orb_true_r].
Qed.

Lemma fuzzy_malformed_file_raises data source s mapping_df :
  no_file source = false →
  files s !! path_of source = Some mapping_df →
  has_column mapping_df "target_code" = false →
  _apply_fuzzy_mapping source_column target_column data source s
  = (s, Raise (mkExn "ValueError"
       "Mapping file must contain 'target_code' column")).
Proof.
  intros Hfile Hdf Hcols. unfold _apply_fuzzy_mapping.
  rewrite Hfile. unfold bind at 1. cbn [gets]. by rewrite Hdf, Hcols.
Qed.

End mapping_properties.

(** *** The engine on the example tables *)

Lemma C1_priority_cascade_witness :
  cell_at "gbd_cause" <$> rows (table_of Mapping.cascade_run.2) !! 0
  = Some (Str "Cholera").
Proof.
  refine (proj2 (@C1_priority_cascade Mapping.exact_scorers
            "icd10_code" "gbd_cause")
            Mapping.direct_source [Mapping.fuzzy_source]
            Mapping.unresolved_sample Mapping.fresh_state
            Mapping.cascade_run.1 (table_of Mapping.cascade_run.2)
            Mapping.sample_mapping_file 0
            (Mapping.unresolved_row 1 "A00" 45 "M" 1 2020) (Str "Cholera")
            _ _ _ _ _ _ _ _ _);
    vm_compute; reflexivity.
Defined.

Lemma C4_fuzzy_threshold_witness :
  (∃ mapping_df,
     Mapping.files Mapping.fresh_state
       !! Mapping.path_of Mapping.fuzzy_source = Some mapping_df
     ∧ isna (cell_at "icd10_code"
               (Mapping.unresolved_row 4 "J44" 89 "F" 3 2021)) = false
     ∧ Str "J44" ∈ column mapping_df "target_code"
     ∧ (Mapping.threshold Mapping.fuzzy_source * 100
        <= @Mapping.ratio Mapping.exact_scorers
             (str (cell_at "icd10_code"
                     (Mapping.unresolved_row 4 "J44" 89 "F" 3 2021)))
             (Str "J44"))%Q)
  ∧ cell_at "gbd_cause" <$> rows (table_of Mapping.fuzzy_only_run.2) !! 1
    = Some NA.
Proof.
  split.
  - refine (proj1 (@C4_fuzzy_respects_threshold Mapping.exact_scorers
              "icd10_code" "gbd_cause" Mapping.unresolved_sample
              Mapping.fuzzy_source Mapping.fresh_state
              Mapping.fuzzy_only_run.1 (table_of Mapping.fuzzy_only_run.2)
              3 (Mapping.unresolved_row 4 "J44" 89 "F" 3 2021) _ _ _)
              (Str "J44") _ _);
      vm_compute; reflexivity.
  - refine (proj2 (@C4_fuzzy_respects_threshold Mapping.exact_scorers
              "icd10_code" "gbd_cause" Mapping.unresolved_sample
              Mapping.fuzzy_source Mapping.fresh_state
              Mapping.fuzzy_only_run.1 (table_of Mapping.fuzzy_only_run.2)
              1 (Mapping.unresolved_row 2 "B20" 67 "F" 2 2020) _ _ _)
              Mapping.code_list_file _ _);
      try (vm_compute; reflexivity).
    intros c Hc _. vm_compute in Hc.
    apply list_elem_of_In in Hc. cbn in Hc.
    destruct Hc as [<-|[<-|[]]]; vm_compute; reflexivity.
Defined.

Lemma C10_missing_codes_witness :
  (∃ r', rows (table_of Mapping.fuzzy_missing_code_run.2) !! 0 = Some r'
         ∧ Mapping.unmapped_mask "gbd_cause" r' = true)
  ∧ (∃ r', rows (table_of Mapping.ai_missing_code_run.2) !! 0 = Some r'
           ∧ Mapping.unmapped_mask "gbd_cause" r' = true)
  ∧ (Mapping.review_file Mapping.missing_code_review_run.1
     = Mapping.review_file Mapping.ai_missing_code_run.1
     ∨ ∃ review_rows,
         Mapping.review_file Mapping.missing_code_review_run.1
         = Some review_rows
         ∧ ∀ row, row ∈ review_rows →
             isna (Mapping.source_code row) = false)
  ∧ column (table_of Mapping.ai_missing_code_run.2) "gbd_cause" = [NA; NA]
  ∧ Mapping.review_file Mapping.missing_code_review_run.1
    = Some [Mapping.mkReviewRow (Str "Injuries") 0 "" 0%Q ""].
Proof.
  split; [|split; [|split; [|split]]].
  - refine (proj1 (@C10_missing_codes_are_skipped Mapping.exact_scorers
              "icd10_code" "gbd_cause")
              Mapping.missing_code_rows Mapping.fuzzy_source
              Mapping.fresh_state Mapping.fuzzy_missing_code_run.1
              (table_of Mapping.fuzzy_missing_code_run.2) 0
              {[ "icd10_code" := NA; "gbd_cause" := NA ]} _ _ _ _);
      vm_compute; reflexivity.
  - refine (proj1 (proj2 (@C10_missing_codes_are_skipped
              Mapping.exact_ai_scorers "icd10_code" "gbd_cause"))
              Mapping.missing_code_rows Mapping.ai_source
              Mapping.fresh_state Mapping.ai_missing_code_run.1
              (table_of Mapping.ai_missing_code_run.2) 0
              {[ "icd10_code" := NA; "gbd_cause" := NA ]} _ _ _ _);
      vm_compute; reflexivity.
  - refine (proj2 (proj2 (@C10_missing_codes_are_skipped
              Mapping.exact_ai_scorers "icd10_code" "gbd_cause"))
              Mapping.missing_code_rows Mapping.ai_missing_code_run.1
              Mapping.missing_code_review_run.1
              Mapping.missing_code_review_run.2 _).
    vm_compute; reflexivity.
  - vm_compute; reflexivity.
  - vm_compute; reflexivity.
Defined.

(** C2 in its own scenario, five rows and a direct mapping file for three
    of their codes: two rows stay unresolved, and the engine writes no review
    file and logs none, since [_generate_review_file] builds its rows only
    where the engine holds an assistant. With an AI source after the direct
    one (the AI packages absent), the same rows get the review file that
    lists J44 and K92. *)
Lemma C2_direct_only_writes_no_review_file :
  (column_of (returned Mapping.direct_only_run.2) "gbd_cause"
   = Some [ Str "Cholera"; Str "HIV/AIDS"; Str "Ischemic heart disease";
            NA; NA ]
   ∧ Mapping.review_file Mapping.direct_only_run.1 = None
   ∧ action <$> default [] (Mapping.provenance Mapping.direct_only_run.1)
     = ["direct_mapping"; "mapping_complete"])
  ∧ (column_of (returned Mapping.direct_then_ai_run.2) "gbd_cause"
     = Some [ Str "Cholera"; Str "HIV/AIDS"; Str "Ischemic heart disease";
              NA; NA ]
     ∧ Mapping.review_file Mapping.direct_then_ai_run.1
       = Some [ Mapping.mkReviewRow (Str "J44") 0 "" 0%Q "";
                Mapping.mkReviewRow (Str "K92") 0 "" 0%Q "" ]
     ∧ action <$> default [] (Mapping.provenance Mapping.direct_then_ai_run.1)
       = ["direct_mapping"; "ai_initialization_failed";
          "review_file_generated"; "mapping_complete"]).
Proof. split; (split; [|split]); by vm_compute. Qed.

(** C5 on a fuzzy source whose file is missing: the table comes back and the
    ledger holds no entry, where the direct source logs the missing file. *)
Lemma C5_fuzzy_missing_file_is_not_logged :
  @Mapping._apply_fuzzy_mapping Mapping.exact_scorers "icd10_code"
    "gbd_cause" Mapping.twin_rows Mapping.missing_fuzzy_source
    Mapping.fresh_state
  = (Mapping.fresh_state, Return Mapping.twin_rows)
  ∧ Mapping.provenance Mapping.fresh_state = Some []
  ∧ (λ e, (action e, file_used e))
    <$> default []
          (Mapping.provenance
             (Mapping._apply_direct_mapping "icd10_code" "gbd_cause"
                Mapping.twin_rows Mapping.missing_direct_source
                Mapping.fresh_state).1)
    = [("error", Some "missing.csv")].
Proof. split; [|split]; by vm_compute. Qed.

(** C8 on two rows that share one code: the fuzzy source resolves both rows
    and logs 1, the number of codes it matched. *)
Lemma C8_fuzzy_counts_codes_not_rows :
  column_of
    (returned
       (@Mapping._apply_fuzzy_mapping Mapping.exact_scorers "icd10_code"
          "gbd_cause" Mapping.twin_rows Mapping.fuzzy_source
          Mapping.fresh_state).2) "gbd_cause"
  = Some [Str "J44"; Str "J44"]
  ∧ (λ e, (action e, rows_affected e))
    <$> default []
          (Mapping.provenance
             (@Mapping._apply_fuzzy_mapping Mapping.exact_scorers
                "icd10_code" "gbd_cause" Mapping.twin_rows
                Mapping.fuzzy_source Mapping.fresh_state).1)
    = [("fuzzy_mapping", Some 1%Z)].
Proof. split; by vm_compute. Qed.

(** * Further properties of the stages *)

(** ** The mapping engine as a whole *)

Section mapping_engine_properties.
Import Mapping.
Context `{Scorers} (source_column target_column : string).

Local Abbreviation unmapped := (unmapped_mask target_column).
Local Abbreviation apply_dict' := (apply_dict source_column target_column).

(** A source returns the table as it is or with one dictionary applied. *)
Lemma apply_source_shape data source s s' data' :
  apply_source source_column target_column data source s
    = (s', Return data') →
  data' = data ∨ ∃ mapping_dict, data' = apply_dict' mapping_dict data.
Proof.
  unfold apply_source.
  destruct (String.eqb (type source) "direct").
  { intros (_ & [[_ ->] | (df & _ & _ & ->)])%direct_mapping_run; eauto. }
  destruct (String.eqb (type source) "fuzzy").
  { intros (_ & [-> | (df & _ & _ & ->)])%fuzzy_mapping_run; eauto. }
  destruct (String.eqb (type source) "ai").
  { intros (_ & [-> | (high & _ & ->)])%ai_mapping_run; eauto. }
  intros [= <- <-]. by left.
Qed.

(** [apply_mappings] on a table with the source column runs the sources on
    the table with a fresh target column. *)
Lemma apply_mappings_sources data config s s' result :
  apply_mappings source_column target_column data config s
    = (s', Return result) →
  has_column data source_column = true →
  ∃ s1,
    sources_loop source_column target_column (sources config)
      (assign target_column (λ _, NA) data) s = (s1, Return result).
Proof.
  intros Hrun Hcol.
  destruct (apply_mappings_review_file _ _ _ _ _ _ _ Hrun Hcol)
    as (s1 & Hloop & _).
  by exists s1.
Qed.

(** X1: when [apply_mappings] returns on a table that has the source column,
    the result has the same rows in the same order, the columns of the input
    with the target column appended if it was not there, and every cell
    outside the target column as in the input. *)
Theorem X1_apply_mappings_keeps_shape :
  ∀ data config s s' result,
    apply_mappings source_column target_column data config s
      = (s', Return result) →
    has_column data source_column = true →
    length (rows result) = length (rows data)
    ∧ columns result
      = (if has_column data target_column then columns data
         else columns data ++ [target_column])%list
    ∧ ∀ i r, rows data !! i = Some r →
        ∃ r', rows result !! i = Some r'
              ∧ ∀ col, col ≠ target_column → r' !! col = r !! col.
Proof.
  intros data config s s' result Hrun Hcol.
  destruct (apply_mappings_sources _ _ _ _ _ Hrun Hcol) as (s1 & Hloop).
  apply sources_loop_run in Hloop as (_ & Hcols & Hlen & Hrows).
  split; [|split].
  - rewrite Hlen. unfold assign. cbn. apply length_fmap.
  - by rewrite Hcols.
  - intros i r Hr.
    destruct (Hrows i (<[target_column := NA]> r)) as (r' & Hr' & _ & Hkeep).
    { unfold assign. cbn. by rewrite list_lookup_fmap, Hr. }
    exists r'. split; [done|]. intros col Hcol'.
    by rewrite Hkeep, lookup_insert_ne.
Qed.

(** X2: [apply_mappings] starts from a fresh target column: two tables with
    the same columns whose rows agree outside the target column give the same
    result, ledger and review file, whatever their target columns held. *)
Theorem X2_apply_mappings_discards_old_targets :
  ∀ data1 data2 config s,
    has_column data1 source_column = true →
    columns data1 = columns data2 →
    Forall2 (λ r1 r2, delete target_column r1 = delete target_column r2)
            (rows data1) (rows data2) →
    apply_mappings source_column target_column data1 config s
    = apply_mappings source_column target_column data2 config s.
Proof.
  intros data1 data2 config s Hcol Hcols Hrows.
  assert (has_column data2 source_column = true) as Hcol2.
  { unfold has_column in *. by rewrite <- Hcols. }
  assert (assign target_column (λ _, NA) data1
          = assign target_column (λ _, NA) data2) as Hfresh.
  { unfold assign, has_column. rewrite Hcols. f_equal.
    induction Hrows as [|r1 r2 l1 l2 Hr _ IH]; [done|].
    cbn. f_equal; [|exact IH].
    by rewrite <- (insert_delete_eq r1), <- (insert_delete_eq r2), Hr. }
  unfold apply_mappings. rewrite Hcol, Hcol2. cbn [negb].
  by rewrite Hfresh.
Qed.

(** X3: the entry [apply_mappings] logs last counts the rows of its result:
    [unmapped_count] is the number of rows whose target is missing,
    [mapped_count] and [rows_affected] are the other rows, and the two add up
    to [initial_rows], the rows of the input. *)
Theorem X3_mapping_complete_counts_rows :
  ∀ data config s s' result,
    apply_mappings source_column target_column data config s
      = (s', Return result) →
    has_column data source_column = true →
    ∃ before e,
      provenance s' = log_if before e
      ∧ action e = "mapping_complete"
      ∧ details e !! "initial_rows" = Some (VInt (Z.of_nat (len data)))
      ∧ details e !! "unmapped_count"
        = Some (VInt (Z.of_nat (count_unmapped target_column result)))
      ∧ details e !! "mapped_count"
        = Some (VInt (Z.of_nat (len data
                                - count_unmapped target_column result)))
      ∧ rows_affected e
        = Some (Z.of_nat (len data - count_unmapped target_column result))
      ∧ (count_unmapped target_column result ≤ len data)%nat.
Proof.
  intros data config s s' result Hrun Hcol.
  destruct (apply_mappings_sources _ _ _ _ _ Hrun Hcol) as (s1 & Hloop).
  pose proof (sources_loop_run _ _ _ _ _ _ _ Hloop) as (_ & _ & Hlen & _).
  assert (len result = len data) as Hlen'.
  { unfold len. rewrite Hlen. unfold assign. cbn. apply length_fmap. }
  assert (count_unmapped target_column result ≤ len result)%nat as Hle.
  { unfold count_unmapped, len. apply length_filter. }
  unfold apply_mappings in Hrun. rewrite Hcol in Hrun. cbn [negb] in Hrun.
  unfold bind at 1 in Hrun. rewrite Hloop in Hrun.
  unfold bind at 1 in Hrun.
  destruct ((if bool_decide (0 < len (select unmapped result))
             then _generate_review_file source_column
                    (select unmapped result)
             else ret ()) s1) as [s2 [[]|e]] eqn:Hreview; [|done].
  unfold bind in Hrun. cbv [log_entry modify ret] in Hrun.
  injection Hrun as <-.
  eexists (provenance s2), _. split; [reflexivity|].
  rewrite assign_length.
  change (len (select unmapped result))
    with (count_unmapped target_column result).
  split; [done|]. split; [done|]. split; [done|].
  assert ((Z.of_nat (len data)
           - Z.of_nat (count_unmapped target_column result))%Z
          = Z.of_nat (len data - count_unmapped target_column result))
    as -> by lia.
  split; [done|]. split; [done|]. lia.
Qed.

(** X4: sources that are disabled, and enabled sources whose type is none of
    direct, fuzzy and ai, do nothing: without them in the list the loop over
    the sources returns the same table and leaves the same state. *)
Theorem X4_idle_sources_can_be_dropped :
  ∀ sources data s,
    sources_loop source_column target_column
      (filter (λ source, enabled source = true
                         ∧ type source ∈ ["direct"; "fuzzy"; "ai"])
              sources) data s
    = sources_loop source_column target_column sources data s.
Proof.
  intros sources. induction sources as [|source sources IH]; intros data s.
  { done. }
  rewrite filter_cons. cbn [sources_loop].
  destruct (enabled source) eqn:Hon; cbn [negb].
  - destruct (decide (type source ∈ ["direct"; "fuzzy"; "ai"])) as [Hin|Hout].
    + rewrite decide_True by done. cbn [sources_loop]. rewrite Hon.
      cbn [negb]. unfold bind.
      destruct (apply_source _ _ data source s) as [s1 [data1|e]]; [|done].
      apply IH.
    + rewrite decide_False by (intros [_ ?]; done).
      unfold bind, apply_source.
      rewrite !elem_of_cons, elem_of_nil in Hout.
      destruct (String.eqb_spec (type source) "direct"); [tauto|].
      destruct (String.eqb_spec (type source) "fuzzy"); [tauto|].
      destruct (String.eqb_spec (type source) "ai"); [tauto|].
      cbn. apply IH.
  - rewrite decide_False by (intros [? _]; done). apply IH.
Qed.

End mapping_engine_properties.

Lemma X1_keeps_shape_witness :
  length (rows (table_of Mapping.direct_only_run.2))
  = length (rows Mapping.sample_data)
  ∧ columns (table_of Mapping.direct_only_run.2)
    = (if has_column Mapping.sample_data "gbd_cause"
       then columns Mapping.sample_data
       else columns Mapping.sample_data ++ ["gbd_cause"])%list
  ∧ ∀ i r, rows Mapping.sample_data !! i = Some r →
      ∃ r', rows (table_of Mapping.direct_only_run.2) !! i = Some r'
            ∧ ∀ col, col ≠ "gbd_cause" → r' !! col = r !! col.
Proof.
  refine (@X1_apply_mappings_keeps_shape Mapping.exact_scorers
            "icd10_code" "gbd_cause" Mapping.sample_data
            (Mapping.config_of [Mapping.direct_source]) Mapping.fresh_state
            Mapping.direct_only_run.1 (table_of Mapping.direct_only_run.2)
            _ _);
    vm_compute; reflexivity.
Defined.

Lemma X2_discards_old_targets_witness :
  @Mapping.apply_mappings Mapping.exact_scorers "icd10_code" "gbd_cause"
    Mapping.mapped_sample (Mapping.config_of [Mapping.direct_source])
    Mapping.fresh_state
  = @Mapping.apply_mappings Mapping.exact_scorers "icd10_code" "gbd_cause"
      Mapping.unresolved_sample (Mapping.config_of [Mapping.direct_source])
      Mapping.fresh_state.
Proof.
  refine (@X2_apply_mappings_discards_old_targets Mapping.exact_scorers
            "icd10_code" "gbd_cause" Mapping.mapped_sample
            Mapping.unresolved_sample
            (Mapping.config_of [Mapping.direct_source]) Mapping.fresh_state
            _ _ _);
    [vm_compute; reflexivity | vm_compute; reflexivity |].
  repeat constructor; vm_compute; reflexivity.
Defined.

Lemma X3_mapping_complete_witness :
  ∃ before e,
    Mapping.provenance Mapping.direct_only_run.1 = log_if before e
    ∧ action e = "mapping_complete"
    ∧ details e !! "initial_rows"
      = Some (VInt (Z.of_nat (len Mapping.sample_data)))
    ∧ details e !! "unmapped_count"
      = Some (VInt (Z.of_nat (Mapping.count_unmapped "gbd_cause"
                                (table_of Mapping.direct_only_run.2))))
    ∧ details e !! "mapped_count"
      = Some (VInt (Z.of_nat (len Mapping.sample_data
                              - Mapping.count_unmapped "gbd_cause"
                                  (table_of Mapping.direct_only_run.2))))
    ∧ rows_affected e
      = Some (Z.of_nat (len Mapping.sample_data
                        - Mapping.count_unmapped "gbd_cause"
                            (table_of Mapping.direct_only_run.2)))
    ∧ (Mapping.count_unmapped "gbd_cause"
         (table_of Mapping.direct_only_run.2)
       ≤ len Mapping.sample_data)%nat.
Proof.
  refine (@X3_mapping_complete_counts_rows Mapping.exact_scorers
            "icd10_code" "gbd_cause" Mapping.sample_data
            (Mapping.config_of [Mapping.direct_source]) Mapping.fresh_state
            Mapping.direct_only_run.1 (table_of Mapping.direct_only_run.2)
            _ _);
    vm_compute; reflexivity.
Defined.

Section mapping_engine_properties2.
Import Mapping.
Context `{Scorers} (source_column target_column : string).

Local Abbreviation unmapped := (unmapped_mask target_column).
Local Abbreviation apply_dict' := (apply_dict source_column target_column).

(** *** Rows that share a code *)

Lemma apply_dict_code_determines_target mapping_dict data :
  (∀ ri rj, ri ∈ rows data → rj ∈ rows data →
     cell_at source_column ri = cell_at source_column rj →
     cell_at target_column ri = cell_at target_column rj) →
  ∀ ri rj, ri ∈ rows (apply_dict' mapping_dict data) →
    rj ∈ rows (apply_dict' mapping_dict data) →
    cell_at source_column ri = cell_at source_column rj →
    cell_at target_column ri = cell_at target_column rj.
Proof.
  intros Hdata ri' rj'. unfold apply_dict, assign_where. cbn.
  rewrite !list_elem_of_fmap. intros (ri & -> & Hi) (rj & -> & Hj).
  destruct (decide (source_column = target_column)) as [<-|Hne]; [done|].
  assert (∀ r, cell_at source_column
                 (if unmapped r
                  then <[target_column :=
                           map_with mapping_dict (cell_at source_column r)]> r
                  else r) = cell_at source_column r) as Hsource.
  { intros r. destruct (unmapped r); [|done].
    unfold cell_at. by rewrite lookup_insert_ne. }
  rewrite !Hsource. intros Hcode.
  pose proof (Hdata ri rj Hi Hj Hcode) as Htarget.
  unfold unmapped_mask. rewrite Htarget.
  destruct (isna (cell_at target_column rj)); [|done].
  by rewrite !cell_at_insert, Hcode.
Qed.

Lemma sources_loop_code_determines_target sources data s s' data' :
  sources_loop source_column target_column sources data s
    = (s', Return data') →
  (∀ ri rj, ri ∈ rows data → rj ∈ rows data →
     cell_at source_column ri = cell_at source_column rj →
     cell_at target_column ri = cell_at target_column rj) →
  ∀ ri rj, ri ∈ rows data' → rj ∈ rows data' →
    cell_at source_column ri = cell_at source_column rj →
    cell_at target_column ri = cell_at target_column rj.
Proof.
  revert data s.
  induction sources as [|source sources IH]; intros data s; cbn.
  { by intros [= <- <-]. }
  destruct (enabled source); cbn [negb]; [|apply IH].
  unfold bind.
  destruct (apply_source _ _ data source s) as [s1 [data1|e]] eqn:Hstep;
    [|done].
  intros Hrest Hdata. apply (IH _ _ Hrest).
  apply apply_source_shape in Hstep as [->|[mapping_dict ->]]; [done|].
  by apply apply_dict_code_determines_target.
Qed.

(** X5: in the table [apply_mappings] returns, rows with the same source
    code have the same target: a resolution is per code, never per row. *)
Theorem X5_same_code_same_target :
  ∀ data config s s' result,
    apply_mappings source_column target_column data config s
      = (s', Return result) →
    has_column data source_column = true →
    ∀ ri rj, ri ∈ rows result → rj ∈ rows result →
      cell_at source_column ri = cell_at source_column rj →
      cell_at target_column ri = cell_at target_column rj.
Proof.
  intros data config s s' result Hrun Hcol.
  destruct (apply_mappings_sources _ _ _ _ _ _ _ Hrun Hcol) as (s1 & Hloop).
  apply (sources_loop_code_determines_target _ _ _ _ _ Hloop).
  intros ri rj. unfold assign. cbn. rewrite !list_elem_of_fmap.
  intros (ri0 & -> & _) (rj0 & -> & _) _. by rewrite !cell_at_insert.
Qed.

End mapping_engine_properties2.

(** ** The AI source *)

Section ai_source_properties.
Import Mapping.
Context `{Scorers} (source_column target_column : string).

Local Abbreviation unmapped := (unmapped_mask target_column).
Local Abbreviation apply_dict' := (apply_dict source_column target_column).

(** The assistant never returns a suggestion: without a model or causes it
    has none, and with them its [try] block raises. *)
Lemma suggest_mappings_returns_nothing assistant code top_k s :
  ∃ s', suggest_mappings assistant code top_k s = (s', Return []).
Proof.
  unfold suggest_mappings. destruct (negb (model assistant) || _).
  - by exists s.
  - by eexists.
Qed.

(** So the loop of the AI source leaves its dictionary as it was. *)
Lemma ai_loop_accepts_nothing assistant thr codes suggestions high s :
  ∃ s' suggestions',
    ai_loop assistant thr codes suggestions high s
    = (s', Return (suggestions', high)).
Proof.
  revert suggestions s.
  induction codes as [|code codes IH]; intros suggestions s.
  { by exists s, suggestions. }
  cbn [ai_loop]. unfold bind at 1.
  destruct (suggest_mappings_returns_nothing assistant (str code) 3 s)
    as [s1 ->].
  apply IH.
Qed.

(** The AI source, step by step: the assistant it uses, the loop over the
    codes and the dictionary applied. *)
Lemma ai_mapping_steps data source s s' data' :
  _apply_ai_mapping source_column target_column data source s
    = (s', Return data') →
  ∃ assistant,
    ai_assistant s' = Some assistant
    ∧ (∀ a, ai_assistant s = Some a → assistant = a)
    ∧ (ai_assistant s = None →
       ∃ s0, new_assistant s = (s0, Return assistant))
    ∧ (data' = data
       ∨ ∃ s0 s1 suggestions high,
           ai_loop assistant (threshold source)
             (unique (dropna (column (select unmapped data) source_column)))
             ∅ ∅ s0 = (s1, Return (suggestions, high))
           ∧ high ≠ ∅
           ∧ data' = apply_dict' high data).
Proof.
  unfold _apply_ai_mapping. unfold bind at 1. cbn [gets].
  unfold bind at 1.
  assert (∃ s0 assistant,
    match ai_assistant s with
    | Some assistant => ret assistant
    | None => assistant <- new_assistant ;;
              set_assistant assistant ;;; ret assistant
    end s = (s0, Return assistant)
    ∧ ai_assistant s0 = Some assistant
    ∧ (∀ a, ai_assistant s = Some a → assistant = a)
    ∧ (ai_assistant s = None →
       ∃ s0', new_assistant s = (s0', Return assistant)))
    as (s0 & assistant & -> & Hai0 & Hkept & Hnew).
  { destruct (ai_assistant s) as [assistant|] eqn:Hai.
    - exists s, assistant. split; [done|]. split; [done|].
      split; [by intros a [= <-]|done].
    - destruct (new_assistant_run s) as (s0 & assistant & Hnew & _).
      unfold bind. rewrite Hnew. cbn. eexists _, assistant.
      split; [done|]. split; [done|]. split; [done|]. eauto. }
  unfold bind at 1, require_column.
  destruct (has_column data target_column); [|done]. cbn [ret].
  case_bool_decide.
  { intros [= <- <-]. exists assistant. auto. }
  unfold bind at 1.
  destruct (has_column data source_column); [|done]. cbn [ret].
  unfold bind at 1.
  destruct (ai_loop_run assistant (threshold source)
              (unique (dropna (column (select unmapped data) source_column)))
              ∅ ∅ s0)
    as (s1 & suggestions & high & Hloop & _ & Hai1 & _).
  rewrite Hloop. cbn [snd]. case_bool_decide.
  { intros [= <- <-]. exists assistant.
    split; [congruence|]. auto. }
  unfold bind. cbn. intros [= <- <-]. exists assistant.
  split; [cbn; congruence|]. split; [done|]. split; [done|].
  right. by exists s0, s1, suggestions, high.
Qed.

(** X6: the AI source resolves no row, whatever its threshold, its
    assistant and the model's similarities: where it returns, it returns
    the table it was given, and the engine holds an assistant. *)
Theorem X6_ai_source_resolves_nothing :
  ∀ data source s s' data',
    _apply_ai_mapping source_column target_column data source s
      = (s', Return data') →
    data' = data
    ∧ ∃ assistant, ai_assistant s' = Some assistant.
Proof.
  intros data source s s' data' Hrun.
  apply ai_mapping_steps in Hrun
    as (assistant & Hai & _ & _ & Hdata).
  split; [|by exists assistant].
  destruct Hdata as [->|(s0 & s1 & sg & high & Hloop & Hhigh & ->)]; [done|].
  destruct (ai_loop_accepts_nothing assistant (threshold source)
              (unique (dropna (column (select unmapped data) source_column)))
              ∅ ∅ s0) as (s1' & sg' & Hloop').
  rewrite Hloop in Hloop'. by injection Hloop' as _ _ ->.
Qed.

(** An assistant without a model, or without causes, suggests nothing and
    logs nothing. *)
Lemma suggest_mappings_without_model assistant code top_k s :
  model assistant = false ∨ gbd_causes assistant = [] →
  suggest_mappings assistant code top_k s = (s, Return []).
Proof.
  intros Hno. unfold suggest_mappings.
  destruct Hno as [-> | ->]; [done|].
  by rewrite orb_true_r.
Qed.

Lemma ai_loop_without_model assistant thr codes suggestions high s :
  model assistant = false ∨ gbd_causes assistant = [] →
  ∃ suggestions',
    ai_loop assistant thr codes suggestions high s
    = (s, Return (suggestions', high)).
Proof.
  intros Hno. revert suggestions.
  induction codes as [|code codes IH]; intros suggestions; cbn.
  { by eexists. }
  unfold bind. rewrite suggest_mappings_without_model by done. apply IH.
Qed.

(** X7: where the assistant has no model (the AI packages are missing or the
    model does not load), the AI source resolves nothing: it returns the
    table as it is, and the engine keeps that assistant. *)
Theorem X7_ai_without_model_resolves_nothing :
  ∀ data source s s' data',
    _apply_ai_mapping source_column target_column data source s
      = (s', Return data') →
    (∀ a, ai_assistant s = Some a → model a = false) →
    (ai_assistant s = None →
     HAS_AI_DEPS = false ∨ ∃ e, load_model default_model_name = Raise e) →
    data' = data
    ∧ ∃ assistant, ai_assistant s' = Some assistant
                   ∧ model assistant = false.
Proof.
  intros data source s s' data' Hrun Hold Hnew.
  apply ai_mapping_steps in Hrun
    as (assistant & Hai & Hkept & Hmade & Hdata).
  assert (model assistant = false) as Hmodel.
  { destruct (ai_assistant s) as [a|] eqn:Has.
    - rewrite (Hkept a eq_refl). by apply Hold.
    - destruct (Hmade eq_refl) as (s0 & Hmake).
      unfold new_assistant in Hmake.
      destruct (Hnew eq_refl) as [Hdeps|[e Hload]].
      + rewrite Hdeps in Hmake. cbn in Hmake. by injection Hmake as _ <-.
      + destruct HAS_AI_DEPS; cbn in Hmake.
        * rewrite Hload in Hmake. cbn in Hmake. by injection Hmake as _ <-.
        * by injection Hmake as _ <-. }
  split; [|by exists assistant].
  destruct Hdata as [->|(s0 & s1 & sg & high & Hloop & Hhigh & ->)]; [done|].
  destruct (ai_loop_without_model assistant (threshold source)
              (unique (dropna (column (select unmapped data) source_column)))
              ∅ ∅ s0 (or_introl Hmodel)) as (sg' & Hloop').
  rewrite Hloop in Hloop'. by injection Hloop' as _ _ ->.
Qed.

End ai_source_properties.

(** ** The assistant's suggestions *)

Section suggestion_properties.
Import Mapping.
Context `{Scorers}.

(** The loop of the review file adds one row per code, a row without a
    suggestion. *)
Lemma review_loop_placeholders assistant codes review_rows s :
  ∃ s',
    review_loop assistant codes review_rows s
    = (s', Return (review_rows
                   ++ ((λ code, mkReviewRow code 0 "" 0%Q "") <$> codes))%list)
    ∧ review_file s' = review_file s.
Proof.
  revert review_rows s.
  induction codes as [|code codes IH]; intros review_rows s.
  { exists s. cbn. by rewrite app_nil_r. }
  cbn [review_loop]. unfold bind at 1.
  destruct (suggest_mappings_run assistant (str code) 3 s)
    as (s1 & suggestions & Hsuggest & _ & [_ Hreview1] & _).
  unfold suggest_mappings in Hsuggest.
  assert (suggestions = []) as ->.
  { destruct (negb (model assistant) || _); by injection Hsuggest as _ <-. }
  fold (suggest_mappings assistant (str code) 3 s) in Hsuggest.
  rewrite Hsuggest.
  destruct (IH (review_rows ++ review_rows_of code [])%list s1)
    as (s' & -> & Hreview).
  exists s'. cbn. rewrite <- app_assoc. split; [done|]. congruence.
Qed.

(** X8: a review file that [_generate_review_file] writes carries no
    suggestion: it has one row for each distinct code of the table it is
    given that is not missing, in the order of their first rows, with rank
    0, an empty cause and confidence 0. *)
Theorem X8_review_file_holds_no_suggestion :
  ∀ source_column unmapped_data s,
    let s' := (_generate_review_file source_column unmapped_data s).1 in
    review_file s' = review_file s
    ∨ review_file s'
      = Some ((λ code, mkReviewRow code 0 "" 0%Q "")
              <$> unique (dropna (column unmapped_data source_column))).
Proof.
  intros source_column unmapped_data s. cbn zeta.
  unfold _generate_review_file, require_column.
  destruct (has_column unmapped_data source_column); [|by left].
  unfold bind. cbn [ret gets].
  destruct (ai_assistant s) as [assistant|]; [|by left].
  destruct (review_loop_placeholders assistant
              (unique (dropna (column unmapped_data source_column))) [] s)
    as (s1 & Hloop & Hreview).
  rewrite Hloop. cbn [app].
  destruct (unique (dropna (column unmapped_data source_column)))
    as [|code codes]; [by left|].
  right. by cbn.
Qed.

(** *** The candidate the fuzzy source takes *)

Lemma extractOne_from_best query choices cutoff result choice score :
  (∀ c, c ∈ choices → isna c = false → (ratio query c <= 100)%Q) →
  (∀ c best, result = Some (c, best) → (cutoff <= best)%Q) →
  extractOne_from query choices cutoff result = Some (choice, score) →
  (cutoff <= score)%Q
  ∧ (∀ c best, result = Some (c, best) → (best <= score)%Q)
  ∧ ∀ c, c ∈ choices → isna c = false → (ratio query c <= score)%Q.
Proof.
  revert cutoff result.
  induction choices as [|x choices IH]; intros cutoff result Hmax Hinv; cbn.
  { intros ->. split; [by eapply Hinv|]. split.
    - intros c best [= <- <-]. apply Qle_refl.
    - by intros c ?%elem_of_nil. }
  assert (∀ c, c ∈ choices → isna c = false → (ratio query c <= 100)%Q)
    as Hmax'.
  { intros c Hc. apply Hmax, elem_of_cons. by right. }
  destruct (isna x) eqn:Hx.
  { intros (Hcut & Hbest & Hall)%IH; [|done..].
    split; [done|]. split; [done|].
    intros c [->|Hc]%elem_of_cons Hna; [congruence|by apply Hall]. }
  set (s := ratio query x).
  assert (s <= 100)%Q as Hs by (apply Hmax; [apply list_elem_of_here|done]).
  destruct (Qle_bool cutoff s
            && match result with
               | Some (_, best) => negb (Qle_bool s best)
               | None => true
               end) eqn:Hbetter.
  - apply andb_true_iff in Hbetter as [Hreach%Qle_bool_iff Hbeats].
    assert (∀ c best, result = Some (c, best) → (best <= s)%Q) as Hold.
    { intros c best ->. apply negb_true_iff in Hbeats.
      apply Qlt_le_weak, Qnot_le_lt. intros Hc%Qle_bool_iff. congruence. }
    destruct (Qeq_bool s 100) eqn:Htop.
    + apply Qeq_bool_iff in Htop. intros [= <- <-].
      split; [done|]. split; [done|].
      intros c [->|Hc]%elem_of_cons Hna; [apply Qle_refl|].
      rewrite Htop. by apply Hmax'.
    + intros (Hcut & Hbest & Hall)%IH; [|done|];
        [|by intros c best [= <- <-]; apply Qle_refl].
      pose proof (Hbest x s eq_refl) as Hxs.
      split; [by eapply Qle_trans|]. split.
      * intros c best Hres. eapply Qle_trans; [by eapply Hold|done].
      * intros c [->|Hc]%elem_of_cons Hna; [done|by apply Hall].
  - assert (∀ sc, (cutoff <= sc)%Q →
              (∀ c best, result = Some (c, best) → (best <= sc)%Q) →
              (s <= sc)%Q) as Hbelow.
    { intros sc Hcut Hbest.
      apply andb_false_iff in Hbetter as [Hlow|Hlose].
      - eapply Qle_trans; [|exact Hcut].
        apply Qlt_le_weak, Qnot_le_lt. intros Hc%Qle_bool_iff. congruence.
      - destruct result as [[c best]|]; [|done].
        apply negb_false_iff, Qle_bool_iff in Hlose.
        eapply Qle_trans; [exact Hlose|]. by eapply Hbest. }
    destruct (Qeq_bool s 100) eqn:Htop.
    + apply Qeq_bool_iff in Htop. intros ->.
      assert (cutoff <= score)%Q as Hcut by (by eapply Hinv).
      assert (∀ c best, Some (choice, score) = Some (c, best) →
                (best <= score)%Q) as Hbest.
      { intros c best [= <- <-]. apply Qle_refl. }
      split; [done|]. split; [done|].
      intros c [->|Hc]%elem_of_cons Hna; [by apply Hbelow|].
      eapply Qle_trans; [by apply Hmax'|].
      rewrite <- Htop. by apply Hbelow.
    + intros (Hcut & Hbest & Hall)%IH; [|done..].
      split; [done|]. split; [done|].
      intros c [->|Hc]%elem_of_cons Hna; [by apply Hbelow|by apply Hall].
Qed.

(** X9: the candidate the fuzzy source maps a code to is a best one: where
    the scorer stays within 100, no candidate of the list scores higher for
    that code. *)
Theorem X9_fuzzy_takes_a_best_candidate :
  ∀ target_codes cutoff codes key v,
    (∀ c, c ∈ target_codes → isna c = false →
       (ratio (str key) c <= 100)%Q) →
    fuzzy_dict target_codes cutoff codes !! key = Some v →
    v ∈ target_codes
    ∧ ∀ c, c ∈ target_codes → isna c = false →
        (ratio (str key) c <= ratio (str key) v)%Q.
Proof.
  intros target_codes cutoff codes key v Hmax Hv.
  apply fuzzy_dict_lookup in Hv as (_ & score & Hone).
  pose proof Hone as Hone'. unfold extractOne in Hone, Hone'.
  apply (extractOne_from_accepts _ _ cutoff) in Hone
    as [?|(Hin & _ & -> & _)]; [done| |apply Qle_refl].
  split; [done|].
  apply extractOne_from_best in Hone' as (_ & _ & Hall); done.
Qed.

End suggestion_properties.

(** ** The direct source's lookups *)

Section direct_source_properties.
Import Mapping.
Context (source_column target_column : string).

Local Abbreviation unmapped := (unmapped_mask target_column).

Lemma dict_zip_lookup keys values key :
  dict_zip keys values !! key
  = snd <$> last (filter (λ kv, kv.1 = key) (zip keys values)).
Proof.
  unfold dict_zip.
  induction (zip keys values) as [|kv l IH] using rev_ind; [done|].
  rewrite foldl_app, filter_app. cbn [foldl].
  rewrite filter_cons, filter_nil.
  destruct (decide (kv.1 = key)) as [<-|Hne].
  - by rewrite lookup_insert_eq, last_snoc.
  - by rewrite lookup_insert_ne, app_nil_r.
Qed.

(** X10: where its file is there with both columns, the direct source gives
    every unresolved row the [target_code] of the last row of the file whose
    [source_code] equals the row's code, and leaves it unresolved when the
    file has no such row. *)
Theorem X10_direct_takes_the_last_file_row :
  ∀ data source s s' data' mapping_df i r,
    no_file source = false →
    files s !! path_of source = Some mapping_df →
    _apply_direct_mapping source_column target_column data source s
      = (s', Return data') →
    rows data !! i = Some r →
    unmapped r = true →
    cell_at target_column <$> rows data' !! i
    = Some (default NA
              (snd <$> last (filter (λ kv, kv.1 = cell_at source_column r)
                               (zip (column mapping_df "source_code")
                                    (column mapping_df "target_code"))))).
Proof.
  intros data source s s' data' df i r Hfile Hdf Hrun Hr Hun.
  apply direct_mapping_run in Hrun
    as [_ [[[?|?] _]|(df' & _ & Hdf' & ->)]]; [congruence..|].
  assert (df' = df) as -> by congruence.
  rewrite apply_dict_lookup, Hr. cbn. rewrite Hun, cell_at_insert.
  unfold map_with. by rewrite dict_zip_lookup.
Qed.

End direct_source_properties.

(** ** Quality stage: recovery and the score *)

Section quality_stage_properties.
Import Quality.
Context `{PandasChecks}.

Lemma checks_loop_app data pre post run found prov :
  checks_loop data (pre ++ post) run found prov
  = match checks_loop data pre run found prov with
    | (prov1, Return looped) => checks_loop data post looped.1 looped.2 prov1
    | (prov1, Raise e) => (prov1, Raise e)
    end.
Proof.
  revert run found prov.
  induction pre as [|check pre IH]; intros run found prov; [done|].
  cbn [app checks_loop].
  destruct (enabled check); cbn [negb]; [|apply IH].
  destruct (_checks (name check)) as [body|].
  - destruct (body data (parameters check)); unfold bind; cbn; apply IH.
  - unfold bind. cbn. apply IH.
Qed.

(** The loop only adds to [checks_run] and [issues_found]. *)
Lemma checks_loop_extends data checks run found prov prov' run' found' :
  checks_loop data checks run found prov = (prov', Return (run', found')) →
  run `prefix_of` run' ∧ found `prefix_of` found'.
Proof.
  revert run found prov.
  induction checks as [|check checks IH]; intros run found prov; cbn.
  { by intros [= <- <- <-]. }
  destruct (enabled check); cbn [negb]; [|apply IH].
  destruct (_checks (name check)) as [body|].
  - destruct (body data (parameters check)) as [result|e]; unfold bind; cbn.
    + intros [Hrun Hfound]%IH. split.
      * etrans; [|exact Hrun]. by apply prefix_app_r.
      * etrans; [|exact Hfound]. by apply prefix_app_r.
    + intros [Hrun Hfound]%IH. split; [done|].
      etrans; [|exact Hfound]. by apply prefix_app_r.
  - unfold bind. cbn. apply IH.
Qed.

(** X11: a check that raises does not abort [run_checks]: the stage logs
    [check_error], adds the issue "Check failed with error: ..." of severity
    error, does not list the check as run, and goes on with the later checks
    from there; the results returned keep every check and issue gathered so
    far. *)
Theorem X11_raising_check_is_recovered :
  ∀ data pre check post prov prov1 run1 found1 body e,
    checks_loop data pre [] [] prov = (prov1, Return (run1, found1)) →
    enabled check = true →
    _checks (name check) = Some body →
    body data (parameters check) = Raise e →
    checks_loop data (pre ++ check :: post) [] [] prov
    = checks_loop data post run1
        (found1 ++ [failed_check_issue check e])%list
        (log_if prov1 (check_error check e))
    ∧ ∃ prov' results,
        run_checks data (pre ++ check :: post) prov = (prov', Return results)
        ∧ run1 `prefix_of` checks_run results
        ∧ (found1 ++ [failed_check_issue check e])%list
            `prefix_of` issues_found results
        ∧ issue_severity (failed_check_issue check e) = Some "error"
        ∧ issue_message (failed_check_issue check e)
          = "Check failed with error: " +:+ exn_message e.
Proof.
  intros data pre check post prov prov1 run1 found1 body e Hpre Hon Hbody
    Hraise.
  assert (checks_loop data (pre ++ check :: post) [] [] prov
          = checks_loop data post run1
              (found1 ++ [failed_check_issue check e])%list
              (log_if prov1 (check_error check e))) as Hloop.
  { rewrite checks_loop_app, Hpre. cbn [checks_loop fst snd].
    by rewrite Hon, Hbody, Hraise. }
  split; [done|].
  destruct (run_checks_returns data (pre ++ check :: post) prov)
    as (prov' & [run' found'] & Hloop' & Hrun).
  eexists _, _. split; [exact Hrun|]. cbn.
  rewrite Hloop in Hloop'. by apply checks_loop_extends in Hloop' as [??].
Qed.

Lemma penalize_le score issue : (penalize score issue <= score)%Q.
Proof.
  unfold penalize. repeat case_bool_decide.
  - rewrite <- (Qplus_0_r score) at 2. unfold Qminus.
    by apply Qplus_le_compat; [apply Qle_refl|].
  - rewrite <- (Qplus_0_r score) at 2. unfold Qminus.
    by apply Qplus_le_compat; [apply Qle_refl|].
  - apply Qle_refl.
Qed.

(** X12: one more issue never raises the score: for a table on which the
    score is defined, the score of a list of issues with one more issue of
    any severity is at most the score without it. *)
Theorem X12_more_issues_never_raise_the_score :
  ∀ data issues issue q,
    _calculate_quality_score data issues = Some q →
    ∃ q', _calculate_quality_score data (issues ++ [issue]) = Some q'
          ∧ (q' <= q)%Q.
Proof.
  intros data issues issue q. unfold _calculate_quality_score.
  case_bool_decide.
  { intros [= <-]. eexists. split; [done|]. apply Qle_refl. }
  case_bool_decide; [done|]. intros [= <-].
  eexists. split; [done|].
  rewrite foldl_app. cbn [foldl].
  apply Q.max_le_compat_l, Q.min_le_compat_l.
  apply Qplus_le_compat; [|apply Qle_refl].
  apply Qmult_le_compat_r; [apply penalize_le|done].
Qed.

(** X13: [check_completeness] with a list of required columns reports no
    issue when the table has them all, and one issue of severity error
    otherwise. *)
Theorem X13_completeness_reports_missing_columns :
  ∀ data params required,
    params !! "required_columns" = Some (VList required) →
    ∃ result,
      _check_completeness data params = Return result
      ∧ (Forall (λ col, col ∈ columns data) required → issues result = [])
      ∧ (¬ Forall (λ col, col ∈ columns data) required →
         ∃ issue, issues result = [issue]
                  ∧ issue_severity issue = Some "error"
                  ∧ issue_check issue = "check_completeness").
Proof.
  intros data params required Hparam. unfold _check_completeness.
  rewrite Hparam. cbn. eexists. split; [done|]. cbn.
  assert (filter (λ col, has_column data col = false) required = []
          ↔ Forall (λ col, col ∈ columns data) required) as Hnone.
  { clear Hparam. induction required as [|col required IH].
    - split; [constructor|done].
    - rewrite filter_cons, Forall_cons. case_decide as Hc.
      + unfold has_column in Hc. apply bool_decide_eq_false in Hc.
        split; [done|tauto].
      + unfold has_column in Hc. apply not_false_is_true in Hc.
        apply bool_decide_eq_true in Hc. rewrite IH. tauto. }
  split.
  - intros Hall%Hnone. by rewrite Hall.
  - intros Hmissing.
    assert (filter (λ col, has_column data col = false) required ≠ [])
      as Hsome by (by intros ?%Hnone).
    clear Hnone.
    destruct (filter _ required) as [|col missing]; [done|by eexists].
Qed.

End quality_stage_properties.

(** ** Cleaning stage: disabled rules and [standardize_ages] *)

Section cleaning_stage_properties.
Import Cleaning.
Context `{Pandas}.

(** X14: rules that are disabled do nothing: with no rule, or only disabled
    ones, [apply_rules] returns the table as it is and logs only
    [cleaning_complete], with no row removed. *)
Theorem X14_disabled_rules_change_nothing :
  ∀ data rules prov,
    Forall (λ rule, enabled rule = false) rules →
    apply_rules data rules prov
    = (log_if prov (cleaning_complete (len data) (len data)), Return data).
Proof.
  intros data rules prov Hoff. unfold apply_rules, bind.
  assert (rules_loop rules data prov = (prov, Return data)) as ->; [|done].
  induction Hoff as [|rule rules Hrule _ IH]; [done|].
  cbn. by rewrite Hrule.
Qed.

(** A cell of a numeric column: missing or a number. *)
Lemma to_numeric_cases c :
  to_numeric c = NA ∨ ∃ z, to_numeric c = Num z.
Proof.
  destruct c as [|z|s]; cbn; eauto.
  destruct (to_numeric_text s); eauto.
Qed.

Lemma to_numeric_idem c : to_numeric (to_numeric c) = to_numeric c.
Proof. by destruct (to_numeric_cases c) as [->|[z ->]]. Qed.

Lemma in_range_spec c lo hi :
  c = NA ∨ (∃ z, c = Num z) →
  cell_lt c lo || cell_gt c hi = false →
  c = NA ∨ ∃ z, c = Num z ∧ (lo <= inject_Z z)%Q ∧ (inject_Z z <= hi)%Q.
Proof.
  intros [->|[z ->]]; [by left|]. cbn.
  intros [Hlo Hhi]%orb_false_iff. right. exists z. split; [done|].
  apply negb_false_iff in Hlo, Hhi. by rewrite <- !Qle_bool_iff.
Qed.

Lemma as_number_bound v q :
  as_number v = Some q → as_bound v = Some (Some q).
Proof. destruct v; cbn; intros; by simplify_eq. Qed.

(** A whole number below 2^53 in magnitude is a float64. *)
Lemma float64_small z : (- 2 ^ 53 < z < 2 ^ 53)%Z → float64 z = z.
Proof.
  intros Hz. unfold float64.
  assert (Z.log2 (Z.abs z) < 53)%Z as Hlog.
  { destruct (decide (Z.abs z = 0%Z)) as [->|Hne]; [done|].
    apply Z.log2_lt_pow2; lia. }
  destruct (Z.leb_spec (Z.log2 (Z.abs z) - 52) 0); [done|lia].
Qed.

Lemma float64_cell_in_range c lo hi :
  (inject_Z (- 2 ^ 53) < lo)%Q →
  (hi < inject_Z (2 ^ 53))%Q →
  c = NA ∨ (∃ z, c = Num z ∧ (lo <= inject_Z z)%Q ∧ (inject_Z z <= hi)%Q) →
  float64_cell c = c.
Proof.
  intros Hlo Hhi [->|(z & -> & Hge & Hle)]; [done|].
  cbn. f_equal. apply float64_small. split.
  - rewrite Zlt_Qlt. by eapply Qlt_le_trans.
  - rewrite Zlt_Qlt. by eapply Qle_lt_trans.
Qed.

Lemma assign_columns col f data :
  has_column data col = true → columns (assign col f data) = columns data.
Proof. unfold assign. cbn. by intros ->. Qed.

(** What [_standardize_ages] returns on a table that has the column, with
    numeric bounds below 2^53 in magnitude: every row holds the column, and
    its cell there is missing or a number within the bounds. *)
Lemma standardize_ages_rows data params data' col lo hi :
  _standardize_ages data params = Return data' →
  get params "column" (VStr "age") = VStr col →
  has_column data col = true →
  as_number (get params "min_age" (VInt 0)) = Some lo →
  as_number (get params "max_age" (VInt 150)) = Some hi →
  (inject_Z (- 2 ^ 53) < lo)%Q →
  (hi < inject_Z (2 ^ 53))%Q →
  columns data' = columns data
  ∧ ∀ r, r ∈ rows data' →
      ∃ c, r !! col = Some c
           ∧ (c = NA
              ∨ ∃ z, c = Num z
                     ∧ (lo <= inject_Z z)%Q ∧ (inject_Z z <= hi)%Q).
Proof.
  intros Hrun Hcolumn Hcol Hlo Hhi Hlo53 Hhi53.
  unfold _standardize_ages in Hrun.
  rewrite Hcolumn, Hcol, (as_number_bound _ _ Hlo), (as_number_bound _ _ Hhi)
    in Hrun.
  cbn [negb below above] in Hrun.
  set (coerced := assign col (λ r, to_numeric (cell_at col r)) data) in *.
  assert (columns coerced = columns data) as Hcols.
  { by apply assign_columns. }
  assert (∀ r, r ∈ rows coerced →
            ∃ c, r !! col = Some c ∧ cell_at col r = c
                 ∧ (c = NA ∨ ∃ z, c = Num z)) as Hcoerced.
  { intros r. unfold coerced, assign. cbn. rewrite list_elem_of_fmap.
    intros (r0 & -> & _). eexists.
    split; [apply lookup_insert_eq|]. split; [apply cell_at_insert|].
    apply to_numeric_cases. }
  destruct (existsb _ (rows coerced)) eqn:Hany.
  - destruct (truthy (get params "remove_invalid" (VBool false)));
      injection Hrun as <-.
    + split; [done|]. intros r. unfold select. cbn.
      rewrite list_elem_of_filter. intros [Hvalid Hr].
      destruct (Hcoerced r Hr) as (c & Hc & Hcell & Hnum).
      exists c. split; [done|]. apply in_range_spec; [done|].
      apply negb_true_iff in Hvalid. by rewrite Hcell in Hvalid.
    + split.
      { rewrite assign_columns; [exact Hcols|].
        change (has_column coerced col = true).
        unfold has_column in *. by rewrite Hcols. }
      intros r'. unfold assign, assign_where. cbn.
      rewrite <- list_fmap_compose, list_elem_of_fmap.
      intros (r & -> & Hr). cbn.
      destruct (Hcoerced r Hr) as (c & Hc & Hcell & Hnum).
      eexists. split; [apply lookup_insert_eq|].
      destruct (cell_lt (cell_at col r) lo || cell_gt (cell_at col r) hi)
        eqn:Hinvalid.
      * left. by rewrite cell_at_insert.
      * rewrite Hcell in *.
        pose proof (in_range_spec c lo hi Hnum Hinvalid) as Hrange.
        by rewrite (float64_cell_in_range c lo hi).
  - injection Hrun as <-. split; [done|]. intros r Hr.
    destruct (Hcoerced r Hr) as (c & Hc & Hcell & Hnum).
    exists c. split; [done|]. apply in_range_spec; [done|].
    rewrite <- Hcell.
    destruct (cell_lt (cell_at col r) lo || cell_gt (cell_at col r) hi)
      eqn:Hinvalid; [|done].
    assert (existsb (λ r, cell_lt (cell_at col r) lo
                          || cell_gt (cell_at col r) hi) (rows coerced)
            = true) as Hex; [|congruence].
    apply existsb_exists. exists r. split; [|done].
    by apply list_elem_of_In.
Qed.

(** X15: after [standardize_ages] on a table that has the column, with
    numeric bounds below 2^53 in magnitude, every cell of the column is
    missing or a number within the closed interval of the bounds. *)
Theorem X15_standardize_ages_leaves_ages_in_range :
  ∀ data params data' col lo hi,
    _standardize_ages data params = Return data' →
    get params "column" (VStr "age") = VStr col →
    has_column data col = true →
    as_number (get params "min_age" (VInt 0)) = Some lo →
    as_number (get params "max_age" (VInt 150)) = Some hi →
    (inject_Z (- 2 ^ 53) < lo)%Q →
    (hi < inject_Z (2 ^ 53))%Q →
    ∀ c, c ∈ column data' col →
      c = NA
      ∨ ∃ z, c = Num z ∧ (lo <= inject_Z z)%Q ∧ (inject_Z z <= hi)%Q.
Proof.
  intros data params data' col lo hi Hrun Hcolumn Hcol Hlo Hhi Hlo53 Hhi53 c.
  destruct (standardize_ages_rows _ _ _ _ _ _
              Hrun Hcolumn Hcol Hlo Hhi Hlo53 Hhi53) as [_ Hrows].
  unfold column. rewrite list_elem_of_fmap. intros (r & -> & Hr).
  destruct (Hrows r Hr) as (c & Hc & Hrange).
  unfold cell_at. by rewrite Hc.
Qed.

(** X16: with numeric bounds below 2^53 in magnitude [standardize_ages] is
    idempotent: applied with the same parameters to a table it returned, it
    returns that table. *)
Theorem X16_standardize_ages_is_idempotent :
  ∀ data params data' lo hi,
    _standardize_ages data params = Return data' →
    as_number (get params "min_age" (VInt 0)) = Some lo →
    as_number (get params "max_age" (VInt 150)) = Some hi →
    (inject_Z (- 2 ^ 53) < lo)%Q →
    (hi < inject_Z (2 ^ 53))%Q →
    _standardize_ages data' params = Return data'.
Proof.
  intros data params data' lo hi Hrun Hlo Hhi Hlo53 Hhi53.
  destruct (get params "column" (VStr "age")) as [| | | |col| |] eqn:Hcolumn;
    try (unfold _standardize_ages in *; rewrite Hcolumn in *; congruence).
  destruct (has_column data col) eqn:Hcol.
  2:{ unfold _standardize_ages in *. rewrite Hcolumn, Hcol in *.
      cbn [negb] in *. injection Hrun as <-. by rewrite Hcol. }
  destruct (standardize_ages_rows _ _ _ _ _ _
              Hrun Hcolumn Hcol Hlo Hhi Hlo53 Hhi53) as [Hcols Hrows].
  assert (has_column data' col = true) as Hcol'.
  { unfold has_column in *. by rewrite Hcols. }
  assert (assign col (λ r, to_numeric (cell_at col r)) data' = data')
    as Hsame.
  { unfold assign. rewrite Hcol'. destruct data' as [cols rws]. cbn in *.
    f_equal. rewrite <- (list_fmap_id rws) at 2.
    apply list_fmap_ext. intros j r Hj.
    destruct (Hrows r (list_elem_of_lookup_2 _ _ _ Hj))
      as (c & Hc & Hrange).
    cbn. apply insert_id. unfold cell_at. rewrite Hc. cbn.
    by destruct Hrange as [->|(z & -> & _)]. }
  unfold _standardize_ages.
  rewrite Hcolumn, Hcol', (as_number_bound _ _ Hlo), (as_number_bound _ _ Hhi).
  cbn [negb below above]. rewrite Hsame.
  assert (existsb (λ r, cell_lt (cell_at col r) lo
                        || cell_gt (cell_at col r) hi) (rows data')
          = false) as ->; [|done].
  apply not_true_is_false. intros (r & Hr & Hinvalid)%existsb_exists.
  apply list_elem_of_In in Hr.
  destruct (Hrows r Hr) as (c & Hc & Hrange).
  unfold cell_at in Hinvalid. rewrite Hc in Hinvalid. cbn in Hinvalid.
  destruct Hrange as [->|(z & -> & Hge & Hle)]; [done|]. cbn in Hinvalid.
  apply Qle_bool_iff in Hge, Hle. by rewrite Hge, Hle in Hinvalid.
Qed.

End cleaning_stage_properties.

(** ** The properties above on the example tables *)

Lemma X5_same_code_witness :
  cell_at "gbd_cause"
    ({[ "icd10_code" := Str "J44"; "gbd_cause" := Str "J44" ]}
       : gmap string cell)
  = cell_at "gbd_cause"
      ({[ "icd10_code" := Str "J44"; "gbd_cause" := Str "J44" ]}
         : gmap string cell)
  ∧ column (table_of Mapping.twin_fuzzy_run.2) "gbd_cause" = [Str "J44"; Str "J44"].
Proof.
  split; [|vm_compute; reflexivity].
  refine (@X5_same_code_same_target Mapping.exact_scorers
            "icd10_code" "gbd_cause" Mapping.twin_rows
            (Mapping.config_of [Mapping.fuzzy_source]) Mapping.fresh_state
            Mapping.twin_fuzzy_run.1 (table_of Mapping.twin_fuzzy_run.2)
            _ _ _ _ _ _ _);
    try (vm_compute; reflexivity);
    vm_compute; apply list_elem_of_here.
Defined.

Lemma X6_ai_source_witness :
  table_of Mapping.ai_missing_code_run.2 = Mapping.missing_code_rows
  ∧ ∃ assistant,
      Mapping.ai_assistant Mapping.ai_missing_code_run.1 = Some assistant.
Proof.
  refine (@X6_ai_source_resolves_nothing Mapping.exact_ai_scorers
            "icd10_code" "gbd_cause" Mapping.missing_code_rows
            Mapping.ai_source Mapping.fresh_state
            Mapping.ai_missing_code_run.1
            (table_of Mapping.ai_missing_code_run.2) _);
    vm_compute; reflexivity.
Defined.

Lemma X7_ai_without_packages_witness :
  table_of Mapping.ai_without_packages_run.2 = Mapping.unresolved_sample
  ∧ ∃ assistant,
      Mapping.ai_assistant Mapping.ai_without_packages_run.1 = Some assistant
      ∧ Mapping.model assistant = false.
Proof.
  refine (@X7_ai_without_model_resolves_nothing Mapping.exact_scorers
            "icd10_code" "gbd_cause" Mapping.unresolved_sample
            Mapping.ai_source Mapping.fresh_state
            Mapping.ai_without_packages_run.1
            (table_of Mapping.ai_without_packages_run.2) _ _ _).
  - vm_compute; reflexivity.
  - intros a Ha. discriminate Ha.
  - intros _. left. reflexivity.
Defined.

Lemma X9_best_candidate_witness :
  Str "J44" ∈ [Str "A00"; Str "J44"]
  ∧ ∀ c, c ∈ [Str "A00"; Str "J44"] → isna c = false →
      (@Mapping.ratio Mapping.exact_scorers (str (Str "J44")) c
       <= @Mapping.ratio Mapping.exact_scorers (str (Str "J44")) (Str "J44"))%Q.
Proof.
  refine (@X9_fuzzy_takes_a_best_candidate Mapping.exact_scorers
            [Str "A00"; Str "J44"] 85%Q [Str "J44"; Str "K92"]
            (Str "J44") (Str "J44") _ _).
  - intros c Hc _. apply list_elem_of_In in Hc. cbn in Hc.
    destruct Hc as [<-|[<-|[]]]; vm_compute; discriminate.
  - vm_compute; reflexivity.
Defined.

Lemma X10_last_file_row_witness :
  cell_at "gbd_cause" <$> rows (table_of Mapping.direct_duplicates_run.2) !! 0
  = Some (default NA
            (snd <$> last
               (filter (λ kv, kv.1 = cell_at "icd10_code"
                                       (Mapping.unresolved_row 1 "A00" 45 "M"
                                          1 2020))
                  (zip (column Mapping.duplicate_mapping_file "source_code")
                       (column Mapping.duplicate_mapping_file
                          "target_code")))))
  ∧ column (table_of Mapping.direct_duplicates_run.2) "gbd_cause"
    = [Str "Typhoid"; Str "HIV/AIDS"; NA; NA; NA].
Proof.
  split; [|vm_compute; reflexivity].
  refine (X10_direct_takes_the_last_file_row "icd10_code" "gbd_cause"
            Mapping.unresolved_sample Mapping.direct_source
            Mapping.duplicate_state Mapping.direct_duplicates_run.1
            (table_of Mapping.direct_duplicates_run.2)
            Mapping.duplicate_mapping_file 0
            (Mapping.unresolved_row 1 "A00" 45 "M" 1 2020) _ _ _ _ _);
    vm_compute; reflexivity.
Defined.

Lemma X11_raising_check_witness :
  @Quality.checks_loop Quality.warning_checks Quality.complete_table
    ([] ++ Quality.broken_completeness_check :: [Quality.duplicates_check])
    [] [] (Some [])
  = @Quality.checks_loop Quality.warning_checks Quality.complete_table
      [Quality.duplicates_check] []
      ([] ++ [Quality.failed_check_issue Quality.broken_completeness_check
                Quality.not_iterable_error])%list
      (log_if (Some [])
         (Quality.check_error Quality.broken_completeness_check
            Quality.not_iterable_error))
  ∧ ∃ prov' results,
      @Quality.run_checks Quality.warning_checks Quality.complete_table
        ([] ++ Quality.broken_completeness_check
            :: [Quality.duplicates_check]) (Some [])
      = (prov', Return results)
      ∧ [] `prefix_of` Quality.checks_run results
      ∧ ([] ++ [Quality.failed_check_issue Quality.broken_completeness_check
                  Quality.not_iterable_error])%list
          `prefix_of` Quality.issues_found results
      ∧ issue_severity
          (Quality.failed_check_issue Quality.broken_completeness_check
             Quality.not_iterable_error) = Some "error"
      ∧ issue_message
          (Quality.failed_check_issue Quality.broken_completeness_check
             Quality.not_iterable_error)
        = "Check failed with error: "
          +:+ exn_message Quality.not_iterable_error.
Proof.
  refine (@X11_raising_check_is_recovered Quality.warning_checks
            Quality.complete_table [] Quality.broken_completeness_check
            [Quality.duplicates_check] (Some []) (Some []) [] []
            (@Quality._check_completeness) Quality.not_iterable_error
            _ _ _ _);
    [reflexivity | reflexivity | reflexivity | vm_compute; reflexivity].
Defined.

Lemma X12_one_more_issue_witness :
  ∃ q',
    Quality._calculate_quality_score Quality.complete_table
      ([] ++ [Quality.one_warning]) = Some q'
    ∧ (q' <= 100)%Q.
Proof.
  refine (X12_more_issues_never_raise_the_score Quality.complete_table []
            Quality.one_warning 100%Q _).
  vm_compute; reflexivity.
Defined.

Lemma X13_completeness_witness :
  ∃ result,
    Quality._check_completeness Quality.complete_table
      (Quality.parameters Quality.completeness_check) = Return result
    ∧ (Forall (λ col, col ∈ columns Quality.complete_table) ["a"; "z"] →
       Quality.issues result = [])
    ∧ (¬ Forall (λ col, col ∈ columns Quality.complete_table) ["a"; "z"] →
       ∃ issue, Quality.issues result = [issue]
                ∧ issue_severity issue = Some "error"
                ∧ issue_check issue = "check_completeness").
Proof.
  refine (X13_completeness_reports_missing_columns Quality.complete_table
            (Quality.parameters Quality.completeness_check) ["a"; "z"] _).
  vm_compute; reflexivity.
Defined.

Lemma X15_ages_in_range_witness :
  Num 150 = NA
  ∨ ∃ z, Num 150 = Num z
         ∧ (inject_Z 0 <= inject_Z z)%Q ∧ (inject_Z z <= inject_Z 150)%Q.
Proof.
  refine (@X15_standardize_ages_leaves_ages_in_range Cleaning.plain_pandas
            Cleaning.ages_table ∅ Cleaning.standardized_ages "age"
            (inject_Z 0) (inject_Z 150) _ _ _ _ _ _ _ (Num 150) _);
    try (vm_compute; reflexivity).
  vm_compute. apply list_elem_of_further, list_elem_of_here.
Defined.

Lemma X16_idempotent_witness :
  @Cleaning._standardize_ages Cleaning.plain_pandas
    Cleaning.standardized_ages ∅
  = Return Cleaning.standardized_ages.
Proof.
  refine (@X16_standardize_ages_is_idempotent Cleaning.plain_pandas
            Cleaning.ages_table ∅ Cleaning.standardized_ages
            (inject_Z 0) (inject_Z 150) _ _ _ _ _);
    vm_compute; reflexivity.
Defined.

(** Outside these bounds: an age above 2^53 that the range check keeps is
    moved by the write of NaN to the float64 nearest to it, here above the
    upper bound; and against a bound [None] no age is out of range. *)
Lemma standardize_ages_large_age_and_open_bound :
  column_of
    (returned (@Cleaning._standardize_ages Cleaning.plain_pandas
                 Cleaning.large_ages_table Cleaning.large_bound_params))
    "age"
  = Some [Num (2 ^ 53 + 4); NA]
  ∧ column_of
      (returned (@Cleaning._standardize_ages Cleaning.plain_pandas
                   Cleaning.ages_table Cleaning.open_range_params))
      "age"
    = Some [Num 25; Num 150; Num (-5); NA; Num 45].
Proof. split; by vm_compute. Qed.

Lemma X14_disabled_rules_witness :
  @Cleaning.apply_rules Cleaning.plain_pandas Cleaning.ages_table
    [Cleaning.disabled_ages_rule] (Some [])
  = (log_if (Some [])
       (Cleaning.cleaning_complete (len Cleaning.ages_table)
          (len Cleaning.ages_table)),
     Return Cleaning.ages_table).
Proof.
  refine (@X14_disabled_rules_change_nothing Cleaning.plain_pandas
            Cleaning.ages_table [Cleaning.disabled_ages_rule] (Some []) _).
  repeat constructor.
Defined.

(** * The ledger, the handler and the pipeline *)

(** ** The ledger only grows *)

Section cleaning_ledger.
Import Cleaning.
Context `{Pandas}.

Lemma rules_loop_ledger rules data prov :
  ∃ added,
    (rules_loop rules data prov).1
      = (λ entries, entries ++ added)%list <$> prov
    ∧ Forall (λ e, step e = "cleaning") added
    ∧ (length added ≤ length (filter (λ r, enabled r = true) rules))%nat
    ∧ (∀ result, (rules_loop rules data prov).2 = Return result →
         length added = length (filter (λ r, enabled r = true) rules)).
Proof.
  revert data prov.
  induction rules as [|rule rules IH]; intros data prov.
  { exists []. cbn. split; [|split; [constructor|split; [lia|done]]].
    destruct prov; cbn; [|done]. by rewrite app_nil_r. }
  cbn [rules_loop]. rewrite filter_cons.
  destruct (enabled rule) eqn:Hon; cbn [negb].
  2:{ rewrite decide_False by done. apply IH. }
  rewrite decide_True by done.
  assert (∀ e data',
            step e = "cleaning" →
            ∃ added,
              (rules_loop rules data' (log_if prov e)).1
                = (λ entries, entries ++ added)%list <$> prov
              ∧ Forall (λ e, step e = "cleaning") added
              ∧ (length added ≤ S (length (filter (λ r, enabled r = true)
                                             rules)))%nat
              ∧ (∀ result,
                   (rules_loop rules data' (log_if prov e)).2 = Return result →
                   length added
                   = S (length (filter (λ r, enabled r = true) rules))))
    as Hstep.
  { intros e data' He.
    destruct (IH data' (log_if prov e)) as (added & Hprov & Hall & Hle & Hlen).
    exists (e :: added). rewrite Hprov.
    split; [|split; [by constructor|split; [cbn; lia|]]].
    - destruct prov as [entries|]; cbn; [|done].
      unfold log. by rewrite <- app_assoc.
    - intros result Hres. cbn. f_equal. by eapply Hlen. }
  destruct (_rules (name rule)) as [body|].
  - destruct (body data (parameters rule)) as [data'|e].
    + unfold bind. cbn. by apply Hstep.
    + unfold bind. cbn. exists [rule_error rule e].
      split; [done|]. split; [by repeat constructor|]. split; [cbn; lia|done].
  - unfold bind. cbn. by apply Hstep.
Qed.

Lemma apply_rules_ledger data rules prov :
    ∃ added,
      (apply_rules data rules prov).1
        = (λ entries, entries ++ added)%list <$> prov
      ∧ Forall (λ e, step e = "cleaning") added
      ∧ (length added ≤ S (length (filter (λ r, enabled r = true) rules)))%nat
      ∧ (∀ result,
           (apply_rules data rules prov).2 = Return result →
           length added = S (length (filter (λ r, enabled r = true) rules))
           ∧ last added = Some (cleaning_complete (len data) (len result))).
Proof.
  unfold apply_rules, bind.
  destruct (rules_loop_ledger rules data prov)
    as (added & Hprov & Hall & Hle & Hlen).
  destruct (rules_loop rules data prov) as [prov1 [result|e]]; cbn in *.
  - subst prov1.
    exists (added ++ [cleaning_complete (len data) (len result)])%list.
    split; [|split; [|split]].
    + destruct prov as [entries|]; cbn; [|done].
      unfold log. by rewrite app_assoc.
    + apply Forall_app. split; [done|]. by repeat constructor.
    + rewrite length_app. cbn. lia.
    + intros result' [= <-]. rewrite length_app, last_snoc. cbn.
      split; [|done]. rewrite (Hlen result eq_refl). lia.
  - exists added. split; [done|]. split; [done|]. split; [lia|done].
Qed.

(** X17: the cleaning stage only appends to the ledger, entries of the step
    "cleaning": at most one for each enabled rule and one more; where
    [apply_rules] returns there is exactly one entry for each enabled rule
    (rule applied or rule skipped), followed by [cleaning_complete] with the
    rows of the input and of the result. An engine without a tracker stays
    without. *)
Theorem X17_cleaning_ledger_only_grows :
  ∀ data rules prov,
    ∃ added,
      (apply_rules data rules prov).1
        = (λ entries, entries ++ added)%list <$> prov
      ∧ Forall (λ e, step e = "cleaning") added
      ∧ (length added ≤ S (length (filter (λ r, enabled r = true) rules)))%nat
      ∧ (∀ result,
           (apply_rules data rules prov).2 = Return result →
           length added = S (length (filter (λ r, enabled r = true) rules))
           ∧ last added = Some (cleaning_complete (len data) (len result))).
Proof. intros data rules prov. apply apply_rules_ledger. Qed.

End cleaning_ledger.

Section quality_ledger.
Import Quality.
Context `{PandasChecks}.

Lemma checks_loop_ledger data checks run found prov :
  ∃ added,
    (checks_loop data checks run found prov).1
      = (λ entries, entries ++ added)%list <$> prov
    ∧ Forall (λ e, step e = "quality") added
    ∧ length added = length (filter (λ c, enabled c = true) checks).
Proof.
  revert run found prov.
  induction checks as [|check checks IH]; intros run found prov.
  { exists []. cbn. split; [|split; [constructor|done]].
    destruct prov; cbn; [|done]. by rewrite app_nil_r. }
  cbn [checks_loop]. rewrite filter_cons.
  destruct (enabled check) eqn:Hon; cbn [negb].
  2:{ rewrite decide_False by done. apply IH. }
  rewrite decide_True by done.
  assert (∀ e run' found',
            step e = "quality" →
            ∃ added,
              (checks_loop data checks run' found' (log_if prov e)).1
                = (λ entries, entries ++ added)%list <$> prov
              ∧ Forall (λ e, step e = "quality") added
              ∧ length added
                = S (length (filter (λ c, enabled c = true) checks)))
    as Hstep.
  { intros e run' found' He.
    destruct (IH run' found' (log_if prov e)) as (added & Hprov & Hall & Hlen).
    exists (e :: added). rewrite Hprov.
    split; [|split; [by constructor|cbn; by f_equal]].
    destruct prov as [entries|]; cbn; [|done].
    unfold log. by rewrite <- app_assoc. }
  destruct (_checks (name check)) as [body|].
  - destruct (body data (parameters check)) as [result|e];
      unfold bind; cbn; by apply Hstep.
  - unfold bind. cbn. by apply Hstep.
Qed.

Lemma run_checks_ledger data checks prov :
    ∃ added results,
      run_checks data checks prov
        = ((λ entries, entries ++ added)%list <$> prov, Return results)
      ∧ Forall (λ e, step e = "quality") added
      ∧ length added = S (length (filter (λ c, enabled c = true) checks))
      ∧ last added = Some (quality_check_complete results).
Proof.
  unfold run_checks, bind.
  destruct (checks_loop_ledger data checks [] [] prov)
    as (added & Hprov & Hall & Hlen).
  destruct (checks_loop_returns data checks [] [] prov)
    as (prov1 & looped & Hloop).
  rewrite Hloop in *. cbn in *. subst prov1.
  eexists (added ++ [_])%list, _. split; [|split; [|split]].
  - f_equal. destruct prov as [entries|]; cbn; [|done].
    unfold log. by rewrite app_assoc.
  - apply Forall_app. split; [done|]. by repeat constructor.
  - rewrite length_app. cbn. lia.
  - by rewrite last_snoc.
Qed.

(** X18: [run_checks] always returns, and only appends to the ledger,
    entries of the step "quality": exactly one for each enabled check (check
    run, check skipped or check error), followed by
    [quality_check_complete] for the results returned. A checker without a
    tracker stays without. *)
Theorem X18_quality_ledger_only_grows :
  ∀ data checks prov,
    ∃ added results,
      run_checks data checks prov
        = ((λ entries, entries ++ added)%list <$> prov, Return results)
      ∧ Forall (λ e, step e = "quality") added
      ∧ length added = S (length (filter (λ c, enabled c = true) checks))
      ∧ last added = Some (quality_check_complete results).
Proof. intros data checks prov. apply run_checks_ledger. Qed.

End quality_ledger.

Section mapping_ledger.
Import Mapping.
Context `{Scorers} (source_column target_column : string).

Lemma only_appends_refl s : only_appends s s.
Proof.
  split; [|done]. exists []. split; [|constructor].
  destruct (provenance s); cbn; [|done]. by rewrite app_nil_r.
Qed.

Lemma only_appends_trans s1 s2 s3 :
  only_appends s1 s2 → only_appends s2 s3 → only_appends s1 s3.
Proof.
  intros ((a1 & Hp1 & Ha1) & Hf1 & Hk1) ((a2 & Hp2 & Ha2) & Hf2 & Hk2).
  split; [|split; [congruence|auto]].
  exists (a1 ++ a2)%list. split; [|by apply Forall_app].
  rewrite Hp2, Hp1. destruct (provenance s1); cbn; [|done].
  by rewrite app_assoc.
Qed.

Lemma only_appends_bind {A B} (m : M State A) (k : A → M State B) s :
  only_appends s (m s).1 →
  (∀ a s1, only_appends s1 (k a s1).1) →
  only_appends s (bind m k s).1.
Proof.
  intros Hm Hk. unfold bind. destruct (m s) as [s1 [a|e]]; [|done].
  eapply only_appends_trans; [exact Hm|apply Hk].
Qed.

Lemma log_entry_appends action details rows file_used s :
  only_appends s (log_entry (entry action details rows file_used) s).1.
Proof.
  split; [|done]. cbn. eexists [_]. split; [done|]. by repeat constructor.
Qed.

Lemma write_review_appends review_rows s :
  only_appends s (write_review review_rows s).1.
Proof.
  split; [|done]. cbn. exists []. split; [|constructor].
  destruct (provenance s); cbn; [|done]. by rewrite app_nil_r.
Qed.

Lemma new_assistant_appends s : only_appends s (new_assistant s).1.
Proof.
  unfold new_assistant. destruct (negb HAS_AI_DEPS).
  { apply only_appends_bind; [apply log_entry_appends|].
    intros. apply only_appends_refl. }
  destruct (load_model default_model_name);
    (apply only_appends_bind; [apply log_entry_appends|]);
    intros; apply only_appends_refl.
Qed.

Lemma suggest_mappings_appends assistant code top_k s :
  only_appends s (suggest_mappings assistant code top_k s).1.
Proof.
  unfold suggest_mappings. destruct (_ || _); [apply only_appends_refl|].
  apply only_appends_bind; [apply log_entry_appends|].
  intros. apply only_appends_refl.
Qed.

Lemma ai_loop_appends assistant thr codes suggestions high s :
  only_appends s (ai_loop assistant thr codes suggestions high s).1.
Proof.
  revert suggestions high s.
  induction codes as [|code codes IH]; intros suggestions high s.
  { apply only_appends_refl. }
  cbn [ai_loop]. apply only_appends_bind; [apply suggest_mappings_appends|].
  intros [|top rest] s1; [apply IH|].
  destruct (Qle_bool thr (confidence top)); apply IH.
Qed.

Lemma review_loop_appends assistant codes review_rows s :
  only_appends s (review_loop assistant codes review_rows s).1.
Proof.
  revert review_rows s.
  induction codes as [|code codes IH]; intros review_rows s.
  { apply only_appends_refl. }
  cbn [review_loop]. apply only_appends_bind; [apply suggest_mappings_appends|].
  intros. apply IH.
Qed.

Lemma require_column_appends data col s :
  only_appends s (require_column data col s).1.
Proof. unfold require_column. destruct (has_column data col); apply only_appends_refl. Qed.

Lemma direct_mapping_appends data source s :
  only_appends s
    (_apply_direct_mapping source_column target_column data source s).1.
Proof.
  unfold _apply_direct_mapping.
  destruct (no_file source); [apply only_appends_refl|].
  apply only_appends_bind; [apply only_appends_refl|]. intros fs s1.
  destruct (fs !! path_of source) as [mapping_df|].
  2:{ apply only_appends_bind; [apply log_entry_appends|].
      intros. apply only_appends_refl. }
  destruct (_ || _); [apply only_appends_refl|].
  apply only_appends_bind; [apply require_column_appends|]. intros _ s2.
  apply only_appends_bind; [apply require_column_appends|]. intros _ s3.
  apply only_appends_bind; [apply log_entry_appends|].
  intros. apply only_appends_refl.
Qed.

Lemma fuzzy_mapping_appends data source s :
  only_appends s
    (_apply_fuzzy_mapping source_column target_column data source s).1.
Proof.
  unfold _apply_fuzzy_mapping.
  destruct (no_file source); [apply only_appends_refl|].
  apply only_appends_bind; [apply only_appends_refl|]. intros fs s1.
  destruct (fs !! path_of source) as [mapping_df|]; [|apply only_appends_refl].
  destruct (negb _); [apply only_appends_refl|].
  apply only_appends_bind; [apply require_column_appends|]. intros _ s2.
  apply only_appends_bind; [apply require_column_appends|]. intros _ s3.
  apply only_appends_bind; [apply log_entry_appends|].
  intros. apply only_appends_refl.
Qed.

Lemma ai_mapping_appends data source s :
  only_appends s
    (_apply_ai_mapping source_column target_column data source s).1.
Proof.
  unfold _apply_ai_mapping. unfold bind at 1. cbn [gets].
  apply only_appends_bind.
  { destruct (ai_assistant s) as [assistant|] eqn:Hai;
      [apply only_appends_refl|].
    unfold bind.
    pose proof (new_assistant_appends s) as (Hprov & Hfiles & _).
    destruct (new_assistant s) as [s1 [assistant|e]]; cbn in *.
    - split; [done|]. split; [done|]. intros a Ha. congruence.
    - split; [done|]. split; [done|]. intros a Ha. congruence. }
  intros assistant s1.
  apply only_appends_bind; [apply require_column_appends|]. intros _ s2.
  case_bool_decide; [apply only_appends_refl|].
  apply only_appends_bind; [apply require_column_appends|]. intros _ s3.
  apply only_appends_bind; [apply ai_loop_appends|]. intros looped s4.
  case_bool_decide; [apply only_appends_refl|].
  apply only_appends_bind; [apply log_entry_appends|].
  intros. apply only_appends_refl.
Qed.

Lemma sources_loop_appends sources data s :
  only_appends s (sources_loop source_column target_column sources data s).1.
Proof.
  revert data s. induction sources as [|source sources IH]; intros data s.
  { apply only_appends_refl. }
  cbn [sources_loop]. destruct (enabled source); cbn [negb]; [|apply IH].
  apply only_appends_bind; [|intros; apply IH].
  unfold apply_source.
  destruct (String.eqb _ _); [apply direct_mapping_appends|].
  destruct (String.eqb _ _); [apply fuzzy_mapping_appends|].
  destruct (String.eqb _ _); [apply ai_mapping_appends|].
  apply only_appends_refl.
Qed.

Lemma generate_review_file_appends unmapped_data s :
  only_appends s (_generate_review_file source_column unmapped_data s).1.
Proof.
  unfold _generate_review_file.
  apply only_appends_bind; [apply require_column_appends|]. intros _ s1.
  unfold bind at 1. cbn [gets].
  apply only_appends_bind.
  { destruct (ai_assistant s1); [apply review_loop_appends|].
    apply only_appends_refl. }
  intros [|row review_rows] s2; [apply only_appends_refl|].
  apply only_appends_bind; [apply write_review_appends|].
  intros _ s3. apply log_entry_appends.
Qed.

Lemma apply_mappings_appends data config s :
  only_appends s
    (apply_mappings source_column target_column data config s).1.
Proof.
  unfold apply_mappings. destruct (negb _).
  { apply only_appends_bind; [apply log_entry_appends|].
    intros. apply only_appends_refl. }
  apply only_appends_bind; [apply sources_loop_appends|]. intros result s1.
  apply only_appends_bind.
  { case_bool_decide; [apply generate_review_file_appends|].
    apply only_appends_refl. }
  intros _ s2.
  apply only_appends_bind; [apply log_entry_appends|].
  intros. apply only_appends_refl.
Qed.

(** X19: whether [apply_mappings] returns or raises, the engine only
    appends to the ledger, entries of the step "mapping" (an engine without
    a tracker stays without), leaves the mapping files as they are, and keeps
    the assistant it holds. *)
Theorem X19_mapping_ledger_only_grows :
  ∀ data config s,
    let s' := (apply_mappings source_column target_column data config s).1 in
    (∃ added, provenance s'
              = (λ entries, entries ++ added)%list <$> provenance s
              ∧ Forall (λ e, step e = "mapping") added)
    ∧ files s' = files s
    ∧ ∀ a, ai_assistant s = Some a → ai_assistant s' = Some a.
Proof. intros data config s. apply apply_mappings_appends. Qed.

End mapping_ledger.

(** ** The summary of the ledger *)

Section summary_properties.

Lemma summarize_lookup steps entry stage :
  summarize steps entry !! stage
  = if decide (step entry = stage)
    then
      let current :=
        default {| actions := []; total_rows_affected := 0;
                   entry_count := 0 |} (steps !! stage) in
      Some {| actions := actions current ++ [action entry];
              total_rows_affected :=
                (total_rows_affected current
                 + default 0 (rows_affected entry))%Z;
              entry_count := S (entry_count current) |}
    else steps !! stage.
Proof.
  unfold summarize.
  assert (∀ n t, (if (n =? 0)%Z then t else (t + n)%Z) = (t + n)%Z) as Hzero.
  { intros n t. destruct (Z.eqb_spec n 0); lia. }
  case_bool_decide as Hdom.
  - apply elem_of_dom in Hdom as [current Hcurrent]. rewrite Hcurrent.
    destruct (decide (step entry = stage)) as [<-|Hne].
    + rewrite lookup_insert_eq, Hcurrent. cbn. f_equal. f_equal; [|lia].
      destruct (rows_affected entry) as [n|]; cbn; [apply Hzero|lia].
    + by rewrite lookup_insert_ne.
  - apply not_elem_of_dom in Hdom. rewrite lookup_insert_eq.
    destruct (decide (step entry = stage)) as [<-|Hne].
    + rewrite lookup_insert_eq, Hdom. cbn. f_equal. f_equal.
      destruct (rows_affected entry) as [n|]; cbn; [apply Hzero|lia].
    + by rewrite !lookup_insert_ne.
Qed.

(** X20: [get_summary] counts every entry in [total_entries], and lists a
    step exactly when the ledger holds an entry of that step; for such a step
    [actions] are the actions of its entries in the order logged,
    [entry_count] is their number, and [total_rows_affected] the sum of their
    [rows_affected], an entry without one counting as 0. *)
Theorem X20_summary_by_step :
  ∀ run_id entries stage,
    let of_stage := filter (λ e, step e = stage) entries in
    total_entries (get_summary run_id entries) = length entries
    ∧ steps (get_summary run_id entries) !! stage
      = if decide (of_stage = []) then None
        else Some {| actions := action <$> of_stage;
                     total_rows_affected :=
                       foldr Z.add 0%Z
                         ((λ e, default 0%Z (rows_affected e)) <$> of_stage);
                     entry_count := length of_stage |}.
Proof.
  intros run_id entries stage. cbn zeta. split; [done|]. cbn.
  induction entries as [|entry entries IH] using rev_ind; [done|].
  rewrite foldl_app, filter_app. cbn [foldl].
  rewrite summarize_lookup, filter_cons, filter_nil, IH. clear IH.
  destruct (decide (step entry = stage)) as [Hstage|Hne].
  2:{ by rewrite app_nil_r. }
  generalize (filter (λ e, step e = stage) entries). intros of_stage.
  assert (∀ l n, foldr Z.add 0%Z (l ++ [n]) = (foldr Z.add 0 l + n)%Z)
    as Hsum.
  { intros l n. induction l as [|z l IH]; cbn; lia. }
  destruct (decide (of_stage = [])) as [->|Hsome].
  - rewrite decide_False by done. cbn. do 2 f_equal. lia.
  - rewrite decide_False
      by (intros Hnil; destruct of_stage; cbn in Hnil; discriminate Hnil).
    rewrite !fmap_app, length_app. cbn [fmap list_fmap].
    rewrite Hsum. cbn. do 2 f_equal. lia.
Qed.

End summary_properties.

Section summary_totals.

Local Abbreviation count_all :=
  (map_fold (λ (_ : string) (v : StepSummary) (acc : nat),
              (entry_count v + acc)%nat) 0%nat).

Lemma count_all_insert (m : gmap string StepSummary) k v :
  count_all (<[k := v]> m)
  = (entry_count v + count_all (delete k m))%nat.
Proof.
  rewrite <- (insert_delete_eq m k v).
  rewrite map_fold_insert_L; [done| |].
  - intros. lia.
  - apply lookup_delete_eq.
Qed.

Lemma count_all_lookup (m : gmap string StepSummary) k :
  count_all m
  = (entry_count (default {| actions := []; total_rows_affected := 0;
                             entry_count := 0 |} (m !! k))
     + count_all (delete k m))%nat.
Proof.
  destruct (m !! k) as [v|] eqn:Hk; cbn.
  - rewrite <- (insert_id m k v) at 1 by done. apply count_all_insert.
  - by rewrite delete_id.
Qed.

(** X21: the entry counts of the steps of a summary add up to its
    [total_entries]: every entry of the ledger is counted under exactly one
    step. *)
Theorem X21_summary_counts_every_entry :
  ∀ run_id entries,
    map_fold (λ _ v acc, (entry_count v + acc)%nat) 0%nat
      (steps (get_summary run_id entries))
    = total_entries (get_summary run_id entries).
Proof.
  intros run_id entries. cbn.
  induction entries as [|entry entries IH] using rev_ind; [done|].
  rewrite foldl_app, length_app. cbn [foldl length].
  set (m := foldl summarize ∅ entries) in *.
  rewrite (count_all_lookup m (step entry)) in IH.
  rewrite (count_all_lookup (summarize m entry) (step entry)).
  rewrite summarize_lookup, decide_True by done. cbn.
  assert (delete (step entry) (summarize m entry) = delete (step entry) m)
    as ->; [|lia].
  apply map_eq. intros k. destruct (decide (k = step entry)) as [->|Hne].
  - by rewrite !lookup_delete_eq.
  - rewrite !lookup_delete_ne by done.
    by rewrite summarize_lookup, decide_False.
Qed.

End summary_totals.

(** ** The data handler and the configuration *)

Section handler_properties.
Import Files Handlers Config.
Context `{OS}.

Lemma dict_get_set_eq {V} key (v : V) d :
  dict_get key (dict_set key v d) = Some v.
Proof.
  induction d as [|[k v'] d IH]; cbn.
  - by rewrite String.eqb_refl.
  - destruct (String.eqb k key) eqn:Hk; cbn; by rewrite Hk.
Qed.

Lemma dict_get_set_ne {V} key key' (v : V) d :
  key ≠ key' → dict_get key' (dict_set key v d) = dict_get key' d.
Proof.
  intros Hne. induction d as [|[k v'] d IH]; cbn.
  - by apply String.eqb_neq in Hne as ->.
  - destruct (String.eqb_spec k key) as [->|Hk]; cbn.
    + by apply String.eqb_neq in Hne as ->.
    + by rewrite IH.
Qed.

(** X22: after [register_loader], [load] of a file that exists, with a
    format equal to the registered name up to letter case, calls the loader
    registered (with the sheet name only where that name is excel or xlsx
    and a sheet name is given); a format of another name that the handler
    knew is loaded as before, and one it did not know is refused with the
    registered name among the supported formats. *)
Theorem X22_registered_loader_is_used :
  ∀ handler name loader_func file_path file_format sheet_name history,
    path_exists history (Path file_path) = true →
    load (register_loader handler name loader_func)
      file_path file_format sheet_name history
    = if decide (lower file_format = lower name)
      then loader_func (Path file_path)
             (if bool_decide (lower name ∈ ["excel"; "xlsx"])
                 && match sheet_name with
                    | Some sheet => negb (String.eqb sheet "")
                    | None => false
                    end
              then sheet_name else None) history
      else match dict_get (lower file_format) (_loaders handler) with
           | Some _ => load handler file_path file_format sheet_name history
           | None =>
               (history,
                Raise (unsupported_format (lower file_format)
                         (fst <$> dict_set (lower name) loader_func
                                    (_loaders handler))))
           end.
Proof.
  intros handler name loader_func file_path file_format sheet_name history
    Hthere.
  unfold load, bind, gets. rewrite Hthere. cbn [negb register_loader _loaders].
  destruct (decide (lower file_format = lower name)) as [->|Hne].
  - rewrite dict_get_set_eq. by destruct (_ && _).
  - rewrite dict_get_set_ne by done.
    by destruct (dict_get (lower file_format) (_loaders handler)).
Qed.

Lemma valid_format_cases fmt :
  fmt ∈ valid_formats →
  fmt = "csv" ∨ fmt = "excel" ∨ fmt = "xlsx" ∨ fmt = "parquet".
Proof.
  unfold valid_formats. rewrite !elem_of_cons, elem_of_nil. tauto.
Qed.

(** X23: formats that [validate_io_format] accepts are formats the handler
    a pipeline creates supports: for a validated [io], [load] of an input
    file that exists goes to one of pandas' readers, and [save] attempts the
    directory of the output file and then one of pandas' writers; neither
    raises the error of an unsupported format. *)
Theorem X23_validated_formats_are_supported :
  ∀ v data history,
    validate_io_format v = Return v →
    (path_exists history (Path (input_file v)) = true →
     ∃ reader sheet,
       reader ∈ ["csv"; "excel"; "parquet"]
       ∧ load new_handler (input_file v) (input_format v) (sheet_name v)
           history
         = (history,
            read_table history reader (Path (input_file v)) sheet))
    ∧ ∃ writer,
        writer ∈ ["csv"; "excel"; "parquet"]
        ∧ save new_handler data (output_file v) (output_format v) history
          = (attempt (Mkdir (parent (Path (output_file v)))) ;;;
             attempt (Saved writer (Path (output_file v)) data)) history.
Proof.
  intros v data history. unfold validate_io_format.
  case_bool_decide as Hin; cbn [negb]; [|done].
  case_bool_decide as Hout; cbn [negb]; [|done]. intros _.
  apply valid_format_cases in Hin, Hout. split.
  - intros Hthere. unfold load, bind, gets. rewrite Hthere. cbn [negb].
    destruct Hin as [-> | [-> | [-> | ->]]]; cbn;
      try (destruct (match sheet_name v with Some _ => _ | None => _ end));
      eexists _, _; (split; [|reflexivity]);
      rewrite !elem_of_cons; tauto.
  - unfold save.
    destruct Hout as [-> | [-> | [-> | ->]]]; cbn;
      eexists; (split; [|reflexivity]); rewrite !elem_of_cons; tauto.
Qed.

End handler_properties.

(** ** The pipeline *)

Section pipeline_properties.
Import Files Handlers Config Pipeline.
Context `{OS} `{Cleaning.Pandas} `{Quality.PandasChecks} `{Mapping.Scorers}.
Variable config : AutoGBDConfig.

Lemma grows_refl w : grows w w.
Proof.
  split; [|split; [|done]].
  - exists []. split; [|constructor].
    destruct (Mapping.provenance (engine w)); cbn; [|done].
    by rewrite app_nil_r.
  - exists []. split; [by rewrite app_nil_r|constructor].
Qed.

Lemma grows_trans w1 w2 w3 : grows w1 w2 → grows w2 w3 → grows w1 w3.
Proof.
  intros ((l1 & Hp1 & Hl1) & (o1 & Hh1 & Ho1) & Hf1)
         ((l2 & Hp2 & Hl2) & (o2 & Hh2 & Ho2) & Hf2).
  split; [|split; [|congruence]].
  - exists (l1 ++ l2)%list. split; [|by apply Forall_app].
    rewrite Hp2, Hp1. destruct (Mapping.provenance (engine w1)); cbn; [|done].
    by rewrite app_assoc.
  - exists (o1 ++ o2)%list. split; [|by apply Forall_app].
    by rewrite Hh2, Hh1, app_assoc.
Qed.

Lemma grows_bind {A B} (m : M World A) (k : A → M World B) w :
  grows w (m w).1 →
  (∀ a w1, grows w1 (k a w1).1) →
  grows w (bind m k w).1.
Proof.
  intros Hm Hk. unfold bind. destruct (m w) as [w1 [a|e]]; [|done].
  eapply grows_trans; [exact Hm|apply Hk].
Qed.

Lemma log_step_grows stage action details rows file_used w :
  stage ≠ "pipeline" →
  grows w (log_step stage action details rows file_used w).1.
Proof.
  intros Hstage. split; [|split; [|done]]; cbn.
  - eexists [_]. split; [done|]. by repeat constructor.
  - exists []. split; [by rewrite app_nil_r|constructor].
Qed.

(** A stage that only appends entries of its own step to the tracker. *)
Lemma on_tracker_grows {A} (m : M (option (list ProvenanceEntry)) A) stage w :
  stage ≠ "pipeline" →
  (∀ prov, ∃ added,
     (m prov).1 = (λ entries, entries ++ added)%list <$> prov
     ∧ Forall (λ e, step e = stage) added) →
  grows w (on_tracker m w).1.
Proof.
  intros Hstage Hm. split; [|split; [|done]]; cbn.
  - destruct (Hm (Mapping.provenance (engine w))) as (added & -> & Hall).
    exists added. split; [done|].
    eapply Forall_impl; [exact Hall|]. cbn. congruence.
  - exists []. split; [by rewrite app_nil_r|constructor].
Qed.


Lemma on_files_grows {A} (m : M (list Event) A) w :
  (∃ ops, (m (history w)).1 = (history w ++ ops)%list
          ∧ Forall (λ op, ∀ path entries, op ≠ Dumped path entries) ops) →
  grows w (on_files m w).1.
Proof.
  intros Hops. split; [|split; [done|done]]. cbn.
  exists []. split; [|constructor].
  destruct (Mapping.provenance (engine w)); cbn; [|done].
  by rewrite app_nil_r.
Qed.

Lemma history_bind {A B} (m : M World A) (k : A → M World B) w :
  history (m w).1 = history w →
  (∀ a w1, history (k a w1).1 = history w1) →
  history (bind m k w).1 = history w.
Proof.
  intros Hm Hk. unfold bind. destruct (m w) as [w1 [a|e]]; [|done].
  cbn in Hm. by rewrite Hk.
Qed.

Lemma on_engine_history {A} (m : M Mapping.State A) w :
  history (on_engine m w).1 = history w.
Proof. done. Qed.

Lemma on_tracker_history {A} (m : M (option (list ProvenanceEntry)) A) w :
  history (on_tracker m w).1 = history w.
Proof. done. Qed.

Lemma log_step_history stage action details rows file_used w :
  history (log_step stage action details rows file_used w).1 = history w.
Proof. done. Qed.

(** The handler the pipeline creates reads, and attempts nothing. *)
Lemma load_default_history file_path file_format sheet history :
  (load new_handler file_path file_format sheet history).1 = history.
Proof.
  unfold load, bind, gets. destruct (path_exists _ _); cbn [negb]; [|done].
  cbn [new_handler _loaders dict_get].
  repeat (destruct (String.eqb _ (lower file_format)); [by destruct (_ && _)|]).
  done.
Qed.

(** What [save] of that handler attempts: the directory, then the writer. *)
Lemma save_default data file_path file_format history :
  ∃ ops,
    (save new_handler data file_path file_format history).1
      = (history ++ ops)%list
    ∧ Forall (λ op, ∀ path entries, op ≠ Dumped path entries) ops
    ∧ (∀ u, (save new_handler data file_path file_format history).2 = Return u →
         ∃ writer, ops = [Mkdir (parent (Path file_path));
                          Saved writer (Path file_path) data]).
Proof.
  unfold save, bind, attempt.
  destruct (refused history (Mkdir (parent (Path file_path)))) as [x|].
  { exists [Mkdir (parent (Path file_path))]. split; [done|].
    split; [by repeat constructor|done]. }
  cbn [new_handler _savers dict_get].
  repeat (destruct (String.eqb _ (lower file_format));
          [cbn; eexists [_; _]; rewrite <- app_assoc;
           split; [done|]; split; [by repeat constructor|];
           intros; by eexists|]).
  cbn. exists [Mkdir (parent (Path file_path))]. split; [done|].
  split; [by repeat constructor|done].
Qed.

Lemma load_data_grows w :
  grows w (_load_data config w).1
  ∧ history (_load_data config w).1 = history w.
Proof.
  unfold _load_data. split.
  - apply grows_bind; [by apply log_step_grows|]. intros _ w1.
    apply grows_bind.
    { apply on_files_grows. exists []. rewrite load_default_history.
      split; [by rewrite app_nil_r|constructor]. }
    intros data w2. apply grows_bind; [by apply log_step_grows|].
    intros. apply grows_refl.
  - apply history_bind; [apply log_step_history|]. intros _ w1.
    apply history_bind; [apply load_default_history|]. intros data w2.
    apply history_bind; [apply log_step_history|]. done.
Qed.

Lemma clean_data_grows data w :
  grows w (_clean_data config data w).1
  ∧ history (_clean_data config data w).1 = history w.
Proof.
  unfold _clean_data. split.
  - apply grows_bind; [by apply log_step_grows|]. intros _ w1.
    apply (on_tracker_grows _ "cleaning"); [done|]. intros prov.
    destruct (apply_rules_ledger data (cleaning_rules config) prov)
      as (added & ? & ? & _).
    by exists added.
  - apply history_bind; [apply log_step_history|]. intros _ w1.
    apply on_tracker_history.
Qed.

Lemma map_data_grows data w :
  grows w (_map_data config data w).1
  ∧ history (_map_data config data w).1 = history w.
Proof.
  unfold _map_data. split.
  - apply grows_bind; [by apply log_step_grows|]. intros _ w1.
    pose proof (apply_mappings_appends
                  (Mapping.config_source_column (mapping config))
                  (Mapping.config_target_column (mapping config))
                  data (mapping config) (engine w1))
      as ((added & Hprov & Hall) & Hfiles & _).
    split; [|split; [|done]]; cbn.
    + exists added. split; [done|].
      eapply Forall_impl; [exact Hall|]. cbn. congruence.
    + exists []. split; [by rewrite app_nil_r|constructor].
  - apply history_bind; [apply log_step_history|]. intros _ w1.
    apply on_engine_history.
Qed.

Lemma check_quality_grows data w :
  grows w (_check_quality config data w).1
  ∧ history (_check_quality config data w).1 = history w.
Proof.
  unfold _check_quality. split.
  - apply grows_bind; [by apply log_step_grows|]. intros _ w1.
    apply (on_tracker_grows _ "quality"); [done|]. intros prov.
    destruct (run_checks_ledger data (quality_checks config) prov)
      as (added & results & -> & ? & _).
    by exists added.
  - apply history_bind; [apply log_step_history|]. intros _ w1.
    apply on_tracker_history.
Qed.


Lemma save_output_spec data w :
  grows w (_save_output config data w).1
  ∧ ∀ w' u,
      _save_output config data w = (w', Return u) →
      ∃ writer,
        history w'
        = (history w ++ [Mkdir (parent (Path (output_file (io config))));
                         Saved writer (Path (output_file (io config))) data])%list.
Proof.
  unfold _save_output.
  destruct (save_default data (output_file (io config))
              (output_format (io config)) (history w))
    as (ops & Hops & Hnone & Hdone).
  split.
  - apply grows_bind; [by apply log_step_grows|]. intros _ w1.
    apply grows_bind; [|intros; by apply log_step_grows].
    apply on_files_grows.
    destruct (save_default data (output_file (io config))
                (output_format (io config)) (history w1))
      as (ops1 & Hops1 & Hnone1 & _).
    by exists ops1.
  - intros w' u. unfold bind at 1. cbn [log_step on_tracker on_engine modify].
    cbn [fst snd]. unfold bind at 1. unfold on_files at 1. cbn [history].
    unfold data_handler.
    destruct (save new_handler data _ _ (history w)) as [h [[]|e]] eqn:Hsave;
      cbn [fst snd] in *; [|done].
    destruct (Hdone tt eq_refl) as (writer & ->).
    intros [= <- _]. exists writer. by rewrite Hops.
Qed.

Lemma generate_report_spec data quality_results w :
  grows w (_generate_report config data quality_results w).1
  ∧ ∀ w' u,
      _generate_report config data quality_results w = (w', Return u) →
      ∃ entries,
        history w'
        = (history w
           ++ [Reported (joinpath (parent (Path (output_file (io config))))
                           (reporting_output_file config))
                 data quality_results entries])%list.
Proof.
  unfold _generate_report. split.
  - apply grows_bind; [by apply log_step_grows|]. intros _ w1.
    apply grows_bind; [apply grows_refl|]. intros entries w2.
    apply grows_bind; [|intros; by apply log_step_grows].
    apply on_files_grows. eexists [_]. split; [done|]. by repeat constructor.
  - intros w' u. unfold bind, attempt, on_files, gets. cbn.
    destruct (refused _ _); [done|]. intros [= <-]. by eexists.
Qed.

Local Abbreviation stages :=
  (data <- _load_data config ;;
   data <- (if cleaning_enabled config then _clean_data config data
            else ret data) ;;
   data <- (if mapping_enabled config then _map_data config data
            else ret data) ;;
   quality_results <- (if quality_enabled config
                       then results <- _check_quality config data ;;
                            ret (Some results)
                       else ret None) ;;
   ret (data, quality_results)).

Local Abbreviation outputs :=
  (λ (data : DataFrame) (quality_results : option Quality.Results),
     _save_output config data ;;;
     (if reporting_enabled config
      then _generate_report config data quality_results
      else ret tt)).

Local Abbreviation provenance_path :=
  (joinpath (parent (Path (output_file (io config)))) "provenance.json").

(** [run] in three parts: the stages, the outputs, and the ledger saved
    before the last entry is logged. *)
Lemma run_split w :
  run config w
  = (on_tracker (modify (λ p, log_if p pipeline_start)) ;;;
     staged <- stages ;;
     outputs staged.1 staged.2 ;;;
     save_provenance provenance_path ;;;
     on_tracker (modify (λ p, log_if p (pipeline_complete staged.1))) ;;;
     ret staged.1) w.
Proof.
  unfold run, bind.
  destruct (on_tracker _ w) as [w0 [[]|e0]]; [|done].
  destruct (_load_data config w0) as [w1 [data1|e1]]; [|done].
  destruct (cleaning_enabled config), (mapping_enabled config),
    (quality_enabled config);
    cbn [ret];
    repeat (match goal with
            | |- context [_clean_data config ?d ?w] =>
                destruct (_clean_data config d w) as [? [?|?]]; [|reflexivity]
            | |- context [_map_data config ?d ?w] =>
                destruct (_map_data config d w) as [? [?|?]]; [|reflexivity]
            | |- context [_check_quality config ?d ?w] =>
                destruct (_check_quality config d w) as [? [?|?]]; [|reflexivity]
            end; cbn [ret]);
    cbn [fst snd];
    (match goal with
     | |- context [_save_output config ?d ?w] =>
         destruct (_save_output config d w) as [? [?|?]]; [|reflexivity]
     end);
    (destruct (reporting_enabled config); [|reflexivity]);
    (match goal with
     | |- context [_generate_report config ?d ?q ?w] =>
         destruct (_generate_report config d q w) as [? [?|?]]
     end); reflexivity.
Qed.

Lemma stages_spec w :
  grows w (stages w).1 ∧ history (stages w).1 = history w.
Proof.
  split.
  - apply grows_bind; [apply load_data_grows|]. intros data1 w1.
    apply grows_bind.
    { destruct (cleaning_enabled config);
        [apply clean_data_grows|apply grows_refl]. }
    intros data2 w2. apply grows_bind.
    { destruct (mapping_enabled config);
        [apply map_data_grows|apply grows_refl]. }
    intros data3 w3. apply grows_bind; [|intros; apply grows_refl].
    destruct (quality_enabled config); [|apply grows_refl].
    apply grows_bind; [apply check_quality_grows|]. intros. apply grows_refl.
  - apply history_bind; [apply load_data_grows|]. intros data1 w1.
    apply history_bind.
    { destruct (cleaning_enabled config); [apply clean_data_grows|done]. }
    intros data2 w2. apply history_bind.
    { destruct (mapping_enabled config); [apply map_data_grows|done]. }
    intros data3 w3. apply history_bind; [|done].
    destruct (quality_enabled config); [|done].
    apply history_bind; [apply check_quality_grows|done].
Qed.

Lemma outputs_spec data quality_results w :
  grows w (outputs data quality_results w).1
  ∧ ∀ w' u,
      outputs data quality_results w = (w', Return u) →
      ∃ writer report_ops,
        history w'
        = (history w
           ++ [Mkdir (parent (Path (output_file (io config))));
               Saved writer (Path (output_file (io config))) data]
           ++ report_ops)%list
        ∧ if reporting_enabled config
          then ∃ entries,
                 report_ops
                 = [Reported (joinpath (parent (Path (output_file (io config))))
                                (reporting_output_file config))
                      data quality_results entries]
          else report_ops = [].
Proof.
  split.
  - apply grows_bind; [apply save_output_spec|]. intros _ w1.
    destruct (reporting_enabled config);
      [apply generate_report_spec|apply grows_refl].
  - intros w' u. unfold bind at 1.
    destruct (_save_output config data w) as [w1 [[]|e]] eqn:Hsave; [|done].
    apply save_output_spec in Hsave as (writer & Hsaved).
    destruct (reporting_enabled config).
    + intros (entries & Hreport)%generate_report_spec.
      eexists writer, [_]. split; [|by exists entries].
      by rewrite Hreport, Hsaved, <- !app_assoc.
    + intros [= <-]. exists writer, []. split; [|done].
      by rewrite Hsaved, app_nil_r.
Qed.


Lemma bind_returns {S A B} (m : M S A) (k : A → M S B) s s' b :
  bind m k s = (s', Return b) →
  ∃ s1 a, m s = (s1, Return a) ∧ k a s1 = (s', Return b).
Proof.
  unfold bind. destruct (m s) as [s1 [a|e]]; [|done]. intros Hk.
  by exists s1, a.
Qed.

Lemma bind_raises {S A B} (m : M S A) (k : A → M S B) s s' e :
  bind m k s = (s', Raise e) →
  m s = (s', Raise e)
  ∨ ∃ s1 a, m s = (s1, Return a) ∧ k a s1 = (s', Raise e).
Proof.
  unfold bind. destruct (m s) as [s1 [a|e1]].
  - intros Hk. right. by exists s1, a.
  - intros [= <- <-]. by left.
Qed.

(** [ProvenanceTracker.save] attempts the directory, then the ledger as the
    tracker holds it. *)
Lemma save_provenance_run path w :
  save_provenance path w
  = match refused (history w) (Mkdir (parent (Path path))) with
    | Some x =>
        ({| history := history w ++ [Mkdir (parent (Path path))];
            engine := engine w |}, Raise x)
    | None =>
        ({| history := (history w ++ [Mkdir (parent (Path path))])
                       ++ [Dumped (Path path) (entries_of w)];
            engine := engine w |},
         match refused (history w ++ [Mkdir (parent (Path path))])
                 (Dumped (Path path) (entries_of w)) with
         | Some x => Raise x
         | None => Return tt
         end)
    end.
Proof.
  unfold save_provenance, bind, on_files, attempt, gets. cbn.
  destruct (refused (history w) _); [done|]. by destruct (refused _ _).
Qed.

(** X24: when [run] returns, the tracker holds the entries it held, then
    [start], the entries of the stages and, last, [complete] with the rows of
    the table returned; the operations the handler, the report generator and
    the tracker attempt on files are the output directory, the table
    returned written to the output file, the report if reporting is enabled,
    and the ledger written to [provenance.json] beside the output file: the
    ledger as it was before [complete] was logged. (The review file of the
    mapping engine is part of the engine's state.) *)
Theorem X24_run_saves_the_ledger_before_complete :
  ∀ w w' result entries0,
    run config w = (w', Return result) →
    Mapping.provenance (engine w) = Some entries0 →
    ∃ logged writer report_ops,
      Mapping.provenance (engine w')
      = Some (entries0 ++ pipeline_start :: logged
              ++ [pipeline_complete result])%list
      ∧ Forall (λ e, step e ≠ "pipeline") logged
      ∧ history w'
        = (history w
           ++ [Mkdir (parent (Path (output_file (io config))));
               Saved writer (Path (output_file (io config))) result]
           ++ report_ops
           ++ [Mkdir (parent (Path provenance_path));
               Dumped (Path provenance_path)
                 (entries0 ++ pipeline_start :: logged)])%list
      ∧ if reporting_enabled config
        then ∃ quality_results entries,
               report_ops
               = [Reported (joinpath (parent (Path (output_file (io config))))
                              (reporting_output_file config))
                    result quality_results entries]
        else report_ops = [].
Proof.
  intros w w' result entries0 Hrun Hprov. rewrite run_split in Hrun.
  apply bind_returns in Hrun as (w0 & [] & Hstart & Hrun).
  apply bind_returns in Hrun as (w1 & staged & Hstages & Hrun).
  apply bind_returns in Hrun as (w2 & [] & Houtputs & Hrun).
  apply bind_returns in Hrun as (w3 & [] & Hsave & Hrun).
  apply bind_returns in Hrun as (w4 & [] & Hcomplete & Hrun).
  injection Hrun as <- <-. injection Hcomplete as <-.
  assert (Mapping.provenance (engine w0)
          = Some (entries0 ++ [pipeline_start])%list
          ∧ history w0 = history w) as [Hledger0 Hhist0].
  { injection Hstart as <-. cbn. by rewrite Hprov. }
  clear Hstart.
  pose proof (stages_spec w0) as [Hgrows1 Hhist1].
  rewrite Hstages in Hgrows1, Hhist1. cbn [fst] in Hgrows1, Hhist1.
  destruct Hgrows1 as ((logged1 & Hledger1 & Hsteps1) & _ & _).
  pose proof (outputs_spec staged.1 staged.2 w1) as [Hgrows2 Hhist2].
  rewrite Houtputs in Hgrows2. cbn [fst] in Hgrows2.
  destruct Hgrows2 as ((logged2 & Hledger2 & Hsteps2) & _ & _).
  destruct (Hhist2 _ _ Houtputs) as (writer & report_ops & Hh2 & Hreport).
  rewrite save_provenance_run in Hsave.
  destruct (refused (history w2) _); [done|].
  destruct (refused _ (Dumped _ _)); [done|]. injection Hsave as <-.
  assert (Mapping.provenance (engine w2)
          = Some ((entries0 ++ [pipeline_start]) ++ logged1 ++ logged2)%list)
    as Hledger.
  { rewrite Hledger2, Hledger1, Hledger0. cbn. by rewrite !app_assoc. }
  exists (logged1 ++ logged2)%list, writer, report_ops.
  cbn. unfold entries_of. rewrite Hledger. cbn. unfold log.
  split; [by rewrite <- !app_assoc|]. split; [by apply Forall_app|].
  split.
  - rewrite Hh2, Hhist1, Hhist0. by rewrite <- !app_assoc.
  - destruct (reporting_enabled config); [|done].
    destruct Hreport as [entries ->]. by eexists _, _.
Qed.

(** X25: when [run] raises, [complete] is not logged, and the ledger is not
    written: no operation attempted writes it, unless writing it is the
    operation that raised. The tracker keeps what the stages logged. *)
Theorem X25_failed_run_saves_no_ledger :
  ∀ w w' e,
    run config w = (w', Raise e) →
    ∃ logged ops,
      Mapping.provenance (engine w')
      = (λ entries, entries ++ pipeline_start :: logged)%list
          <$> Mapping.provenance (engine w)
      ∧ Forall (λ e, step e ≠ "pipeline") logged
      ∧ history w' = (history w ++ ops)%list
      ∧ (Forall (λ op, ∀ path entries, op ≠ Dumped path entries) ops
         ∨ ∃ ops0 path entries,
             ops = (ops0 ++ [Dumped path entries])%list
             ∧ Forall (λ op, ∀ path entries, op ≠ Dumped path entries) ops0
             ∧ refused (history w ++ ops0) (Dumped path entries) = Some e).
Proof.
  intros w w' e Hrun. rewrite run_split in Hrun.
  set (w0 := (on_tracker (modify (λ p, log_if p pipeline_start)) w).1).
  assert (∀ w1, grows w0 w1 →
            ∃ logged ops,
              Mapping.provenance (engine w1)
              = (λ entries, entries ++ pipeline_start :: logged)%list
                  <$> Mapping.provenance (engine w)
              ∧ Forall (λ e, step e ≠ "pipeline") logged
              ∧ history w1 = (history w ++ ops)%list
              ∧ Forall (λ op, ∀ path entries, op ≠ Dumped path entries) ops)
    as Hfrom.
  { intros w1 ((logged & Hledger & Hsteps) & (ops & Hops & Hnone) & _).
    exists logged, ops. split; [|done].
    rewrite Hledger. subst w0. cbn.
    destruct (Mapping.provenance (engine w)); cbn; [|done].
    unfold log. by rewrite <- app_assoc. }
  apply bind_raises in Hrun as [Hstart|(w0' & [] & Hstart & Hrun)]; [done|].
  assert (w0' = w0) as -> by (by injection Hstart as <-). clear Hstart.
  pose proof (stages_spec w0) as [Hgrows1 _].
  apply bind_raises in Hrun as [Hstages|(w1 & staged & Hstages & Hrun)].
  { rewrite Hstages in Hgrows1.
    destruct (Hfrom _ Hgrows1) as (logged & ops & ? & ? & ? & ?).
    exists logged, ops. auto. }
  rewrite Hstages in Hgrows1. cbn [fst] in Hgrows1.
  pose proof (outputs_spec staged.1 staged.2 w1) as [Hgrows2 _].
  apply bind_raises in Hrun as [Houtputs|(w2 & [] & Houtputs & Hrun)].
  { rewrite Houtputs in Hgrows2.
    destruct (Hfrom _ (grows_trans _ _ _ Hgrows1 Hgrows2))
      as (logged & ops & ? & ? & ? & ?).
    exists logged, ops. auto. }
  rewrite Houtputs in Hgrows2. cbn [fst] in Hgrows2.
  destruct (Hfrom _ (grows_trans _ _ _ Hgrows1 Hgrows2))
    as (logged & ops & Hledger & Hsteps & Hops & Hnone).
  apply bind_raises in Hrun as [Hsave|(w3 & [] & Hsave & Hrun)].
  2:{ apply bind_raises in Hrun as [?|(? & ? & ? & ?)]; done. }
  rewrite save_provenance_run in Hsave.
  destruct (refused (history w2) (Mkdir _)) as [x|] eqn:Hmkdir.
  { injection Hsave as <- <-. cbn.
    exists logged, (ops ++ [Mkdir (parent (Path provenance_path))])%list.
    split; [done|]. split; [done|].
    split; [by rewrite Hops, app_assoc|]. left.
    apply Forall_app. split; [done|]. by repeat constructor. }
  destruct (refused _ (Dumped _ _)) as [x|] eqn:Hdump; [|done].
  injection Hsave as <- <-. cbn [history engine].
  exists logged,
    ((ops ++ [Mkdir (parent (Path provenance_path))])
     ++ [Dumped (Path provenance_path) (entries_of w2)])%list.
  split; [done|]. split; [done|].
  split; [by rewrite Hops, !app_assoc|]. right.
  exists (ops ++ [Mkdir (parent (Path provenance_path))])%list,
    (Path provenance_path), (entries_of w2).
  split; [done|]. split.
  - apply Forall_app. split; [exact Hnone|]. by repeat constructor.
  - by rewrite app_assoc, <- Hops.
Qed.

End pipeline_properties.

(** ** The handler and the pipeline on the examples *)

Lemma X22_registered_loader_witness :
  @Handlers.load Examples.plain_os
    (@Handlers.register_loader Examples.plain_os
       (@Handlers.new_handler Examples.plain_os) "JSON" Examples.json_loader)
    "in/input.csv" "json" None []
  = ([], Return Mapping.sample_data).
Proof.
  refine (eq_trans
            (@X22_registered_loader_is_used Examples.plain_os
               (@Handlers.new_handler Examples.plain_os) "JSON"
               Examples.json_loader "in/input.csv" "json" None [] _) _);
    vm_compute; reflexivity.
Defined.

Lemma X23_validated_formats_witness :
  (@Files.path_exists Examples.plain_os []
     (@Files.Path Examples.plain_os (Config.input_file Examples.sample_io)) = true →
   ∃ reader sheet,
     reader ∈ ["csv"; "excel"; "parquet"]
     ∧ @Handlers.load Examples.plain_os
         (@Handlers.new_handler Examples.plain_os)
         (Config.input_file Examples.sample_io)
         (Config.input_format Examples.sample_io)
         (Config.sheet_name Examples.sample_io) []
       = ([], @Files.read_table Examples.plain_os [] reader
                (@Files.Path Examples.plain_os
                   (Config.input_file Examples.sample_io)) sheet))
  ∧ ∃ writer,
      writer ∈ ["csv"; "excel"; "parquet"]
      ∧ @Handlers.save Examples.plain_os
          (@Handlers.new_handler Examples.plain_os) Mapping.sample_data
          (Config.output_file Examples.sample_io)
          (Config.output_format Examples.sample_io) []
        = (@Files.attempt Examples.plain_os
             (Files.Mkdir (@Files.parent Examples.plain_os
                       (@Files.Path Examples.plain_os
                          (Config.output_file Examples.sample_io)))) ;;;
           @Files.attempt Examples.plain_os
             (Files.Saved writer
                (@Files.Path Examples.plain_os
                   (Config.output_file Examples.sample_io))
                Mapping.sample_data)) [].
Proof.
  refine (@X23_validated_formats_are_supported Examples.plain_os
            Examples.sample_io Mapping.sample_data [] _).
  vm_compute; reflexivity.
Defined.

Lemma X24_full_run_witness :
  ∃ logged writer report_ops,
    Mapping.provenance (Pipeline.engine Examples.full_run.1)
    = Some ([] ++ Pipeline.pipeline_start :: logged
            ++ [Pipeline.pipeline_complete
                  (table_of Examples.full_run.2)])%list
    ∧ Forall (λ e, step e ≠ "pipeline") logged
    ∧ Pipeline.history Examples.full_run.1
      = ([] ++ [Files.Mkdir "out";
                Files.Saved writer "out/output.csv"
                  (table_of Examples.full_run.2)]
         ++ report_ops
         ++ [Files.Mkdir "out";
             Files.Dumped "out/provenance.json"
               ([] ++ Pipeline.pipeline_start :: logged)])%list
    ∧ report_ops = [].
Proof.
  refine (@X24_run_saves_the_ledger_before_complete Examples.plain_os
            Cleaning.plain_pandas Quality.warning_checks
            Mapping.exact_scorers Examples.full_run_config
            Examples.sample_world Examples.full_run.1
            (table_of Examples.full_run.2) [] _ _);
    vm_compute; reflexivity.
Defined.

Lemma X25_failed_run_witness :
  ∃ logged ops,
    Mapping.provenance (Pipeline.engine Examples.failed_run.1)
    = (λ entries, entries ++ Pipeline.pipeline_start :: logged)%list
        <$> Mapping.provenance (Pipeline.engine Examples.sample_world)
    ∧ Forall (λ e, step e ≠ "pipeline") logged
    ∧ Pipeline.history Examples.failed_run.1
      = (Pipeline.history Examples.sample_world ++ ops)%list
    ∧ (Forall (λ op, ∀ path entries, op ≠ Files.Dumped path entries) ops
       ∨ ∃ ops0 path entries,
           ops = (ops0 ++ [Files.Dumped path entries])%list
           ∧ Forall (λ op, ∀ path entries, op ≠ Files.Dumped path entries) ops0
           ∧ @Files.refused Examples.plain_os
               (Pipeline.history Examples.sample_world ++ ops0)
               (Files.Dumped path entries)
             = Some Examples.input_not_found).
Proof.
  refine (@X25_failed_run_saves_no_ledger Examples.plain_os
            Cleaning.plain_pandas Quality.warning_checks
            Mapping.exact_scorers Examples.missing_input_config
            Examples.sample_world Examples.failed_run.1
            Examples.input_not_found _);
    vm_compute; reflexivity.
Defined.
